(** * Skill registry of AS_SKILLS: a shallow embedding and its properties

    The development follows [src/skill_manager.py] (class [SkillManager]) and
    [src/skilled_react_agent.py] (class [SkilledReActAgent]).

    Conventions of the embedding.
    - A Python [str] is a [string]; the character model is ASCII (code points
      above 127 are neither cased nor white space here).
    - A [dict] whose iteration order is observable is an association list in
      insertion order (module [PyDict]); a [set] of words is a [gset string].
    - Code that mutates the manager or the toolkit is written in explicit
      state-passing style; a raised exception leaves the mutations done so
      far in place, as in Python.
    - The file system, the module importer, [yaml.safe_load] and [re.findall]
      are read through a [World] record; the clock [time.time()] is an
      argument.  Every access to the file system answers or raises,
      [Path.exists()] and [Path.is_dir()] included ([PermissionError] for a
      folder that may not be searched, [OSError] for a name that is too
      long).
    - An object raised by the code of a skill is a [Raised]: its [str(e)]
      may raise in its turn.
    - Calls to [logger] have no effect on results or state and are left out. *)

From Stdlib Require Import ZArith QArith Ascii String List Bool Lia.
From stdpp Require Import base option list strings gmap.

Local Open Scope list_scope.
Local Open Scope string_scope.

#[local] Arguments append !s1 s2 : simpl nomatch.

(** ** Python strings *)

Module PyStr.

(** [c.isspace()] on ASCII: TAB, LF, VT, FF, CR, FS, GS, RS, US and SPACE. *)
Definition isspace (c : ascii) : bool :=
  let n := nat_of_ascii c in
  (((9 <=? n) && (n <=? 13)) || ((28 <=? n) && (n <=? 32)))%nat.

Definition isupper (c : ascii) : bool :=
  let n := nat_of_ascii c in ((65 <=? n) && (n <=? 90))%nat.

Definition islower (c : ascii) : bool :=
  let n := nat_of_ascii c in ((97 <=? n) && (n <=? 122))%nat.

Definition lower_char (c : ascii) : ascii :=
  if isupper c then ascii_of_nat (nat_of_ascii c + 32) else c.

Definition upper_char (c : ascii) : ascii :=
  if islower c then ascii_of_nat (nat_of_ascii c - 32) else c.

Fixpoint map_chars (f : ascii -> ascii) (s : string) : string :=
  match s with
  | EmptyString => EmptyString
  | String c s' => String (f c) (map_chars f s')
  end.

(** [s.lower()] *)
Definition lower (s : string) : string := map_chars lower_char s.

(** [s.replace(a, b)] for one-character [a] and [b]. *)
Definition replace (a b : ascii) (s : string) : string :=
  map_chars (fun c => if Ascii.eqb c a then b else c) s.

(** [s.title()]: a cased character is upper-cased when the previous
    character is not cased, and lower-cased otherwise. *)
Fixpoint title_from (prev_cased : bool) (s : string) : string :=
  match s with
  | EmptyString => EmptyString
  | String c s' =>
      if islower c then
        String (if prev_cased then c else upper_char c) (title_from true s')
      else if isupper c then
        String (if prev_cased then lower_char c else c) (title_from true s')
      else String c (title_from false s')
  end.

Definition title (s : string) : string := title_from false s.

Definition is_empty (s : string) : bool :=
  match s with EmptyString => true | String _ _ => false end.

(** [s.startswith(p)] *)
Definition startswith (p s : string) : bool := String.prefix p s.

(** [s[n:]] for [0 <= n]. *)
Fixpoint skip (n : nat) (s : string) : string :=
  match n, s with
  | O, _ => s
  | S _, EmptyString => EmptyString
  | S n', String _ s' => skip n' s'
  end.

(** [s[:n]] for [0 <= n]. *)
Fixpoint keep (n : nat) (s : string) : string :=
  match n, s with
  | O, _ => EmptyString
  | S _, EmptyString => EmptyString
  | S n', String c s' => String c (keep n' s')
  end.

(** A slice bound as Python clips it: negative bounds count from the end. *)
Definition clip (len : nat) (i : Z) : nat :=
  if (i <? 0)%Z then Z.to_nat (Z.max 0 (Z.of_nat len + i))
  else Nat.min (Z.to_nat i) len.

(** [s[lo:]] *)
Definition slice_from (s : string) (lo : Z) : string :=
  skip (clip (String.length s) lo) s.

(** [s[lo:hi]] *)
Definition slice (s : string) (lo hi : Z) : string :=
  let l := clip (String.length s) lo in
  let h := clip (String.length s) hi in
  keep (h - l) (skip l s).

(** Left-to-right scan for the first position, counted from [i], at which
    [sub] starts. *)
Fixpoint find_from (sub s : string) (i : nat) {struct s} : option nat :=
  if String.prefix sub s then Some i
  else match s with
       | EmptyString => None
       | String _ s' => find_from sub s' (S i)
       end.

(** [s.find(sub, start)] for [0 <= start]: the lowest index at or after
    [start] where [sub] occurs, or [-1]. *)
Definition find (sub s : string) (start : nat) : Z :=
  if (String.length s <? start)%nat then (-1)%Z
  else match find_from sub (skip start s) start with
       | Some i => Z.of_nat i
       | None => (-1)%Z
       end.

(** [sub in s] *)
Definition contains (sub s : string) : bool :=
  match find_from sub s 0 with Some _ => true | None => false end.

(** [s.lstrip()], [s.rstrip()] and [s.strip()] *)
Fixpoint lstrip (s : string) : string :=
  match s with
  | EmptyString => EmptyString
  | String c s' => if isspace c then lstrip s' else s
  end.

Fixpoint rstrip (s : string) : string :=
  match s with
  | EmptyString => EmptyString
  | String c s' =>
      let r := rstrip s' in
      if isspace c && is_empty r then EmptyString else String c r
  end.

Definition strip (s : string) : string := rstrip (lstrip s).

(** [s.split()]: the maximal runs of characters that are not white space. *)
Fixpoint split_from (cur : string) (s : string) : list string :=
  match s with
  | EmptyString => if is_empty cur then [] else [cur]
  | String c s' =>
      if isspace c then
        if is_empty cur then split_from EmptyString s'
        else cur :: split_from EmptyString s'
      else split_from (cur ++ String c EmptyString) s'
  end.

Definition split (s : string) : list string := split_from EmptyString s.

(** [s.split(sep)] for a one-character separator: empty pieces are kept. *)
Fixpoint split_on (sep : ascii) (s : string) : list string :=
  match s with
  | EmptyString => [EmptyString]
  | String c s' =>
      let r := split_on sep s' in
      if Ascii.eqb c sep then EmptyString :: r
      else match r with
           | w :: ws => String c w :: ws
           | [] => [String c EmptyString]
           end
  end.

(** [sep.join(parts)] *)
Definition join (sep : string) (parts : list string) : string :=
  String.concat sep parts.

End PyStr.

(** ** Body extraction (the block of [load_skill] after the manifest is read)

<<
    if content.startswith('---'):
        end_index = content.find('---', 3)
        skill_content = content[end_index + 3:].strip()
    else:
        skill_content = content
>> *)

Definition extract_body (content : string) : string :=
  if PyStr.startswith "---" content then
    let end_index := PyStr.find "---" content 3 in
    PyStr.strip (PyStr.slice_from content (end_index + 3)%Z)
  else content.

(** ** Python values, exceptions and the state monad *)

(** The class of a raised object, as far as the [except] clauses of the
    program tell classes apart.  [NonException] stands for the classes that
    derive from [BaseException] only ([SystemExit], [KeyboardInterrupt],
    [GeneratorExit]); [except Exception] does not catch them. *)
Inductive ExnClass :=
  | ValueError | AttributeError | TypeError | OSError | YAMLError
  | OtherException | NonException.

(** A raised object: its class and [str(e)]. *)
Record PyExn := mkExn { exn_class : ExnClass; exn_str : string }.

(** [isinstance(e, Exception)] *)
Definition is_Exception (e : PyExn) : bool :=
  match exn_class e with NonException => false | _ => true end.

(** [isinstance(e, yaml.YAMLError)] *)
Definition is_YAMLError (e : PyExn) : bool :=
  match exn_class e with YAMLError => true | _ => false end.

Inductive result (A : Type) :=
  | Return (a : A)
  | Raise (e : PyExn).
Arguments Return {A} a.
Arguments Raise {A} e.

(** A computation over a mutable object of type [S]: it returns or raises, and
    in both cases hands back the object as it has been mutated so far. *)
Definition M (S A : Type) : Type := S -> result A * S.

Definition ret {S A} (a : A) : M S A := fun s => (Return a, s).
Definition raise {S A} (e : PyExn) : M S A := fun s => (Raise e, s).
Definition bind {S A B} (c : M S A) (k : A -> M S B) : M S B :=
  fun s => match c s with
           | (Return a, s') => k a s'
           | (Raise e, s') => (Raise e, s')
           end.
Definition get_state {S} : M S S := fun s => (Return s, s).
Definition put_state {S} (s : S) : M S unit := fun _ => (Return tt, s).
Definition modify {S} (f : S -> S) : M S unit := fun s => (Return tt, f s).

(** A pure computation that may raise, run without touching the object. *)
Definition lift {S A} (r : result A) : M S A := fun s => (r, s).

(** [try: c except Exception as e: h e] *)
Definition try_except_Exception {S A} (c : M S A) (h : PyExn -> M S A) : M S A :=
  fun s => match c s with
           | (Return a, s') => (Return a, s')
           | (Raise e, s') => if is_Exception e then h e s' else (Raise e, s')
           end.

Declare Scope py_scope.
Delimit Scope py_scope with py.
Notation "x <- c ;; k" := (bind c (fun x => k))
  (at level 100, c at next level, right associativity) : py_scope.
Notation "c ;;; k" := (bind c (fun _ => k))
  (at level 100, right associativity) : py_scope.

(** [for x in xs: body x], stopping at the first exception. *)
Fixpoint for_each {S A} (body : A -> M S unit) (xs : list A) : M S unit :=
  match xs with
  | [] => ret tt
  | x :: xs' => bind (body x) (fun _ => for_each body xs')
  end.

(** ** Insertion-ordered dictionaries *)

Module PyDict.
Section ops.
Context {K V : Type} `{EqDecision K}.

(** [d.get(k)] *)
Fixpoint get (k : K) (d : list (K * V)) : option V :=
  match d with
  | [] => None
  | (k', v) :: d' => if decide (k' = k) then Some v else get k d'
  end.

(** [k in d] *)
Definition mem (k : K) (d : list (K * V)) : bool :=
  match get k d with Some _ => true | None => false end.

(** [d[k] = v]: an existing key keeps its position, a new one goes last. *)
Fixpoint set (k : K) (v : V) (d : list (K * V)) : list (K * V) :=
  match d with
  | [] => [(k, v)]
  | (k', v') :: d' =>
      if decide (k' = k) then (k', v) :: d' else (k', v') :: set k v d'
  end.

(** [del d[k]] for a key that is present; nothing happens otherwise. *)
Fixpoint del (k : K) (d : list (K * V)) : list (K * V) :=
  match d with
  | [] => []
  | (k', v') :: d' =>
      if decide (k' = k) then d' else (k', v') :: del k d'
  end.

Definition keys (d : list (K * V)) : list K := map fst d.
End ops.
End PyDict.

(** ** YAML documents, as [yaml.safe_load] returns them

    A document is null, a string, a sequence or a mapping.  Scalars of other
    types (numbers, booleans, dates) are outside the model; mapping keys are
    strings, which is all that [frontmatter.get('name')] and its siblings can
    tell apart. *)

#[warnings="-register-all"]
Inductive YValue :=
  | YNull
  | YStr (s : string)
  | YSeq (items : list YValue)
  | YMap (entries : list (string * YValue)).

(** Python truth value: [not v] is [negb (truthy v)]. *)
Definition truthy (v : YValue) : bool :=
  match v with
  | YNull => false
  | YStr s => negb (PyStr.is_empty s)
  | YSeq items => match items with [] => false | _ => true end
  | YMap entries => match entries with [] => false | _ => true end
  end.

(** [type(v).__name__], used in the text of an [AttributeError]. *)
Definition type_name (v : YValue) : string :=
  match v with
  | YNull => "NoneType" | YStr _ => "str" | YSeq _ => "list" | YMap _ => "dict"
  end.

Definition no_attribute (v : YValue) (attr : string) : PyExn :=
  mkExn AttributeError
        ("'" ++ type_name v ++ "' object has no attribute '" ++ attr ++ "'").

(** [v.get(key, default)]: only a mapping has the method. *)
Definition yget (v : YValue) (key : string) (default : YValue) : result YValue :=
  match v with
  | YMap entries =>
      Return (match PyDict.get key entries with Some x => x | None => default end)
  | _ => Raise (no_attribute v "get")
  end.

(** [v.lower()]: only a string has the method. *)
Definition ylower (v : YValue) : result string :=
  match v with
  | YStr s => Return (PyStr.lower s)
  | _ => Raise (no_attribute v "lower")
  end.

(** Keys of [discovered_skills]: the hashable values among the above.  Lists
    and mappings are unhashable. *)
Inductive Key :=
  | KNone
  | KStr (s : string).

#[export] Instance Key_eq_dec : EqDecision Key.
Proof. solve_decision. Defined.

Definition key_value (k : Key) : YValue :=
  match k with KNone => YNull | KStr s => YStr s end.

Definition key_of (v : YValue) : result Key :=
  match v with
  | YNull => Return KNone
  | YStr s => Return (KStr s)
  | YSeq _ | YMap _ =>
      Raise (mkExn TypeError ("unhashable type: '" ++ type_name v ++ "'"))
  end.

(** ** The dataclass [SkillMetadata]

    The fields read from the front matter hold whatever value YAML produced:
    the dataclass does not check its annotations. *)

Module SkillMetadata.
Record t := mk {
  name : YValue;
  description : YValue;
  directory : string;
  skill_file_path : string;
  dependencies : YValue;
  version : YValue;
  author : YValue
}.

(** The constructor followed by [__post_init__]. *)
Definition init (name description : YValue) (directory skill_file_path : string)
           (dependencies version author : YValue) : t :=
  mk name description directory skill_file_path
     (match dependencies with YNull => YSeq [] | d => d end)
     version author.
End SkillMetadata.

(** ** Tools *)

Record TextBlock := mkTextBlock { tb_type : string; tb_text : string }.

(** [agentscope.tool.ToolResponse], with the two fields the program sets. *)
Record ToolResponse := mkToolResponse { content : list TextBlock; is_last : bool }.

(** [ToolResponse(content=[TextBlock(type="text", text=s)], is_last=True)] *)
Definition text_response (s : string) : ToolResponse :=
  mkToolResponse [mkTextBlock "text" s] true.

(** An object raised by the code of a skill: its class, and what [str(e)]
    gives.  The class may be one of the skill's own and define [__str__],
    which can raise in its turn. *)
Inductive Raised :=
  | Exn (c : ExnClass) (s : string)         (* [str(e)] is [s] *)
  | ExnBadStr (c : ExnClass) (e' : Raised). (* [str(e)] raises [e'] *)

Definition raised_class (e : Raised) : ExnClass :=
  match e with Exn c _ | ExnBadStr c _ => c end.

(** [isinstance(e, Exception)] *)
Definition raised_is_Exception (e : Raised) : bool :=
  match raised_class e with NonException => false | _ => true end.

(** What running code of a skill ends in. *)
Inductive outcome (A : Type) :=
  | Returns (a : A)
  | Raises (e : Raised).
Arguments Returns {A} a.
Arguments Raises {A} e.

(** [str(e)] *)
Definition raised_str (e : Raised) : outcome string :=
  match e with
  | Exn _ s => Returns s
  | ExnBadStr _ e' => Raises e'
  end.

(** What a skill function hands back: a [str], a [ToolResponse], or any other
    object, known by what [str(result)] gives (or raises). *)
Inductive PyValue :=
  | PyStr (s : string)
  | PyToolResponse (r : ToolResponse)
  | PyObject (str_of : outcome string).

(** [*args, **kwargs] *)
Definition PyArgs : Type := list PyValue * list (string * PyValue).

(** The types [_register_by_type_hints] looks for in a return annotation. *)
Inductive PyType :=
  | Tstr | Tdict | Tlist | Tbool | Tint | Tfloat
  | Tother (repr : string).

(** [str(t)] for a type object. *)
Definition type_str (t : PyType) : string :=
  match t with
  | Tstr => "<class 'str'>" | Tdict => "<class 'dict'>"
  | Tlist => "<class 'list'>" | Tbool => "<class 'bool'>"
  | Tint => "<class 'int'>" | Tfloat => "<class 'float'>"
  | Tother repr => repr
  end.

(** An attribute of an imported module, seen through the introspection the
    registration strategies perform. *)
Record PyAttr := mkAttr {
  callable : bool;                          (* callable(attr) *)
  skill_tool : option bool;                 (* hasattr(attr, '__skill_tool__') and its truth value *)
  skill_tool_description : option string;   (* attr.__skill_tool_description__ *)
  doc : option string;                      (* attr.__doc__ *)
  annotations : option (list (string * PyType)); (* attr.__annotations__ *)
  call : PyArgs -> outcome PyValue          (* attr( *args, **kwargs) *)
}.

(** [[(n, getattr(module, n)) for n in dir(module)]] *)
Definition PyModule : Type := list (string * PyAttr).

(** A call of the closure [wrapped_tool], whose header is
<<
    def wrapped_tool( *args, attr_name=attr_name, attr=attr, **kwargs):
>>
    so that [attr_name] and [attr] are keyword parameters of the wrapper:
    a keyword of one of these names is bound to the parameter and is not
    passed on in [kwargs]. *)
Record WrapperCall := mkWrapperCall {
  call_args : PyArgs;                        (* [args], and the keywords left for [kwargs] *)
  kw_attr_name : option (outcome string);    (* a keyword [attr_name], by what the f-string
                                                of the handler makes of its value *)
  kw_attr : option (PyArgs -> outcome PyValue) (* a keyword [attr], by what calling its
                                                  value does *)
}.

(** A call that passes neither keyword. *)
Definition plain_call (args : PyArgs) : WrapperCall := mkWrapperCall args None None.

(** The function object [wrapped_tool] after its attributes have been set. *)
Record ToolFunc := mkToolFunc {
  func_name : string;                        (* __name__ *)
  func_doc : option string;                  (* __doc__ *)
  func_skill_tool : option string;           (* __skill_tool_description__ when __skill_tool__ is set *)
  func_call : WrapperCall -> outcome ToolResponse
}.

(** The closure [wrapped_tool] that every strategy builds; the arguments
    [attr_name] and [attr] are the defaults of its keyword parameters.
<<
    try:
        result = attr( *args, **kwargs)
        if isinstance(result, str): return ToolResponse(content=[TextBlock(type="text", text=result)], is_last=True)
        elif isinstance(result, ToolResponse): return result
        else: return ToolResponse(content=[TextBlock(type="text", text=str(result))], is_last=True)
    except Exception as e:
        error_msg = f"Error executing {attr_name}: {str(e)}"
        return ToolResponse(content=[TextBlock(type="text", text=error_msg)], is_last=True)
>> *)
Definition wrapped_tool (attr_name : string) (attr : PyArgs -> outcome PyValue)
           (c : WrapperCall) : outcome ToolResponse :=
  let attr_name : outcome string :=
    match kw_attr_name c with Some name => name | None => Returns attr_name end in
  let attr := match kw_attr c with Some attr' => attr' | None => attr end in
  let try_block : outcome ToolResponse :=
    match attr (call_args c) with
    | Returns (PyStr s) => Returns (text_response s)
    | Returns (PyToolResponse r) => Returns r
    | Returns (PyObject str_of) =>
        match str_of with
        | Returns s => Returns (text_response s)
        | Raises e => Raises e
        end
    | Raises e => Raises e
    end in
  match try_block with
  | Returns r => Returns r
  | Raises e =>
      if raised_is_Exception e then
        match attr_name with
        | Returns name =>
            match raised_str e with
            | Returns s =>
                Returns (text_response ("Error executing " ++ name ++ ": " ++ s))
            | Raises e' => Raises e'
            end
        | Raises e' => Raises e'
        end
      else Raises e
  end.

(** ** The toolkit

    [agentscope.tool.Toolkit] is a library class; the manager calls four of
    its members, modelled here: [tools], [create_tool_group],
    [register_tool_function] and [update_tool_groups]. *)

(** The text of [f"Skill: {metadata.name}\n{metadata.description}"], kept as
    its pieces. *)
Inductive FPart :=
  | FLit (s : string)
  | FVal (v : YValue).

Record ToolGroup := mkToolGroup {
  tg_description : YValue;
  tg_active : bool;
  tg_notes : list FPart
}.

Record RegisteredToolFunction := mkRegistered {
  rt_func : ToolFunc;
  rt_group : string
}.

Record Toolkit := mkToolkit {
  tools : list (string * RegisteredToolFunction);
  groups : list (string * ToolGroup)
}.

Definition Toolkit_init : Toolkit := mkToolkit [] [].

(** A group name can be created once; ["basic"] is reserved. *)
Definition create_tool_group (group_name : string) (description : YValue)
           (active : bool) (notes : list FPart) : M Toolkit unit :=
  fun tk =>
    if PyDict.mem group_name (groups tk) || String.eqb group_name "basic" then
      (Raise (mkExn ValueError
                ("Tool group '" ++ group_name ++ "' is already registered in the toolkit.")), tk)
    else
      (Return tt,
       mkToolkit (tools tk)
                 (PyDict.set group_name (mkToolGroup description active notes) (groups tk))).

(** The function is stored under its [__name__]; the group must exist and the
    name must be free. *)
Definition register_tool_function (tool_func : ToolFunc) (group_name : string)
  : M Toolkit unit :=
  fun tk =>
    if negb (PyDict.mem group_name (groups tk)) && negb (String.eqb group_name "basic") then
      (Raise (mkExn ValueError ("Tool group '" ++ group_name ++ "' not found.")), tk)
    else if PyDict.mem (func_name tool_func) (tools tk) then
      (Raise (mkExn ValueError
                ("A function with name '" ++ func_name tool_func
                 ++ "' is already registered in the toolkit.")), tk)
    else
      (Return tt,
       mkToolkit (PyDict.set (func_name tool_func) (mkRegistered tool_func group_name) (tools tk))
                 (groups tk)).

(** Groups that exist are switched; unknown names are passed over. *)
Definition update_tool_groups (group_names : list string) (active : bool)
  : M Toolkit unit :=
  modify (fun tk =>
    mkToolkit (tools tk)
      (fold_left
         (fun gs group_name =>
            match PyDict.get group_name gs with
            | Some g =>
                PyDict.set group_name
                  (mkToolGroup (tg_description g) active (tg_notes g)) gs
            | None => gs
            end)
         group_names (groups tk))).

(** ** Tool extraction: the four strategies of [_register_skill_tools] *)

(** [for x in xs: acc = body(x, acc)]: a loop with one local variable. *)
Fixpoint for_fold {S A B} (body : A -> B -> M S B) (xs : list A) (acc : B) : M S B :=
  match xs with
  | [] => ret acc
  | x :: xs' => bind (body x acc) (fun acc' => for_fold body xs' acc')
  end.

Definition tool_patterns : list string :=
  ["extract_"; "analyze_"; "process_"; "convert_";
   "create_"; "generate_"; "check_"; "get_";
   "parse_"; "transform_"; "validate_"; "search_"].

Definition tool_indicators : list string :=
  ["tool:"; "extract"; "analyze"; "process"; "convert";
   "create"; "generate"; "check"; "parse"; "transform";
   "validate"; "search"; "function:"; "method:"].

(** [any(p in text for p in patterns)] *)
Definition any_in (patterns : list string) (text : string) : bool :=
  existsb (fun p => PyStr.contains p text) patterns.

(** [hasattr(attr, '__skill_tool__')] *)
Definition has_skill_tool (attr : PyAttr) : bool :=
  match skill_tool attr with Some _ => true | None => false end.

(** [not attr.__doc__] *)
Definition doc_is_empty (attr : PyAttr) : bool :=
  match doc attr with
  | None => true
  | Some d => PyStr.is_empty d
  end.

(** The tail shared by the strategies, once a candidate has been chosen:
<<
    if attr_name in self.toolkit.tools:
        continue
    def wrapped_tool(...): ...
    wrapped_tool.__name__ = attr_name
    wrapped_tool.__doc__ = ...
    self.toolkit.register_tool_function(tool_func=wrapped_tool, group_name=skill_name)
    count += 1
>> *)
Definition register_wrapped (attr_name : string) (attr : PyAttr)
           (wrapped_doc : option string) (marker : option string)
           (skill_name : string) (count : nat) : M Toolkit nat :=
  (tk <- get_state ;;
   if PyDict.mem attr_name (tools tk) then ret count
   else
     register_tool_function
       (mkToolFunc attr_name wrapped_doc marker (wrapped_tool attr_name (call attr)))
       skill_name ;;;
     ret (count + 1))%py.

(** Strategy 1: the [@skill_tool] decorator. *)
Definition _register_explicit_tools (module : PyModule) (skill_name : string)
  : M Toolkit nat :=
  for_fold
    (fun '(attr_name, attr) count =>
       if callable attr && has_skill_tool attr
          && match skill_tool attr with Some b => b | None => false end
       then
         let description :=
           match skill_tool_description attr with Some d => d | None => "" end in
         register_wrapped attr_name attr (doc attr) (Some description) skill_name count
       else ret count)
    module 0.

(** Strategy 2: naming convention. *)
Definition _register_by_naming_convention (module : PyModule) (skill_name : string)
  : M Toolkit nat :=
  for_fold
    (fun '(attr_name, attr) count =>
       if callable attr && negb (has_skill_tool attr) then
         if any_in tool_patterns (PyStr.lower attr_name) then
           register_wrapped attr_name attr (doc attr) None skill_name count
         else ret count
       else ret count)
    module 0.

(** [_is_tool_docstring] *)
Definition _is_tool_docstring (doc : option string) : bool :=
  match doc with
  | None => false
  | Some d =>
      if PyStr.is_empty d then false
      else any_in tool_indicators (PyStr.lower d)
  end.

Definition typing_names : list string :=
  ["Any"; "Dict"; "List"; "Optional"; "Tuple"; "Set"; "Union"; "Type"; "Optional"].

(** [continue] followed, in the same block, by statements: control leaves the
    iteration at [continue], so the statements are never run. *)
Definition continue_then {S B} (count : B) (never_run : M S B) : M S B :=
  ret count.

(** Strategy 3: docstring analysis.  In the source the registration block
    (from [doc = attr.__doc__] to [count += 1]) is indented under the [if]
    that ends in [continue], after the [continue]; an attribute that passes
    the filter reaches the end of the loop body with nothing left to do. *)
Definition _register_by_docstring_analysis (module : PyModule) (skill_name : string)
  : M Toolkit nat :=
  for_fold
    (fun '(attr_name, attr) count =>
       if negb (callable attr)
          || PyStr.startswith "_" attr_name
          || has_skill_tool attr
          || doc_is_empty attr
          || existsb (String.eqb attr_name) typing_names
       then
         continue_then count
           (if negb (doc_is_empty attr) && _is_tool_docstring (doc attr) then
              register_wrapped attr_name attr (doc attr) None skill_name count
            else ret count)
       else ret count)
    module 0.

(** [return_type in [str, dict, list, bool, int, float]] *)
Definition is_tool_return_type (t : PyType) : bool :=
  match t with
  | Tstr | Tdict | Tlist | Tbool | Tint | Tfloat => true
  | Tother _ => false
  end.

(** Strategy 4: type hints. *)
Definition _register_by_type_hints (module : PyModule) (skill_name : string)
  : M Toolkit nat :=
  for_fold
    (fun '(attr_name, attr) count =>
       if callable attr && negb (has_skill_tool attr) && doc_is_empty attr then
         match annotations attr with
         | Some ((_ :: _) as anns) =>
             match PyDict.get "return" anns with
             | Some return_type =>
                 if is_tool_return_type return_type then
                   register_wrapped attr_name attr
                     (Some ("Tool function with return type: " ++ type_str return_type)%string)
                     None skill_name count
                 else ret count
             | None => ret count
             end
         | _ => ret count
         end
       else ret count)
    module 0.

(** The [descriptions] table of [_generate_tool_description]: each verb with
    the word that opens its description. *)
Definition description_verbs : list (string * string) :=
  [("extract", "Extract"); ("analyze", "Analyze"); ("process", "Process");
   ("convert", "Convert"); ("create", "Create"); ("generate", "Generate");
   ("check", "Check"); ("get", "Get"); ("parse", "Parse");
   ("transform", "Transform"); ("validate", "Validate"); ("search", "Search")].

(** [_generate_tool_description]; no registration strategy calls it. *)
Definition _generate_tool_description (attr_name : string) : string :=
  let name_parts := PyStr.split_on "_" attr_name in
  if (2 <=? length name_parts)%nat then
    let action := match name_parts with a :: _ => a | [] => "" end in
    let object_name := PyStr.join "_" (tail name_parts) in
    match PyDict.get action description_verbs with
    | Some verb => verb ++ " " ++ object_name
    | None => PyStr.title (PyStr.replace "_" " " attr_name)
    end
  else PyStr.title (PyStr.replace "_" " " attr_name).

(** [_get_skill_tools] *)
Definition _get_skill_tools (tk : Toolkit) (skill_name : string) : list string :=
  map fst
      (List.filter (fun '(_, tool_func) => String.eqb (rt_group tool_func) skill_name)
                   (tools tk)).

(** ** The world outside the manager *)

Record World := mkWorld {
  path_exists : string -> result bool;              (* Path.exists() *)
  path_is_dir : string -> result bool;              (* Path.is_dir() *)
  path_iterdir : string -> result (list string);    (* Path.iterdir() *)
  path_join : string -> string -> string;           (* the / operator of pathlib *)
  path_glob : string -> string -> list string;      (* Path.glob(pattern) *)
  path_name : string -> string;                     (* Path.name *)
  path_stem : string -> string;                     (* Path.stem *)
  read_text : string -> result string;              (* open(p, 'r', encoding='utf-8').read() *)
  yaml_safe_load : string -> result YValue;         (* yaml.safe_load *)
  re_findall_links : string -> list (string * string);  (* re.findall(link_pattern, _) *)
  re_findall_includes : string -> list string;      (* re.findall(include_pattern, _) *)
  exec_module : string -> string -> result PyModule (* importlib: load module_name from a file *)
}.

Definition rbind {A B} (r : result A) (k : A -> result B) : result B :=
  match r with
  | Return a => k a
  | Raise e => Raise e
  end.

Notation "'let?' x := c 'in' k" := (rbind c (fun x => k))
  (at level 10, x name, c at level 100, k at level 200) : py_scope.

Definition nl : string := String (ascii_of_nat 10) EmptyString.

(** ** The manifest parser

    [parse_manifest] is [_parse_skill_metadata] from the point where the file
    has been read into [content]. *)

Definition parse_manifest (w : World) (skill_dir skill_file content : string)
  : result SkillMetadata.t :=
  if PyStr.startswith "---" content then
    let try_block : result SkillMetadata.t :=
      let end_index := PyStr.find "---" content 3 in
      if (end_index =? -1)%Z then
        Raise (mkExn ValueError "Invalid YAML frontmatter format")
      else
        let yaml_content := PyStr.strip (PyStr.slice content 3 end_index) in
        (let? frontmatter := yaml_safe_load w yaml_content in
         let? name := yget frontmatter "name" YNull in
         let? description := yget frontmatter "description" YNull in
         if negb (truthy name) || negb (truthy description) then
           Raise (mkExn ValueError "Missing required fields 'name' or 'description'")
         else
           let? dependencies := yget frontmatter "dependencies" (YSeq []) in
           let? version := yget frontmatter "version" (YStr "1.0.0") in
           let? author := yget frontmatter "author" (YStr "") in
           Return (SkillMetadata.init name description skill_dir skill_file
                                      dependencies version author))%py
    in
    match try_block with
    | Return metadata => Return metadata
    | Raise e =>
        if is_YAMLError e then
          Raise (mkExn ValueError ("Invalid YAML in frontmatter: " ++ exn_str e))
        else Raise e
    end
  else Raise (mkExn ValueError "SKILL.md must start with YAML frontmatter").

Definition _parse_skill_metadata (w : World) (skill_dir skill_file : string)
  : result SkillMetadata.t :=
  (let? content := read_text w skill_file in
   parse_manifest w skill_dir skill_file content)%py.

(** ** The skill manager *)

(** The dictionary [skill_data] that [load_skill] builds. *)
Record SkillData := mkSkillData {
  sd_metadata : SkillMetadata.t;
  sd_content : string;
  sd_additional_resources : list (string * string);
  sd_tools : list string
}.

Record SkillManager := mkSkillManager {
  skill_directory : string;
  discovered_skills : list (Key * SkillMetadata.t);
  loaded_skills : list (string * SkillData);
  toolkit : Toolkit
}.

(** [SkillManager.__init__] *)
Definition SkillManager_init (skill_directory : string) : SkillManager :=
  mkSkillManager skill_directory [] [] Toolkit_init.

(** A call on [self.toolkit]. *)
Definition on_toolkit {A} (c : M Toolkit A) : M SkillManager A :=
  fun self =>
    let '(r, tk) := c (toolkit self) in
    (r, mkSkillManager (skill_directory self) (discovered_skills self)
                       (loaded_skills self) tk).

(** [discover_skills] *)
Definition discover_skills (w : World) : M SkillManager (list (Key * SkillMetadata.t)) :=
  (self <- get_state ;;
   directory_exists <- lift (path_exists w (skill_directory self)) ;;
   if negb directory_exists then ret []
   else
     entries <- lift (path_iterdir w (skill_directory self)) ;;
     skills <-
       for_fold
         (fun skill_dir (skills : list (Key * SkillMetadata.t)) =>
            is_dir <- lift (path_is_dir w skill_dir) ;;
            if negb is_dir then ret skills
            else
              let skill_file := path_join w skill_dir "SKILL.md" in
              file_exists <- lift (path_exists w skill_file) ;;
              if negb file_exists then ret skills
              else
                try_except_Exception
                  (metadata <- lift (_parse_skill_metadata w skill_dir skill_file) ;;
                   key <- lift (key_of (SkillMetadata.name metadata)) ;;
                   ret (PyDict.set key metadata skills))
                  (fun _ => ret skills))
         entries [] ;;
     modify (fun self =>
               mkSkillManager (skill_directory self) skills
                              (loaded_skills self) (toolkit self)) ;;;
     ret skills)%py.

(** [_load_additional_resources] *)
Definition _load_additional_resources (w : World) (content skill_dir : string)
  : result (list (string * string)) :=
  (let? resources :=
     fold_left
       (fun (acc : result (list (string * string))) '(link_text, filename) =>
          let? resources := acc in
          let file_path := path_join w skill_dir (filename ++ ".md") in
          let? file_exists := path_exists w file_path in
          if file_exists then
            let? text := read_text w file_path in
            Return (PyDict.set filename text resources)
          else Return resources)
       (re_findall_links w content) (Return []) in
   fold_left
     (fun (acc : result (list (string * string))) filename =>
        let? resources := acc in
        let file_path := path_join w skill_dir filename in
        let? file_exists := path_exists w file_path in
        if file_exists then
          let? text := read_text w file_path in
          Return (PyDict.set filename text resources)
        else Return resources)
     (re_findall_includes w content) (Return resources))%py.

(** [_register_skill_tools] *)
Definition _register_skill_tools (w : World) (skill_name skill_dir : string)
  : M Toolkit unit :=
  let py_files :=
    (path_glob w skill_dir "*.py" ++ path_glob w skill_dir "scripts/*.py")%list in
  for_fold
    (fun py_file (_ : unit) =>
       if String.eqb (path_name w py_file) "__init__.py" then ret tt
       else
         try_except_Exception
           (let module_name := "skill_" ++ skill_name ++ "_" ++ path_stem w py_file in
            module <- lift (exec_module w module_name py_file) ;;
            c1 <- _register_explicit_tools module skill_name ;;
            c2 <- _register_by_naming_convention module skill_name ;;
            c3 <- _register_by_docstring_analysis module skill_name ;;
            c4 <- _register_by_type_hints module skill_name ;;
            let tool_count := 0 + c1 + c2 + c3 + c4 in
            ret tt)%py
           (fun _ => ret tt))
    py_files tt.

(** [load_skill] *)
Definition load_skill (w : World) (skill_name : string) : M SkillManager SkillData :=
  (self <- get_state ;;
   match PyDict.get (KStr skill_name) (discovered_skills self) with
   | None =>
       raise (mkExn ValueError
                ("Skill '" ++ skill_name ++ "' not found in discovered skills"))
   | Some metadata =>
       match PyDict.get skill_name (loaded_skills self) with
       | Some skill_data => ret skill_data
       | None =>
           content <- lift (read_text w (SkillMetadata.skill_file_path metadata)) ;;
           let skill_content := extract_body content in
           additional_resources <-
             lift (_load_additional_resources w skill_content
                     (SkillMetadata.directory metadata)) ;;
           on_toolkit
             (create_tool_group skill_name (SkillMetadata.description metadata) false
                [FLit "Skill: "; FVal (SkillMetadata.name metadata); FLit nl;
                 FVal (SkillMetadata.description metadata)]) ;;;
           on_toolkit
             (_register_skill_tools w skill_name (SkillMetadata.directory metadata)) ;;;
           self' <- get_state ;;
           let skill_data :=
             mkSkillData metadata skill_content additional_resources
                         (_get_skill_tools (toolkit self') skill_name) in
           modify (fun self =>
                     mkSkillManager (skill_directory self) (discovered_skills self)
                                    (PyDict.set skill_name skill_data (loaded_skills self))
                                    (toolkit self)) ;;;
           ret skill_data
       end
   end)%py.

(** [activate_skill] *)
Definition activate_skill (w : World) (skill_name : string) : M SkillManager bool :=
  (self <- get_state ;;
   if negb (PyDict.mem (KStr skill_name) (discovered_skills self)) then ret false
   else
     (if negb (PyDict.mem skill_name (loaded_skills self)) then
        load_skill w skill_name ;;; ret tt
      else ret tt) ;;;
     on_toolkit (update_tool_groups [skill_name] true) ;;;
     ret true)%py.

(** [deactivate_skill] *)
Definition deactivate_skill (skill_name : string) : M SkillManager bool :=
  (self <- get_state ;;
   if negb (PyDict.mem (KStr skill_name) (discovered_skills self)) then ret false
   else
     on_toolkit (update_tool_groups [skill_name] false) ;;;
     ret true)%py.

(** [get_skill_content] *)
Definition get_skill_content (self : SkillManager) (skill_name : string)
           (include_resources : bool) : result string :=
  match PyDict.get skill_name (loaded_skills self) with
  | None => Raise (mkExn ValueError ("Skill '" ++ skill_name ++ "' not loaded"))
  | Some skill_data =>
      let content := sd_content skill_data in
      if include_resources
         && match sd_additional_resources skill_data with [] => false | _ => true end
      then
        Return
          (fold_left
             (fun content '(name, resource_content) =>
                content ++ nl ++ "## " ++ name ++ nl ++ resource_content ++ nl)
             (sd_additional_resources skill_data)
             (content ++ nl ++ nl ++ "Additional Resources:" ++ nl))
      else Return content
  end.

(** ** The agent: context cache and relevance matcher
    ([src/skilled_react_agent.py]) *)

(** [_skill_context_cache]: an [OrderedDict] from skill name to
    [(content, timestamp)], oldest entry first. *)
Definition Cache : Type := list (string * (string * Q)).

(** The loop
<<
    while len(self._skill_context_cache) > self._max_cache_size:
        oldest_key = next(iter(self._skill_context_cache))
        del self._skill_context_cache[oldest_key]
>>
    [oldest_key] is the key of the first entry, so the deletion leaves the
    entries after it. *)
Fixpoint evict_oldest (max_cache_size : nat) (cache : Cache) : Cache :=
  match cache with
  | [] => []
  | (oldest_key, _) :: rest =>
      if (max_cache_size <? length cache)%nat then evict_oldest max_cache_size rest
      else cache
  end.

(** [_add_to_cache]; [now] is the value of [time.time()]. *)
Definition _add_to_cache (max_cache_size : nat) (now : Q)
           (skill_name content : string) (cache : Cache) : Cache :=
  let cache :=
    if PyDict.mem skill_name cache then PyDict.del skill_name cache else cache in
  let cache := PyDict.set skill_name (content, now) cache in
  evict_oldest max_cache_size cache.

(** [_get_from_cache]: the content, if any, and the cache afterwards. *)
Definition _get_from_cache (skill_name : string) (cache : Cache)
  : option string * Cache :=
  match PyDict.get skill_name cache with
  | Some (content, timestamp) =>
      let cache := PyDict.del skill_name cache in
      let cache := PyDict.set skill_name (content, timestamp) cache in
      (Some content, cache)
  | None => (None, cache)
  end.

(** [_remove_from_cache] *)
Definition _remove_from_cache (skill_name : string) (cache : Cache) : Cache :=
  if PyDict.mem skill_name cache then PyDict.del skill_name cache else cache.

(** [_cleanup_old_cache] *)
Definition _cleanup_old_cache (current_time : Q) (max_age_seconds : Q)
           (cache : Cache) : Cache :=
  let keys_to_remove :=
    map fst
        (List.filter
           (fun '(_, (_, timestamp)) =>
              negb (Qle_bool (current_time - timestamp) max_age_seconds))
           cache) in
  fold_left (fun cache skill_name => PyDict.del skill_name cache) keys_to_remove cache.

(** The attributes of [SkilledReActAgent] that the registry logic uses. *)
Record SkilledReActAgent := mkAgent {
  skill_manager : SkillManager;
  skill_matching_threshold : Q;
  active_skills : list string;
  _max_cache_size : nat;
  _skill_context_cache : Cache
}.

(** [SkilledReActAgent.__init__], with its defaults
    [skill_directory="./skills"] and [skill_matching_threshold=0.7]. *)
Definition SkilledReActAgent_init (skill_directory : string)
           (skill_matching_threshold : Q) : SkilledReActAgent :=
  mkAgent (SkillManager_init skill_directory) skill_matching_threshold [] 50 [].

Definition default_skill_matching_threshold : Q := 7 # 10.

(** [set(words)] *)
Definition word_set (words : list string) : gset string := list_to_set words.

(** [overlap / len(description_set) >= threshold].  The quotient of the two
    counts and the threshold are taken as exact rationals. *)
Definition ratio_reaches (threshold : Q) (overlap len : nat) : bool :=
  Qle_bool threshold (inject_Z (Z.of_nat overlap) / inject_Z (Z.of_nat len)).

(** One iteration of the loop of [_match_skills_to_task]: [Return true] when
    the skill is appended to [relevant_skills]. *)
Definition skill_is_relevant (threshold : Q) (user_message_lower : string)
           (skill_name : Key) (metadata : SkillMetadata.t) : result bool :=
  (let? skill_name_lower := ylower (key_value skill_name) in
   if PyStr.contains skill_name_lower user_message_lower then Return true
   else
     let? description_lower := ylower (SkillMetadata.description metadata) in
     let description_words := PyStr.split description_lower in
     let message_words := PyStr.split user_message_lower in
     let description_set := word_set description_words in
     let message_set := word_set message_words in
     if (size description_set =? 0)%nat then Return false
     else
       let overlap := size (description_set ∩ message_set) in
       if (0 <? overlap)%nat then
         Return (ratio_reaches threshold overlap (size description_set))
       else Return false)%py.

(** [_match_skills_to_task] *)
Definition _match_skills_to_task (threshold : Q)
           (discovered_skills : list (Key * SkillMetadata.t))
           (user_message : string) : result (list Key) :=
  match discovered_skills with
  | [] => Return []
  | _ =>
      let user_message_lower := PyStr.lower user_message in
      fold_left
        (fun (acc : result (list Key)) '(skill_name, metadata) =>
           let? relevant_skills := acc in
           let? hit := skill_is_relevant threshold user_message_lower skill_name metadata in
           Return (if hit then relevant_skills ++ [skill_name] else relevant_skills)%list)
        discovered_skills (Return [])
  end%py.

(** ** Vocabulary of the statements *)

(** [sub] starts at no position of [s] before [n]. *)
Definition absent_before (sub s : string) (n : nat) : Prop :=
  forall i, i < n -> String.prefix sub (PyStr.skip i s) = false.

(** A run of [_add_to_cache] calls, one per [(skill_name, content, now)]. *)
Definition add_all_to_cache (max_cache_size : nat)
           (items : list (string * string * Q)) (cache : Cache) : Cache :=
  fold_left
    (fun cache '(skill_name, content, now) =>
       _add_to_cache max_cache_size now skill_name content cache)
    items cache.

(** The cache entry that an item becomes. *)
Definition cache_entry (item : string * string * Q) : string * (string * Q) :=
  let '(skill_name, content, now) := item in (skill_name, (content, now)).

Definition item_name (item : string * string * Q) : string := fst (fst item).

(** [n] items with pairwise different one-letter names, for the examples. *)
Definition sample_items (n : nat) : list (string * string * Q) :=
  map (fun i => (String (ascii_of_nat (65 + i)) EmptyString, "content", inject_Z (Z.of_nat i)))
      (seq 0 n).

(** A cache of three entries, oldest first. *)
Definition cache_abc : Cache :=
  [("a", ("text a", 1%Q)); ("b", ("text b", 2%Q)); ("c", ("text c", 3%Q))].

(** The front-matter block and the remainder of a small manifest. *)
Definition sample_front_matter : string := "
name: pdf
description: read pdf files
".

Definition sample_rest : string := "

# PDF
Use the reader.
".

(** A descriptor of the discovered index whose name and description are
    strings, as the annotations of [SkillMetadata] say. *)
Definition descriptor (name description : string) : Key * SkillMetadata.t :=
  (KStr name,
   SkillMetadata.init (YStr name) (YStr description) ("skills/" ++ name)
                      ("skills/" ++ name ++ "/SKILL.md")
                      (YSeq []) (YStr "1.0.0") (YStr "")).

Definition key_str (k : Key) : string :=
  match k with KStr s => s | KNone => "" end.

Definition description_str (metadata : SkillMetadata.t) : string :=
  match SkillMetadata.description metadata with YStr s => s | _ => "" end.

(** Name and description are strings. *)
Definition typed_descriptor (d : Key * SkillMetadata.t) : Prop :=
  fst d = KStr (key_str (fst d))
  /\ SkillMetadata.description (snd d) = YStr (description_str (snd d)).

(** The words of a text: lower-cased, split at white space, as a set. *)
Definition words_of (text : string) : gset string :=
  word_set (PyStr.split (PyStr.lower text)).

(** The matching rule that the program implements. *)
Definition relevant (threshold : Q) (task name description : string) : bool :=
  let overlap := size (words_of description ∩ words_of task) in
  PyStr.contains (PyStr.lower name) (PyStr.lower task)
  || (negb (size (words_of description) =? 0)%nat
      && (0 <? overlap)%nat
      && ratio_reaches threshold overlap (size (words_of description))).

(** The matching rule in the words of the specification: the name itself
    is looked for in the lower-cased task text, and otherwise the ratio alone
    decides for a non-empty description. *)
Definition relevant_as_specified (threshold : Q) (task name description : string) : bool :=
  let overlap := size (words_of description ∩ words_of task) in
  PyStr.contains name (PyStr.lower task)
  || (negb (size (words_of description) =? 0)%nat
      && ratio_reaches threshold overlap (size (words_of description))).

(** ** A small world for the examples

    One skill directory, [skills/pdf-tools], with a manifest and one Python
    file, and a second one, [skills/empty], whose manifest has an empty
    front-matter block. *)

Definition sample_manifest : string :=
  "---" ++ sample_front_matter ++ "---" ++ sample_rest.

Definition empty_front_matter_manifest : string := "---
---
# Nothing declared
".

(** A function without marker, documented, named after the naming
    convention. *)
Definition extract_invoice_total : PyAttr :=
  mkAttr true None None (Some "Sum the invoice lines.") None
         (fun _ => Returns (PyStr "42.00")).

(** A function whose name holds a verb but no verb followed by [_]. *)
Definition extractor : PyAttr :=
  mkAttr true None None (Some "Run the extractor.") None
         (fun _ => Returns (PyObject (Returns "<Extractor>"))).

(** A function that only its docstring announces as a tool. *)
Definition summarize : PyAttr :=
  mkAttr true None None (Some "Tool: summarize a text.") None
         (fun _ => Returns (PyStr "summary")).

Definition sample_module : PyModule :=
  [("extract_invoice_total", extract_invoice_total);
   ("extractor", extractor);
   ("summarize", summarize)].

Definition sample_world : World :=
  mkWorld
    (fun p => Return
                (existsb (String.eqb p)
                   ["skills"; "skills/pdf-tools"; "skills/pdf-tools/SKILL.md";
                    "skills/pdf-tools/tools.py"; "skills/empty"; "skills/empty/SKILL.md"]))
    (fun p => Return (existsb (String.eqb p) ["skills"; "skills/pdf-tools"; "skills/empty"]))
    (fun p => if String.eqb p "skills"
              then Return ["skills/pdf-tools"; "skills/empty"]
              else Raise (mkExn OSError "Not a directory"))
    (fun a b => a ++ "/" ++ b)
    (fun dir pattern =>
       if String.eqb dir "skills/pdf-tools" && String.eqb pattern "*.py"
       then ["skills/pdf-tools/tools.py"] else [])
    (fun p => if String.eqb p "skills/pdf-tools/tools.py" then "tools.py" else p)
    (fun p => if String.eqb p "skills/pdf-tools/tools.py" then "tools" else p)
    (fun p => if String.eqb p "skills/pdf-tools/SKILL.md" then Return sample_manifest
              else if String.eqb p "skills/empty/SKILL.md"
                   then Return empty_front_matter_manifest
                   else Raise (mkExn OSError "No such file or directory"))
    (fun text =>
       if String.eqb text (PyStr.strip sample_front_matter)
       then Return (YMap [("name", YStr "pdf-tools");
                          ("description", YStr "read pdf files")])
       else if PyStr.is_empty text then Return YNull
            else Raise (mkExn YAMLError "could not parse"))
    (fun _ => [])
    (fun _ => [])
    (fun _ p => if String.eqb p "skills/pdf-tools/tools.py" then Return sample_module
                else Raise (mkExn OSError "No such file or directory")).

(** The same world before the skill directory is created. *)
Definition world_without_skills : World :=
  mkWorld (fun _ => Return false) (fun _ => Return false)
          (fun _ => Raise (mkExn OSError "No such file or directory"))
          (path_join sample_world) (fun _ _ => []) (path_name sample_world)
          (path_stem sample_world)
          (fun _ => Raise (mkExn OSError "No such file or directory"))
          (yaml_safe_load sample_world) (fun _ => []) (fun _ => [])
          (fun _ _ => Raise (mkExn OSError "No such file or directory")).

Definition sample_manager : SkillManager := SkillManager_init "skills".

(** The sample manager after [discover_skills] in the sample world: the
    manifest of [skills/empty] is refused, [skills/pdf-tools] is indexed. *)
Definition discovered_manager : SkillManager :=
  mkSkillManager "skills"
    [(KStr "pdf-tools",
      SkillMetadata.mk (YStr "pdf-tools") (YStr "read pdf files")
        "skills/pdf-tools" "skills/pdf-tools/SKILL.md"
        (YSeq []) (YStr "1.0.0") (YStr ""))]
    [] Toolkit_init.

(** The toolkit once the tool group of the sample skill has been created,
    as [load_skill] does before it registers tools. *)
Definition sample_toolkit : Toolkit :=
  mkToolkit []
    [("pdf-tools",
      mkToolGroup (YStr "read pdf files") false
        [FLit "Skill: "; FVal (YStr "pdf-tools"); FLit nl; FVal (YStr "read pdf files")])].

(** [register_tool_function] accepts the group: it exists or is ["basic"]. *)
Definition group_known (group_name : string) (tk : Toolkit) : bool :=
  PyDict.mem group_name (groups tk) || String.eqb group_name "basic".

(** The test of strategy 2 on an attribute and its name. *)
Definition named_like_a_tool (attr_name : string) (attr : PyAttr) : bool :=
  callable attr && negb (has_skill_tool attr)
  && any_in tool_patterns (PyStr.lower attr_name).

(** The entry that strategy 2 stores for an attribute. *)
Definition registered_by_name (attr_name : string) (attr : PyAttr)
           (skill_name : string) : RegisteredToolFunction :=
  mkRegistered
    (mkToolFunc attr_name (doc attr) None (wrapped_tool attr_name (call attr)))
    skill_name.




(** ** Further worlds for the examples *)

(** The sample world with one field replaced. *)
Definition with_read_text (w : World) (read : string -> result string) : World :=
  mkWorld (path_exists w) (path_is_dir w) (path_iterdir w) (path_join w)
          (path_glob w) (path_name w) (path_stem w) read
          (yaml_safe_load w) (re_findall_links w) (re_findall_includes w)
          (exec_module w).

Definition with_yaml_safe_load (w : World) (load : string -> result YValue) : World :=
  mkWorld (path_exists w) (path_is_dir w) (path_iterdir w) (path_join w)
          (path_glob w) (path_name w) (path_stem w) (read_text w)
          load (re_findall_links w) (re_findall_includes w) (exec_module w).

(** A manifest whose front matter is not valid YAML. *)
Definition broken_yaml_world : World :=
  with_read_text sample_world
    (fun _ => Return ("---" ++ "
name: [pdf
" ++ "---" ++ "
body")).

(** The sample manifest, loaded as a mapping whose [name] is empty. *)
Definition nameless_world : World :=
  with_yaml_safe_load sample_world
    (fun _ => Return (YMap [("name", YStr ""); ("description", YStr "read pdf files")])).

(** ** Vocabulary for discovery *)

(** One iteration of the loop of [discover_skills], as a function of the
    dictionary [skills] built so far. *)
Definition discover_step (w : World) (skill_dir : string)
           (skills : list (Key * SkillMetadata.t))
  : result (list (Key * SkillMetadata.t)) :=
  (let? is_dir := path_is_dir w skill_dir in
   if negb is_dir then Return skills
   else
     let? file_exists := path_exists w (path_join w skill_dir "SKILL.md") in
     if negb file_exists then Return skills
     else
       match
         (let? metadata :=
            _parse_skill_metadata w skill_dir (path_join w skill_dir "SKILL.md") in
          let? key := key_of (SkillMetadata.name metadata) in
          Return (PyDict.set key metadata skills))
       with
       | Return skills' => Return skills'
       | Raise e => if is_Exception e then Return skills else Raise e
       end)%py.

(** The iterations over a list of directory entries. *)
Fixpoint discover_steps (w : World) (entries : list string)
         (skills : list (Key * SkillMetadata.t))
  : result (list (Key * SkillMetadata.t)) :=
  match entries with
  | [] => Return skills
  | skill_dir :: entries' =>
      match discover_step w skill_dir skills with
      | Return skills' => discover_steps w entries' skills'
      | Raise e => Raise e
      end
  end.

(** Reading a file and loading YAML raise nothing but instances of
    [Exception]. *)
Definition raises_only_Exceptions (w : World) : Prop :=
  (forall p e, read_text w p = Raise e -> is_Exception e = true)
  /\ (forall text e, yaml_safe_load w text = Raise e -> is_Exception e = true).

(** The loop of [discover_skills] can examine the entries: [is_dir()] returns
    for each of them, and [exists()] returns for the [SKILL.md] of each one
    that is a directory.  Both calls stand outside the [try] of the loop. *)
Definition can_be_examined (w : World) (entries : list string) : Prop :=
  forall skill_dir,
    skill_dir ∈ entries ->
    exists is_dir,
      path_is_dir w skill_dir = Return is_dir
      /\ (is_dir = true ->
          exists file_exists,
            path_exists w (path_join w skill_dir "SKILL.md") = Return file_exists).

(** An entry of the discovered index agrees with the manifest it came from. *)
Definition indexed_from (w : World) (entries : list string)
           (key : Key) (metadata : SkillMetadata.t) : Prop :=
  key_of (SkillMetadata.name metadata) = Return key
  /\ truthy (SkillMetadata.name metadata) = true
  /\ truthy (SkillMetadata.description metadata) = true
  /\ SkillMetadata.directory metadata ∈ entries
  /\ path_is_dir w (SkillMetadata.directory metadata) = Return true
  /\ SkillMetadata.skill_file_path metadata
     = path_join w (SkillMetadata.directory metadata) "SKILL.md"
  /\ path_exists w (SkillMetadata.skill_file_path metadata) = Return true.

(** The world with another content of the skill directory. *)
Definition with_iterdir (w : World) (iterdir : string -> result (list string)) : World :=
  mkWorld (path_exists w) (path_is_dir w) iterdir (path_join w)
          (path_glob w) (path_name w) (path_stem w) (read_text w)
          (yaml_safe_load w) (re_findall_links w) (re_findall_includes w)
          (exec_module w).

(** The sample world with a third folder, [skills/notes], whose manifest is
    the sample manifest of [skills/pdf-tools]. *)
Definition three_folder_world : World :=
  mkWorld (fun p => if existsb (String.eqb p) ["skills/notes"; "skills/notes/SKILL.md"]
                    then Return true else path_exists sample_world p)
          (fun p => if String.eqb p "skills/notes" then Return true
                    else path_is_dir sample_world p)
          (fun p => if String.eqb p "skills"
                    then Return ["skills/pdf-tools"; "skills/empty"; "skills/notes"]
                    else Raise (mkExn OSError "Not a directory"))
          (path_join sample_world) (path_glob sample_world)
          (path_name sample_world) (path_stem sample_world)
          (fun p => if String.eqb p "skills/notes/SKILL.md" then Return sample_manifest
                    else read_text sample_world p)
          (yaml_safe_load sample_world) (re_findall_links sample_world)
          (re_findall_includes sample_world) (exec_module sample_world).

(** The sample world with a folder [skills/locked] in place of
    [skills/empty]: it is a directory that may not be searched, so that
    [exists()] on its [SKILL.md] raises [PermissionError] (an [OSError]). *)
Definition locked_folder_world : World :=
  mkWorld (fun p => if String.eqb p "skills/locked/SKILL.md"
                    then Raise (mkExn OSError "Permission denied")
                    else path_exists sample_world p)
          (fun p => if String.eqb p "skills/locked" then Return true
                    else path_is_dir sample_world p)
          (fun p => if String.eqb p "skills"
                    then Return ["skills/pdf-tools"; "skills/locked"]
                    else Raise (mkExn OSError "Not a directory"))
          (path_join sample_world) (path_glob sample_world)
          (path_name sample_world) (path_stem sample_world)
          (read_text sample_world) (yaml_safe_load sample_world)
          (re_findall_links sample_world) (re_findall_includes sample_world)
          (exec_module sample_world).

(** ** Vocabulary for tool registration *)

(** The decorator [skill_tool(description)] applied to a function: it sets
    [__skill_tool__ = True] and [__skill_tool_description__ = description]
    and returns the function. *)
Definition skill_tool_decorator (description : string) (func : PyAttr) : PyAttr :=
  mkAttr (callable func) (Some true) (Some description) (doc func)
         (annotations func) (call func).

(** The toolkit [tk'] holds the groups of [tk] and, under their names, the
    tools of [tk]; its tool names are pairwise different if those of [tk]
    are. *)
Definition extends (tk tk' : Toolkit) : Prop :=
  groups tk' = groups tk
  /\ (forall n t, PyDict.get n (tools tk) = Some t -> PyDict.get n (tools tk') = Some t)
  /\ (NoDup (PyDict.keys (tools tk)) -> NoDup (PyDict.keys (tools tk'))).

(** What a strategy passes to the registration tail for an attribute it
    selects: the docstring and the marker of the wrapper. *)
Definition explicit_choice (attr_name : string) (attr : PyAttr)
  : option (option string * option string) :=
  if callable attr && has_skill_tool attr
     && match skill_tool attr with Some b => b | None => false end
  then Some (doc attr,
             Some (match skill_tool_description attr with Some d => d | None => "" end))
  else None.

Definition naming_choice (attr_name : string) (attr : PyAttr)
  : option (option string * option string) :=
  if callable attr && negb (has_skill_tool attr)
     && any_in tool_patterns (PyStr.lower attr_name)
  then Some (doc attr, None) else None.

Definition type_hint_choice (attr_name : string) (attr : PyAttr)
  : option (option string * option string) :=
  if callable attr && negb (has_skill_tool attr) && doc_is_empty attr then
    match annotations attr with
    | Some ((_ :: _) as anns) =>
        match PyDict.get "return" anns with
        | Some return_type =>
            if is_tool_return_type return_type
            then Some (Some ("Tool function with return type: " ++ type_str return_type),
                       None)
            else None
        | None => None
        end
    | _ => None
    end
  else None.

(** A loop body that registers the attributes a choice selects. *)
Definition registers_by (choice : string -> PyAttr -> option (option string * option string))
           (skill_name : string)
           (body : string * PyAttr -> nat -> M Toolkit nat) : Prop :=
  forall attr_name attr count,
    body (attr_name, attr) count
    = match choice attr_name attr with
      | Some (wrapped_doc, marker) =>
          register_wrapped attr_name attr wrapped_doc marker skill_name count
      | None => ret count
      end.

(** A decorated function and an annotated one, for the examples. *)
Definition render_page : PyAttr :=
  skill_tool_decorator "Render one page"
    (mkAttr true None None (Some "Render a page to text.") None
            (fun _ => Returns (PyStr "page text"))).

Definition page_count : PyAttr :=
  mkAttr true None None None (Some [("path", Tstr); ("return", Tint)])
         (fun _ => Returns (PyObject (Returns "12"))).

(** An attribute whose marker is set to [False]. *)
Definition disabled_tool : PyAttr :=
  mkAttr true (Some false) (Some "Switched off") (Some "Tool: extract everything.")
         (Some [("return", Tstr)]) (fun _ => Returns (PyStr "never")).

Definition tools_module : PyModule :=
  [("disabled_tool", disabled_tool);
   ("extract_invoice_total", extract_invoice_total);
   ("page_count", page_count);
   ("render_page", render_page)].


(** ** Vocabulary for loading and activation *)

(** The tool group that [load_skill] creates for a descriptor: inactive,
    described by the description of the skill. *)
Definition skill_group (metadata : SkillMetadata.t) : ToolGroup :=
  mkToolGroup (SkillMetadata.description metadata) false
    [FLit "Skill: "; FVal (SkillMetadata.name metadata); FLit nl;
     FVal (SkillMetadata.description metadata)].


(** The toolkit of the manager agrees with its loaded skills: tool names are
    pairwise different, every loaded skill has its tool group, and the tools
    recorded for a loaded skill are registered in that group. *)
Definition consistent (self : SkillManager) : Prop :=
  NoDup (PyDict.keys (tools (toolkit self)))
  /\ forall skill_name data,
       PyDict.get skill_name (loaded_skills self) = Some data ->
       PyDict.mem skill_name (groups (toolkit self)) = true
       /\ forall tool, tool ∈ sd_tools data ->
            exists f, PyDict.get tool (tools (toolkit self)) = Some f
                      /\ rt_group f = skill_name.

(** The files that a skill text refers to, each with the name it is stored
    under and its path: first the Markdown links, then the include
    directives. *)
Definition referenced_files (w : World) (content skill_dir : string)
  : list (string * string) :=
  (map (fun '(link_text, filename) => (filename, path_join w skill_dir (filename ++ ".md")))
       (re_findall_links w content)
   ++ map (fun filename => (filename, path_join w skill_dir filename))
          (re_findall_includes w content))%list.

(** A referenced file can be loaded: [exists()] returns for its path, and
    the file, if it exists, can be read. *)
Definition can_be_loaded (w : World) (file_path : string) : Prop :=
  exists file_exists,
    path_exists w file_path = Return file_exists
    /\ (file_exists = true -> exists text, read_text w file_path = Return text).

(** The body of both loops of [_load_additional_resources]. *)
Definition load_resource (w : World) (file : string * string)
           (resources : list (string * string)) : result (list (string * string)) :=
  (let? file_exists := path_exists w (snd file) in
   if file_exists then
     let? text := read_text w (snd file) in
     Return (PyDict.set (fst file) text resources)
   else Return resources)%py.

Fixpoint load_resources (w : World) (files : list (string * string))
         (resources : list (string * string)) : result (list (string * string)) :=
  match files with
  | [] => Return resources
  | file :: files' =>
      match load_resource w file resources with
      | Return resources' => load_resources w files' resources'
      | Raise e => Raise e
      end
  end.

(** The text that [get_skill_content] appends for the resources of a skill. *)
Definition resource_section (resource : string * string) : string :=
  nl ++ "## " ++ fst resource ++ nl ++ snd resource ++ nl.

Definition resources_text (resources : list (string * string)) : string :=
  match resources with
  | [] => ""
  | _ => nl ++ nl ++ "Additional Resources:" ++ nl
         ++ fold_right append "" (map resource_section resources)
  end.

(** The sample world in which the body of the manifest refers to three
    files, of which [reference.md] and [forms.txt] exist. *)
Definition resource_world : World :=
  mkWorld (fun p => if existsb (String.eqb p)
                            ["skills/pdf-tools/reference.md"; "skills/pdf-tools/forms.txt"]
                    then Return true else path_exists sample_world p)
          (path_is_dir sample_world) (path_iterdir sample_world)
          (path_join sample_world) (path_glob sample_world)
          (path_name sample_world) (path_stem sample_world)
          (fun p => if String.eqb p "skills/pdf-tools/reference.md"
                    then Return "All about PDF."
                    else if String.eqb p "skills/pdf-tools/forms.txt"
                         then Return "Form fields."
                         else read_text sample_world p)
          (yaml_safe_load sample_world)
          (fun _ => [("Reference", "reference"); ("Guide", "guide")])
          (fun _ => ["forms.txt"])
          (exec_module sample_world).

(** The sample manager once the sample skill has been loaded. *)
Definition loaded_manager : SkillManager :=
  snd (load_skill sample_world "pdf-tools" discovered_manager).

(** ** Vocabulary for the cache and the matcher *)

(** The property [skill_context_cache]: the cache without its time stamps. *)
Definition skill_context_cache (cache : Cache) : list (string * string) :=
  map (fun '(skill_name, v) => (skill_name, fst v)) cache.

(** An entry is not older than [max_age_seconds] at [current_time]. *)
Definition recent (current_time max_age_seconds : Q)
           (entry : string * (string * Q)) : bool :=
  Qle_bool (current_time - snd (snd entry)) max_age_seconds.

(** A descriptor whose description is not a string, and one whose name is
    not a string. *)
Definition undescribed (name : string) : Key * SkillMetadata.t :=
  (KStr name,
   SkillMetadata.init (YStr name) (YSeq [YStr "read"; YStr "files"]) ("skills/" ++ name)
                      ("skills/" ++ name ++ "/SKILL.md")
                      (YSeq []) (YStr "1.0.0") (YStr "")).

(** ** Vocabulary for generated descriptions *)

(** The character occurs in the string. *)
Fixpoint has_char (c : ascii) (s : string) : bool :=
  match s with
  | EmptyString => false
  | String x s' => Ascii.eqb x c || has_char c s'
  end.

(** ** The skill management of the agent
    ([_register_skill_management_tools], [_auto_activate_skills]) *)

(** Assignments to the attributes of the agent. *)
Definition with_manager (self : SkilledReActAgent) (manager : SkillManager)
  : SkilledReActAgent :=
  mkAgent manager (skill_matching_threshold self) (active_skills self)
          (_max_cache_size self) (_skill_context_cache self).

Definition with_active_skills (self : SkilledReActAgent) (active : list string)
  : SkilledReActAgent :=
  mkAgent (skill_manager self) (skill_matching_threshold self) active
          (_max_cache_size self) (_skill_context_cache self).

Definition with_cache (self : SkilledReActAgent) (cache : Cache) : SkilledReActAgent :=
  mkAgent (skill_manager self) (skill_matching_threshold self) (active_skills self)
          (_max_cache_size self) cache.

(** A call on [self.skill_manager]. *)
Definition on_manager {A} (c : M SkillManager A) : M SkilledReActAgent A :=
  fun self =>
    let '(r, manager) := c (skill_manager self) in (r, with_manager self manager).

(** [l.remove(x)]: the first occurrence goes. *)
Fixpoint list_remove (x : string) (l : list string) : list string :=
  match l with
  | [] => []
  | y :: l' => if String.eqb y x then l' else y :: list_remove x l'
  end.

(** The block
<<
    try:
        skill_content = self.skill_manager.get_skill_content(skill_name)
        self._add_to_cache(skill_name, skill_content)
    except Exception as e:
        logger.warning(...)
>>
    [now] is the value of [time.time()] in [_add_to_cache]. *)
Definition cache_skill_content (now : Q) (skill_name : string)
  : M SkilledReActAgent unit :=
  try_except_Exception
    (self <- get_state ;;
     skill_content <- lift (get_skill_content (skill_manager self) skill_name false) ;;
     modify (fun self =>
               with_cache self
                 (_add_to_cache (_max_cache_size self) now skill_name skill_content
                                (_skill_context_cache self))))%py
    (fun _ => ret tt).

(** The tool [activate_skill] of the agent. *)
Definition activate_skill_tool (w : World) (now : Q) (skill_name : string)
  : M SkilledReActAgent ToolResponse :=
  (success <- on_manager (activate_skill w skill_name) ;;
   if success then
     self <- get_state ;;
     (if negb (bool_decide (skill_name ∈ active_skills self)) then
        modify (fun self => with_active_skills self (active_skills self ++ [skill_name])%list)
      else ret tt) ;;;
     cache_skill_content now skill_name ;;;
     ret (text_response ("Successfully activated skill: " ++ skill_name))
   else ret (text_response ("Failed to activate skill: " ++ skill_name)))%py.

(** The tool [deactivate_skill] of the agent. *)
Definition deactivate_skill_tool (skill_name : string)
  : M SkilledReActAgent ToolResponse :=
  (success <- on_manager (deactivate_skill skill_name) ;;
   if success then
     self <- get_state ;;
     (if bool_decide (skill_name ∈ active_skills self) then
        modify (fun self =>
                  with_active_skills self (list_remove skill_name (active_skills self)))
      else ret tt) ;;;
     modify (fun self =>
               with_cache self (_remove_from_cache skill_name (_skill_context_cache self))) ;;;
     ret (text_response ("Successfully deactivated skill: " ++ skill_name))
   else ret (text_response ("Failed to deactivate skill: " ++ skill_name)))%py.

(** The names among the keys that the matcher returns.  The matcher calls
    [lower] on every key it returns, so that each of them is a string. *)
Definition key_names (keys : list Key) : list string :=
  omap (fun k => match k with KStr s => Some s | KNone => None end) keys.

(** The body of the loop of [_auto_activate_skills]; [now] is the value of
    [time.time()] when the content of the skill is put into the cache. *)
Definition auto_activate_one (w : World) (now : Q) (skill_name : string)
  : M SkilledReActAgent unit :=
  (self <- get_state ;;
   if negb (bool_decide (skill_name ∈ active_skills self)) then
     on_manager (activate_skill w skill_name) ;;;
     modify (fun self =>
               with_active_skills self (active_skills self ++ [skill_name])%list) ;;;
     cache_skill_content now skill_name
   else ret tt)%py.

(** [_auto_activate_skills]; [now skill_name] is the time at which the
    content of [skill_name] is put into the cache. *)
Definition _auto_activate_skills (w : World) (now : string -> Q) (user_message : string)
  : M SkilledReActAgent unit :=
  (self <- get_state ;;
   relevant_skills <-
     lift (_match_skills_to_task (skill_matching_threshold self)
             (discovered_skills (skill_manager self)) user_message) ;;
   for_each (fun skill_name => auto_activate_one w (now skill_name) skill_name)
            (key_names relevant_skills))%py.

(** [_initialize_skills] *)
Definition _initialize_skills (w : World) : M SkilledReActAgent unit :=
  try_except_Exception (on_manager (discover_skills w) ;;; ret tt)%py (fun _ => ret tt).

(** ** Vocabulary for the agent *)

(** The agent is in step with its manager: the active skills are pairwise
    different, loaded, and their tool groups are active; what the cache
    holds belongs to active skills; and the manager is consistent. *)
Definition agent_consistent (self : SkilledReActAgent) : Prop :=
  NoDup (active_skills self)
  /\ NoDup (PyDict.keys (_skill_context_cache self))
  /\ (forall name, name ∈ PyDict.keys (_skill_context_cache self) ->
                   name ∈ active_skills self)
  /\ (forall name, name ∈ active_skills self ->
        PyDict.mem name (loaded_skills (skill_manager self)) = true
        /\ exists g, PyDict.get name (groups (toolkit (skill_manager self))) = Some g
                     /\ tg_active g = true)
  /\ consistent (skill_manager self).

(** The agent once skills have been discovered in the sample world. *)
Definition sample_agent : SkilledReActAgent :=
  with_manager (SkilledReActAgent_init "skills" default_skill_matching_threshold)
               discovered_manager.

(* ================================================================ *)
(** * Properties *)

Example extract_body_ex1 :
  extract_body "---
name: a
description: b
---

# Title
text
" = "# Title
text".
Proof. reflexivity. Qed.

Example title_ex1 : PyStr.title "hello_world fooBar" = "Hello_World Foobar".
Proof. reflexivity. Qed.

Example split_ex1 : PyStr.split "  a b
 c  " = ["a"; "b"; "c"].
Proof. reflexivity. Qed.

Example split_on_ex1 : PyStr.split_on "_" "a__b_" = ["a"; ""; "b"; ""].
Proof. reflexivity. Qed.

(** ** Strings *)

Lemma prefix_append (p r : string) : String.prefix p (p ++ r) = true.
Proof.
  induction p as [|c p IH]; simpl.
  - by destruct r.
  - destruct (ascii_dec c c); [exact IH | congruence].
Qed.

Lemma skip_append (p r : string) : PyStr.skip (String.length p) (p ++ r) = r.
Proof. induction p as [|c p IH]; simpl; [by destruct r | exact IH]. Qed.

Lemma length_append (p r : string) :
  String.length (p ++ r) = String.length p + String.length r.
Proof. induction p as [|c p IH]; simpl; [done | by rewrite IH]. Qed.

Lemma append_assoc (a b c : string) : (a ++ b) ++ c = a ++ b ++ c.
Proof. induction a as [|x a IH]; simpl; [done | by f_equal]. Qed.

Lemma find_from_first (sub fm rest : string) (k : nat) :
  absent_before sub (fm ++ sub ++ rest) (String.length fm) ->
  PyStr.find_from sub (fm ++ sub ++ rest) k = Some (k + String.length fm).
Proof.
  revert k. induction fm as [|c fm IH]; intros k Habs.
  - change ("" ++ sub ++ rest) with (sub ++ rest).
    cbn [String.length]. rewrite Nat.add_0_r.
    pose proof (prefix_append sub rest) as P.
    destruct (sub ++ rest) as [|c s]; cbn [PyStr.find_from]; by rewrite P.
  - change (String c fm ++ sub ++ rest) with (String c (fm ++ sub ++ rest)).
    cbn [PyStr.find_from].
    assert (H0 : String.prefix sub (String c (fm ++ sub ++ rest)) = false).
    { apply (Habs 0). simpl. lia. }
    rewrite H0, IH.
    + f_equal. simpl. lia.
    + intros i Hi. apply (Habs (S i)). simpl. lia.
Qed.

Lemma find_marker (fm rest : string) :
  absent_before "---" (fm ++ "---" ++ rest) (String.length fm) ->
  PyStr.find "---" ("---" ++ fm ++ "---" ++ rest) 3
  = Z.of_nat (3 + String.length fm).
Proof.
  intros Habs. unfold PyStr.find.
  assert (Hlen : (String.length ("---" ++ fm ++ "---" ++ rest) <? 3)%nat = false).
  { apply Nat.ltb_ge. simpl. lia. }
  rewrite Hlen.
  change (PyStr.skip 3 ("---" ++ fm ++ "---" ++ rest)) with (fm ++ "---" ++ rest).
  by rewrite find_from_first.
Qed.

Lemma slice_from_nat (s : string) (n : nat) :
  n <= String.length s -> PyStr.slice_from s (Z.of_nat n) = PyStr.skip n s.
Proof.
  intros Hn. unfold PyStr.slice_from, PyStr.clip.
  destruct (Z.ltb_spec (Z.of_nat n) 0); [lia|].
  rewrite Nat2Z.id. by rewrite Nat.min_l.
Qed.

(** ** C8: body extraction *)

(** C8.  When the text is the start marker, a front-matter block, the end
    marker and a remainder, the end marker being the first occurrence of the
    marker after the start one, the extracted body is the remainder with
    surrounding white space trimmed; a text that does not begin with the
    marker is returned unchanged. *)
Theorem extract_body_round_trip (fm rest content : string) :
  (absent_before "---" (fm ++ "---" ++ rest) (String.length fm) ->
   extract_body ("---" ++ fm ++ "---" ++ rest) = PyStr.strip rest)
  /\ (PyStr.startswith "---" content = false -> extract_body content = content).
Proof.
  split.
  - intros Habs. unfold extract_body.
    unfold PyStr.startswith. rewrite prefix_append, find_marker by done.
    replace (Z.of_nat (3 + String.length fm) + 3)%Z
      with (Z.of_nat (String.length ("---" ++ fm ++ "---"))).
    2: { rewrite !length_append. simpl. lia. }
    rewrite slice_from_nat.
    + replace ("---" ++ fm ++ "---" ++ rest) with (("---" ++ fm ++ "---") ++ rest)
        by (by rewrite !append_assoc).
      by rewrite skip_append.
    + rewrite !length_append. lia.
  - intros Hstart. unfold extract_body. by rewrite Hstart.
Qed.

Lemma extract_body_round_trip_witness :
  absent_before "---" (sample_front_matter ++ "---" ++ sample_rest)
                (String.length sample_front_matter)
  /\ PyStr.startswith "---" "# Notes" = false
  /\ extract_body ("---" ++ sample_front_matter ++ "---" ++ sample_rest)
     = "# PDF
Use the reader."
  /\ extract_body "# Notes" = "# Notes".
Proof.
  assert (Habs : absent_before "---" (sample_front_matter ++ "---" ++ sample_rest)
                               (String.length sample_front_matter)).
  { intros i Hi. do 39 (destruct i as [|i]; [reflexivity|]).
    exfalso. vm_compute in Hi. lia. }
  destruct (extract_body_round_trip sample_front_matter sample_rest "# Notes")
    as [Hbody Hplain].
  split; [exact Habs|]. split; [reflexivity|]. split.
  - rewrite (Hbody Habs). reflexivity.
  - apply Hplain. reflexivity.
Defined.

(** ** Dictionaries *)

Section dict_facts.
Context {K V : Type} `{EqDecision K}.
Implicit Types (d : list (K * V)) (k : K) (v : V).

Lemma dict_get_None d k : PyDict.get k d = None <-> k ∉ PyDict.keys d.
Proof.
  induction d as [|[k' v'] d IH]; simpl.
  - split; [intros _; apply not_elem_of_nil | done].
  - rewrite not_elem_of_cons. case_decide as Hk.
    + split; [done | intros [Hne _]; congruence].
    + rewrite IH. split; [intros Hn; split; [congruence | done] | by intros [_ Hn]].
Qed.

Lemma dict_mem_true d k : PyDict.mem k d = true <-> k ∈ PyDict.keys d.
Proof.
  unfold PyDict.mem. destruct (PyDict.get k d) eqn:E.
  - split; [intros _ | done].
    destruct (decide (k ∈ PyDict.keys d)) as [|Hn]; [done|].
    apply dict_get_None in Hn. congruence.
  - split; [done | intros Hin]. by apply dict_get_None in E.
Qed.

Lemma dict_mem_false d k : PyDict.mem k d = false <-> k ∉ PyDict.keys d.
Proof.
  rewrite <- dict_mem_true. destruct (PyDict.mem k d); split; congruence.
Qed.

Lemma dict_set_fresh d k v :
  k ∉ PyDict.keys d -> PyDict.set k v d = (d ++ [(k, v)])%list.
Proof.
  induction d as [|[k' v'] d IH]; simpl; [done|].
  rewrite not_elem_of_cons. intros [Hne Hnin].
  case_decide; [congruence | by rewrite IH].
Qed.

Lemma dict_del_head d k v : PyDict.del k ((k, v) :: d) = d.
Proof. simpl. by case_decide. Qed.

Lemma filter_ne_fresh (l : list K) k :
  k ∉ l -> base.filter (fun k' => k' ≠ k) l = l.
Proof.
  induction l as [|x l IH]; [done|].
  rewrite not_elem_of_cons. intros [Hne Hnin].
  rewrite filter_cons_True by congruence. by rewrite IH.
Qed.

Lemma dict_del_keys d k :
  NoDup (PyDict.keys d) ->
  PyDict.keys (PyDict.del k d) = base.filter (fun k' => k' ≠ k) (PyDict.keys d).
Proof.
  induction d as [|[k' v'] d IH]; simpl; [done|].
  rewrite NoDup_cons. intros [Hnin Hnd].
  case_decide as Heq.
  - subst k'. rewrite filter_cons_False by (intros Hne; by apply Hne).
    by rewrite filter_ne_fresh.
  - rewrite filter_cons_True by done. simpl. by rewrite IH.
Qed.

Lemma dict_del_not_in d k :
  NoDup (PyDict.keys d) -> k ∉ PyDict.keys (PyDict.del k d).
Proof.
  intros Hnd. rewrite dict_del_keys by done.
  rewrite list_elem_of_filter. by intros [Hne _].
Qed.
End dict_facts.

(** ** The context cache *)

Lemma evict_oldest_drop (max_cache_size : nat) (cache : Cache) :
  evict_oldest max_cache_size cache = drop (length cache - max_cache_size) cache.
Proof.
  induction cache as [|[k v] cache IH]; [done|].
  cbn [evict_oldest]. destruct (Nat.ltb_spec max_cache_size (length ((k, v) :: cache))) as [Hlt|Hge].
  - rewrite IH. cbn [length] in *.
    replace (S (length cache) - max_cache_size) with (S (length cache - max_cache_size)) by lia.
    done.
  - cbn [length] in *. by replace (S (length cache) - max_cache_size) with 0 by lia.
Qed.

Lemma length_evict_oldest (max_cache_size : nat) (cache : Cache) :
  length (evict_oldest max_cache_size cache) <= max_cache_size.
Proof. rewrite evict_oldest_drop, length_drop. lia. Qed.

Lemma evict_oldest_within (max_cache_size : nat) (cache : Cache) :
  length cache <= max_cache_size -> evict_oldest max_cache_size cache = cache.
Proof.
  intros Hle. rewrite evict_oldest_drop.
  by replace (length cache - max_cache_size) with 0 by lia.
Qed.

Lemma evict_oldest_app (max_cache_size : nat) (a b : Cache) :
  evict_oldest max_cache_size (evict_oldest max_cache_size a ++ b)%list
  = evict_oldest max_cache_size (a ++ b)%list.
Proof.
  rewrite !evict_oldest_drop, !length_app, length_drop.
  destruct (Nat.le_gt_cases (length a) max_cache_size) as [Hle|Hgt].
  - replace (length a - max_cache_size) with 0 by lia. simpl.
    by rewrite Nat.sub_0_r.
  - destruct (Nat.le_gt_cases (length b) max_cache_size) as [Hb|Hb].
    + rewrite !drop_app_le by (rewrite ?length_drop; lia).
      rewrite drop_drop. f_equal. f_equal. lia.
    + rewrite !drop_app_ge by (rewrite ?length_drop; lia).
      rewrite length_drop. f_equal. lia.
Qed.

Lemma add_to_cache_fresh max_cache_size now skill_name content (cache : Cache) :
  skill_name ∉ PyDict.keys cache ->
  _add_to_cache max_cache_size now skill_name content cache
  = evict_oldest max_cache_size (cache ++ [(skill_name, (content, now))])%list.
Proof.
  intros Hfresh. unfold _add_to_cache.
  rewrite (proj2 (dict_mem_false _ _) Hfresh). by rewrite dict_set_fresh.
Qed.

Lemma keys_evict_oldest_sublist max_cache_size (cache : Cache) :
  PyDict.keys (evict_oldest max_cache_size cache) `sublist_of` PyDict.keys cache.
Proof.
  rewrite evict_oldest_drop. unfold PyDict.keys.
  change (map fst) with (fmap (M:=list) (@fst string (string * Q))).
  rewrite fmap_drop. apply sublist_drop.
Qed.

Lemma keys_app (a b : Cache) :
  PyDict.keys (a ++ b)%list = (PyDict.keys a ++ PyDict.keys b)%list.
Proof. unfold PyDict.keys. apply map_app. Qed.

Lemma add_all_to_cache_fresh max_cache_size items (cache : Cache) :
  length cache <= max_cache_size ->
  NoDup (PyDict.keys cache ++ map item_name items)%list ->
  add_all_to_cache max_cache_size items cache
  = evict_oldest max_cache_size (cache ++ map cache_entry items)%list.
Proof.
  revert cache. induction items as [|[[k v] now] items IH]; intros cache Hle Hnd.
  - simpl. by rewrite app_nil_r, evict_oldest_within.
  - cbn [add_all_to_cache fold_left map cache_entry].
    change (fold_left _ items ?c) with (add_all_to_cache max_cache_size items c).
    assert (Hfresh : k ∉ PyDict.keys cache).
    { apply NoDup_app in Hnd as (_ & Hdisj & _). intros Hin.
      apply (Hdisj k Hin). left. }
    rewrite add_to_cache_fresh by done.
    rewrite IH.
    + rewrite evict_oldest_app. by rewrite <- app_assoc.
    + apply length_evict_oldest.
    + apply (sublist_NoDup _ _ Hnd).
      change (map item_name ((k, v, now) :: items))
        with ([k] ++ map item_name items)%list.
      rewrite app_assoc. apply sublist_app; [|done].
      etrans; [apply keys_evict_oldest_sublist|]. by rewrite keys_app.
Qed.

Lemma keys_cache_entries items :
  PyDict.keys (map cache_entry items) = map item_name items.
Proof.
  unfold PyDict.keys. rewrite map_map. apply map_ext. by intros [[k v] now].
Qed.

Lemma filter_ne_move_last (ks : list string) (k : string) :
  NoDup ks -> k ∈ ks -> (base.filter (fun k' => k' ≠ k) ks ++ [k])%list ≡ₚ ks.
Proof.
  induction ks as [|x ks IH]; intros Hnd Hin.
  - by apply elem_of_nil in Hin.
  - apply NoDup_cons in Hnd as [Hx Hnd].
    destruct (decide (x = k)) as [->|Hne].
    + rewrite filter_cons_False by (intros Hne; by apply Hne).
      rewrite filter_ne_fresh by done. symmetry. apply Permutation_cons_append.
    + rewrite filter_cons_True by done.
      apply elem_of_cons in Hin as [->|Hin]; [done|].
      simpl. by rewrite IH.
Qed.

(** On a hit, [_get_from_cache] re-inserts the entry at the end. *)
Lemma get_from_cache_hit (cache : Cache) skill_name content timestamp :
  NoDup (PyDict.keys cache) ->
  PyDict.get skill_name cache = Some (content, timestamp) ->
  _get_from_cache skill_name cache
  = (Some content,
     (PyDict.del skill_name cache ++ [(skill_name, (content, timestamp))])%list).
Proof.
  intros Hnd Hget. unfold _get_from_cache. rewrite Hget.
  by rewrite dict_set_fresh by by apply dict_del_not_in.
Qed.

Lemma elem_of_drop_elem_of {A} (n : nat) (l : list A) (x : A) :
  x ∈ drop n l -> x ∈ l.
Proof.
  intros Hin. rewrite <- (take_drop n l). apply elem_of_app. by right.
Qed.

Lemma drop_keeps_later {A} (n : nat) (ks new : list A) (k older : A) :
  older ∈ drop n (ks ++ k :: new)%list -> older ∉ k :: new ->
  k ∈ drop n (ks ++ k :: new)%list.
Proof.
  revert n. induction ks as [|x ks IH]; intros n Hin Hout.
  - exfalso. apply Hout. simpl in Hin.
    by apply elem_of_drop_elem_of in Hin.
  - destruct n as [|n]; simpl in *.
    + apply elem_of_cons. right. apply elem_of_app. right. left.
    + by apply IH.
Qed.

Lemma keys_evict_oldest max_cache_size (cache : Cache) :
  PyDict.keys (evict_oldest max_cache_size cache)
  = drop (length cache - max_cache_size) (PyDict.keys cache).
Proof.
  rewrite evict_oldest_drop. unfold PyDict.keys.
  change (map fst) with (fmap (M:=list) (@fst string (string * Q))).
  by rewrite fmap_drop.
Qed.

Lemma keys_get_from_cache_hit (cache : Cache) skill_name content timestamp :
  NoDup (PyDict.keys cache) ->
  PyDict.get skill_name cache = Some (content, timestamp) ->
  PyDict.keys (snd (_get_from_cache skill_name cache))
  = (base.filter (fun k => k ≠ skill_name) (PyDict.keys cache) ++ [skill_name])%list.
Proof.
  intros Hnd Hget. rewrite (get_from_cache_hit _ _ _ _ Hnd Hget). simpl.
  by rewrite keys_app, dict_del_keys.
Qed.

Lemma dict_get_Some_elem_of {V} (d : list (string * V)) k v :
  PyDict.get k d = Some v -> k ∈ PyDict.keys d.
Proof. intros Hget. apply dict_mem_true. unfold PyDict.mem. by rewrite Hget. Qed.

(** ** C3: bound and recency of the context cache *)

(** C3.  (1) After [_add_to_cache] the cache holds at most [max_cache_size]
    entries, and the agent is created with the bound 50.  (2) Adding 51
    entries with pairwise different names to an empty cache of bound 50
    leaves exactly the last 50 of them: the first one added is evicted.
    (3) A hit of [_get_from_cache] returns the content and moves the entry
    to the end of the order.  (4) After such a hit, however many new names
    are added, an older entry that was not read is never still cached once
    the entry that was read has been evicted. *)
Theorem cache_bound_and_recency
        (max_cache_size : nat) (now : Q) (skill_name content : string)
        (cache : Cache) (items : list (string * string * Q))
        (read read_content : string) (read_time : Q) (older : string) :
  (length (_add_to_cache max_cache_size now skill_name content cache) <= max_cache_size
   /\ forall skill_directory threshold,
        _max_cache_size (SkilledReActAgent_init skill_directory threshold) = 50)
  /\ (NoDup (map item_name items) -> length items = 51 ->
      add_all_to_cache 50 items [] = map cache_entry (tail items)
      /\ length (add_all_to_cache 50 items []) = 50)
  /\ (NoDup (PyDict.keys cache) ->
      PyDict.get read cache = Some (read_content, read_time) ->
      _get_from_cache read cache
      = (Some read_content,
         (PyDict.del read cache ++ [(read, (read_content, read_time))])%list)
      /\ PyDict.keys (snd (_get_from_cache read cache))
         = (base.filter (fun k => k ≠ read) (PyDict.keys cache) ++ [read])%list)
  /\ (NoDup (PyDict.keys cache ++ map item_name items)%list ->
      length cache <= max_cache_size ->
      PyDict.get read cache = Some (read_content, read_time) ->
      older ∈ PyDict.keys cache -> older ≠ read ->
      older ∈ PyDict.keys
                (add_all_to_cache max_cache_size items (snd (_get_from_cache read cache))) ->
      read ∈ PyDict.keys
               (add_all_to_cache max_cache_size items (snd (_get_from_cache read cache)))).
Proof.
  split; [split|split; [|split]].
  - unfold _add_to_cache. apply length_evict_oldest.
  - reflexivity.
  - intros Hnd Hlen.
    rewrite add_all_to_cache_fresh by (simpl; first [lia | done]).
    rewrite evict_oldest_drop. simpl. rewrite length_map, Hlen. simpl.
    destruct items as [|item items]; [done|]. simpl. rewrite drop_0.
    split; [done|]. rewrite length_map. simpl in Hlen. lia.
  - intros Hnd Hget.
    split; [by apply get_from_cache_hit | by eapply keys_get_from_cache_hit].
  - intros Hnd Hle Hget Holder Hne.
    apply NoDup_app in Hnd as Hparts. destruct Hparts as (Hnd1 & Hdisj & Hnd2).
    pose proof (dict_get_Some_elem_of _ _ _ Hget) as Hread.
    pose proof (keys_get_from_cache_hit _ _ _ _ Hnd1 Hget) as Hkeys.
    pose proof (filter_ne_move_last _ _ Hnd1 Hread) as Hperm.
    set (cache' := snd (_get_from_cache read cache)) in *.
    assert (Hlen : length cache' = length cache).
    { rewrite <- (length_map fst cache'), <- (length_map fst cache).
      fold (PyDict.keys cache') (PyDict.keys cache).
      rewrite Hkeys. by apply Permutation_length. }
    rewrite add_all_to_cache_fresh.
    + rewrite keys_evict_oldest, keys_app, keys_cache_entries, Hkeys.
      rewrite <- app_assoc. simpl.
      intros Hin. eapply drop_keeps_later; [exact Hin|].
      rewrite not_elem_of_cons. split; [done | by apply Hdisj].
    + lia.
    + rewrite Hkeys, Hperm. done.
Qed.

Example cache_read_protects :
  PyDict.keys
    (_add_to_cache 3 4%Q "d" "text d" (snd (_get_from_cache "a" cache_abc)))
  = ["c"; "a"; "d"].
Proof. reflexivity. Qed.

Lemma cache_bound_and_recency_witness :
  (NoDup (map item_name (sample_items 51)) /\ length (sample_items 51) = 51)
  /\ (NoDup (PyDict.keys cache_abc)
      /\ PyDict.get "a" cache_abc = Some ("text a", 1%Q))
  /\ (NoDup (PyDict.keys cache_abc ++ map item_name [("d", "text d", 4%Q)])%list
      /\ length cache_abc <= 3
      /\ "c" ∈ PyDict.keys cache_abc /\ "c" ≠ "a"
      /\ "c" ∈ PyDict.keys
               (add_all_to_cache 3 [("d", "text d", 4%Q)]
                                 (snd (_get_from_cache "a" cache_abc))))
  /\ length (add_all_to_cache 50 (sample_items 51) []) = 50
  /\ "a" ∈ PyDict.keys
            (add_all_to_cache 3 [("d", "text d", 4%Q)]
                              (snd (_get_from_cache "a" cache_abc))).
Proof.
  assert (H51 : NoDup (map item_name (sample_items 51)))
    by (apply (bool_decide_unpack _); vm_compute; exact I).
  assert (Habc : NoDup (PyDict.keys cache_abc))
    by (apply (bool_decide_unpack _); vm_compute; exact I).
  assert (Habcd : NoDup (PyDict.keys cache_abc ++ map item_name [("d", "text d", 4%Q)])%list)
    by (apply (bool_decide_unpack _); vm_compute; exact I).
  assert (Hc : "c" ∈ PyDict.keys cache_abc)
    by (apply (bool_decide_unpack _); vm_compute; exact I).
  assert (Hca : "c" ≠ "a") by discriminate.
  assert (Hc' : "c" ∈ PyDict.keys
                  (add_all_to_cache 3 [("d", "text d", 4%Q)]
                                    (snd (_get_from_cache "a" cache_abc))))
    by (apply (bool_decide_unpack _); vm_compute; exact I).
  destruct (cache_bound_and_recency 3 0%Q "x" "y" cache_abc (sample_items 51)
              "a" "text a" 1%Q "c") as (_ & H2 & _ & _).
  destruct (cache_bound_and_recency 3 0%Q "x" "y" cache_abc [("d", "text d", 4%Q)]
              "a" "text a" 1%Q "c") as (_ & _ & _ & H4).
  assert (Hlen : length cache_abc <= 3) by (simpl; lia).
  split; [split; [exact H51 | reflexivity]|].
  split; [split; [exact Habc | reflexivity]|].
  split; [repeat split; assumption|].
  split.
  - apply H2; [exact H51 | reflexivity].
  - apply H4; [exact Habcd | exact Hlen | reflexivity | exact Hc | exact Hca | exact Hc'].
Defined.

(** ** C4: the relevance matcher *)

Lemma skill_is_relevant_typed threshold task (d : Key * SkillMetadata.t) :
  typed_descriptor d ->
  skill_is_relevant threshold (PyStr.lower task) (fst d) (snd d)
  = Return (relevant threshold task (key_str (fst d)) (description_str (snd d))).
Proof.
  intros [Hk Hd]. unfold skill_is_relevant, relevant.
  rewrite Hk, Hd. cbn [key_value ylower rbind key_str].
  destruct (PyStr.contains _ _); [done|]. cbn [orb].
  unfold words_of.
  destruct (size (word_set (PyStr.split (PyStr.lower (description_str d.2)))) =? 0)%nat;
    [done|].
  cbn [negb andb].
  by destruct (0 <? _)%nat.
Qed.

Lemma match_loop_typed threshold task (ds : list (Key * SkillMetadata.t)) acc :
  Forall typed_descriptor ds ->
  fold_left
    (fun (acc : result (list Key)) '(skill_name, metadata) =>
       (let? relevant_skills := acc in
        let? hit := skill_is_relevant threshold (PyStr.lower task) skill_name metadata in
        Return (if hit then relevant_skills ++ [skill_name] else relevant_skills)%list)%py)
    ds (Return acc)
  = Return
      (acc ++ map fst
         (List.filter
            (fun d => relevant threshold task (key_str (fst d)) (description_str (snd d)))
            ds))%list.
Proof.
  intros Hall. revert acc. induction Hall as [|[k md] ds Hd Hds IH]; intros acc.
  - simpl. by rewrite app_nil_r.
  - cbn [fold_left List.filter rbind].
    pose proof (skill_is_relevant_typed threshold task (k, md) Hd) as Hrel.
    cbn [fst snd] in Hrel. rewrite Hrel. cbn [rbind fst snd].
    rewrite IH.
    destruct (relevant _ _ _ _); [|done].
    simpl. by rewrite <- app_assoc.
Qed.

(** C4 (as amended).  For descriptors whose name and description are strings,
    [_match_skills_to_task] returns, in the iteration order of the discovered
    index, the names of the skills for which [relevant] holds: the
    lower-cased name occurs in the lower-cased task text, or else the set of
    description words is non-empty, shares at least one word with the task
    and the shared fraction reaches the threshold.  An empty discovered
    index gives an empty result. *)
Theorem match_skills_semantics
        (threshold : Q) (discovered : list (Key * SkillMetadata.t)) (task : string) :
  Forall typed_descriptor discovered ->
  _match_skills_to_task threshold discovered task
  = Return
      (map fst
         (List.filter
            (fun d => relevant threshold task (key_str (fst d)) (description_str (snd d)))
            discovered)).
Proof.
  intros Hall. unfold _match_skills_to_task.
  destruct discovered as [|d ds]; [done|].
  by rewrite (match_loop_typed threshold task (d :: ds) [] Hall).
Qed.

Lemma match_skills_semantics_witness :
  Forall typed_descriptor
         [descriptor "notes" "take meeting notes quickly";
          descriptor "pdf-tools" "extract text from pdf documents";
          descriptor "Mail" ""]
  /\ _match_skills_to_task (7 # 10)
       [descriptor "notes" "take meeting notes quickly";
        descriptor "pdf-tools" "extract text from pdf documents";
        descriptor "Mail" ""]
       "Please extract text from this PDF and mail it"
     = Return [KStr "pdf-tools"; KStr "Mail"].
Proof.
  assert (Hall : Forall typed_descriptor
                   [descriptor "notes" "take meeting notes quickly";
                    descriptor "pdf-tools" "extract text from pdf documents";
                    descriptor "Mail" ""]).
  { repeat constructor. }
  split; [exact Hall|].
  rewrite (match_skills_semantics _ _ _ Hall). vm_compute. reflexivity.
Defined.

(** The two figures of the specification: three of four description words
    reach the default threshold, two of four do not. *)
Example match_three_of_four :
  _match_skills_to_task default_skill_matching_threshold
    [descriptor "s1" "alpha beta gamma delta"] "beta gamma delta omega"
  = Return [KStr "s1"].
Proof. vm_compute. reflexivity. Qed.

Example match_two_of_four :
  _match_skills_to_task default_skill_matching_threshold
    [descriptor "s1" "alpha beta gamma delta"] "gamma delta omega"
  = Return [].
Proof. vm_compute. reflexivity. Qed.

(** The rule as the specification words it fails in two places: a name with
    capital letters is found although the name itself does not occur in the
    lower-cased text, and with a threshold of zero a description that shares
    no word with the task is not matched although its ratio reaches the
    threshold. *)
Lemma match_skills_as_specified_fails :
  (_match_skills_to_task (7 # 10) [descriptor "PDF" "portable documents"] "use pdf"
   = Return [KStr "PDF"]
   /\ relevant_as_specified (7 # 10) "use pdf" "PDF" "portable documents" = false)
  /\ (_match_skills_to_task 0 [descriptor "notes" "alpha"] "beta" = Return []
      /\ relevant_as_specified 0 "beta" "notes" "alpha" = true).
Proof. vm_compute. repeat split; reflexivity. Qed.

(** ** C1: strategy 3 registers nothing *)

Lemma for_fold_skip {S A B} (body : A -> B -> M S B) (xs : list A) (acc : B) (s : S) :
  (forall x acc s, body x acc s = (Return acc, s)) ->
  for_fold body xs acc s = (Return acc, s).
Proof.
  intros Hbody. induction xs as [|x xs IH]; [done|].
  cbn [for_fold]. unfold bind. by rewrite Hbody.
Qed.

(** C1 (what the code does).  [_register_by_docstring_analysis] counts no
    tool and leaves the toolkit as it was, whatever the module holds: the
    registration block is never reached. *)
Theorem register_by_docstring_analysis_registers_nothing
        (module : PyModule) (skill_name : string) (tk : Toolkit) :
  _register_by_docstring_analysis module skill_name tk = (Return 0, tk).
Proof.
  unfold _register_by_docstring_analysis. apply for_fold_skip.
  intros [attr_name attr] count s.
  by destruct (_ || _).
Qed.

(** ** The manifest parser *)

Lemma keep_append (p r : string) : PyStr.keep (String.length p) (p ++ r) = p.
Proof. induction p as [|c p IH]; simpl; [by destruct r | by rewrite IH]. Qed.

Lemma slice_front_matter (fm rest : string) :
  PyStr.slice ("---" ++ fm ++ "---" ++ rest) 3 (Z.of_nat (3 + String.length fm)) = fm.
Proof.
  unfold PyStr.slice, PyStr.clip.
  assert (Hlen : String.length ("---" ++ fm ++ "---" ++ rest)
                 = 3 + String.length fm + 3 + String.length rest).
  { rewrite !length_append. simpl. lia. }
  rewrite Hlen.
  destruct (Z.ltb_spec 3 0); [lia|].
  destruct (Z.ltb_spec (Z.of_nat (3 + String.length fm)) 0); [lia|].
  rewrite Nat2Z.id.
  replace (Nat.min (Z.to_nat 3) _) with 3 by lia.
  replace (Nat.min (3 + String.length fm) _) with (3 + String.length fm) by lia.
  replace (3 + String.length fm - 3) with (String.length fm) by lia.
  change (PyStr.skip 3 ("---" ++ fm ++ "---" ++ rest)) with (fm ++ "---" ++ rest).
  apply keep_append.
Qed.

(** With the end marker found, [parse_manifest] hands the trimmed block
    between the markers to [yaml.safe_load]. *)
Lemma parse_manifest_loads_block (w : World) (skill_dir skill_file fm rest : string) :
  absent_before "---" (fm ++ "---" ++ rest) (String.length fm) ->
  parse_manifest w skill_dir skill_file ("---" ++ fm ++ "---" ++ rest)
  = match
      (let? frontmatter := yaml_safe_load w (PyStr.strip fm) in
       let? name := yget frontmatter "name" YNull in
       let? description := yget frontmatter "description" YNull in
       if negb (truthy name) || negb (truthy description) then
         Raise (mkExn ValueError "Missing required fields 'name' or 'description'")
       else
         let? dependencies := yget frontmatter "dependencies" (YSeq []) in
         let? version := yget frontmatter "version" (YStr "1.0.0") in
         let? author := yget frontmatter "author" (YStr "") in
         Return (SkillMetadata.init name description skill_dir skill_file
                                    dependencies version author))%py
    with
    | Return metadata => Return metadata
    | Raise e =>
        if is_YAMLError e then
          Raise (mkExn ValueError ("Invalid YAML in frontmatter: " ++ exn_str e))
        else Raise e
    end.
Proof.
  intros Habs. unfold parse_manifest, PyStr.startswith.
  rewrite prefix_append, find_marker by done.
  destruct (Z.eqb_spec (Z.of_nat (3 + String.length fm)) (-1)); [lia|].
  by rewrite slice_front_matter.
Qed.

(** A front matter that is a mapping lacking a non-empty [name] or
    [description] is refused with the [ValueError] of the validation step. *)
Lemma parse_manifest_missing_field
      (w : World) (skill_dir skill_file fm rest : string) entries :
  absent_before "---" (fm ++ "---" ++ rest) (String.length fm) ->
  yaml_safe_load w (PyStr.strip fm) = Return (YMap entries) ->
  match PyDict.get "name" entries with Some v => truthy v | None => false end
  && match PyDict.get "description" entries with Some v => truthy v | None => false end
  = false ->
  parse_manifest w skill_dir skill_file ("---" ++ fm ++ "---" ++ rest)
  = Raise (mkExn ValueError "Missing required fields 'name' or 'description'").
Proof.
  intros Habs Hload Hmissing. rewrite parse_manifest_loads_block by done.
  rewrite Hload. cbn [rbind yget].
  destruct (PyDict.get "name" entries) as [name|];
    destruct (PyDict.get "description" entries) as [description|]; cbn [truthy] in *.
  - destruct (truthy name), (truthy description); cbn in *; done.
  - by rewrite orb_true_r.
  - done.
  - done.
Qed.

(** A front matter that is a mapping with non-empty [name] and [description]
    gives a descriptor with these two values; absent optional keys take the
    defaults [[]], ["1.0.0"] and [""]. *)
Lemma parse_manifest_valid
      (w : World) (skill_dir skill_file fm rest : string) entries name description :
  absent_before "---" (fm ++ "---" ++ rest) (String.length fm) ->
  yaml_safe_load w (PyStr.strip fm) = Return (YMap entries) ->
  PyDict.get "name" entries = Some name -> truthy name = true ->
  PyDict.get "description" entries = Some description -> truthy description = true ->
  parse_manifest w skill_dir skill_file ("---" ++ fm ++ "---" ++ rest)
  = Return
      (SkillMetadata.init name description skill_dir skill_file
         (default (YSeq []) (PyDict.get "dependencies" entries))
         (default (YStr "1.0.0") (PyDict.get "version" entries))
         (default (YStr "") (PyDict.get "author" entries))).
Proof.
  intros Habs Hload Hn Htn Hd Htd. rewrite parse_manifest_loads_block by done.
  rewrite Hload. cbn [rbind yget]. rewrite Hn, Hd, Htn, Htd. cbn [negb orb].
  by destruct (PyDict.get "dependencies" entries),
              (PyDict.get "version" entries), (PyDict.get "author" entries).
Qed.

(** ** C6: validation of the manifest *)

(** C6 (where the code departs from the specification).  When the block
    between the markers loads as a document that is not a mapping (an empty
    block loads as null), [parse_manifest] does not reach the validation
    step: the call of [frontmatter.get] raises [AttributeError], which is not
    the [ValueError] raised for a missing field. *)
Theorem parse_manifest_non_mapping
        (w : World) (skill_dir skill_file fm rest : string) (v : YValue) :
  absent_before "---" (fm ++ "---" ++ rest) (String.length fm) ->
  yaml_safe_load w (PyStr.strip fm) = Return v ->
  (forall entries, v <> YMap entries) ->
  parse_manifest w skill_dir skill_file ("---" ++ fm ++ "---" ++ rest)
  = Raise (mkExn AttributeError
             ("'" ++ type_name v ++ "' object has no attribute 'get'")).
Proof.
  intros Habs Hload Hv. rewrite parse_manifest_loads_block by done.
  rewrite Hload. destruct v as [|s|items|entries]; try done.
  by destruct (Hv entries).
Qed.

Lemma parse_manifest_non_mapping_witness :
  absent_before "---" ("
" ++ "---" ++ "
# Nothing declared
") 1
  /\ yaml_safe_load sample_world (PyStr.strip "
") = Return YNull
  /\ (forall entries, YNull <> YMap entries)
  /\ _parse_skill_metadata sample_world "skills/empty" "skills/empty/SKILL.md"
     = Raise (mkExn AttributeError "'NoneType' object has no attribute 'get'").
Proof.
  assert (Habs : absent_before "---" ("
" ++ "---" ++ "
# Nothing declared
") 1).
  { intros i Hi. destruct i as [|i]; [reflexivity | lia]. }
  assert (Hnull : forall entries, YNull <> YMap entries) by discriminate.
  split; [exact Habs|]. split; [reflexivity|]. split; [exact Hnull|].
  unfold _parse_skill_metadata. cbn [read_text sample_world rbind].
  change (String.eqb "skills/empty/SKILL.md" "skills/pdf-tools/SKILL.md") with false.
  change (String.eqb "skills/empty/SKILL.md" "skills/empty/SKILL.md") with true.
  cbv iota. cbn [rbind].
  exact (parse_manifest_non_mapping sample_world "skills/empty" "skills/empty/SKILL.md"
           _ _ YNull Habs eq_refl Hnull).
Defined.

Example parse_sample_manifest :
  _parse_skill_metadata sample_world "skills/pdf-tools" "skills/pdf-tools/SKILL.md"
  = Return (SkillMetadata.mk (YStr "pdf-tools") (YStr "read pdf files")
              "skills/pdf-tools" "skills/pdf-tools/SKILL.md"
              (YSeq []) (YStr "1.0.0") (YStr "")).
Proof. vm_compute. reflexivity. Qed.

(** ** C5: loading twice *)

Lemma dict_get_set_eq {K V} `{EqDecision K} (d : list (K * V)) k v :
  PyDict.get k (PyDict.set k v d) = Some v.
Proof.
  induction d as [|[k' v'] d IH]; simpl.
  - by rewrite decide_True.
  - destruct (decide (k' = k)) as [->|Hne]; simpl.
    + by rewrite decide_True.
    + by rewrite decide_False.
Qed.

Lemma dict_get_set_ne {K V} `{EqDecision K} (d : list (K * V)) k k' v :
  k' ≠ k -> PyDict.get k' (PyDict.set k v d) = PyDict.get k' d.
Proof.
  intros Hne. induction d as [|[k0 v0] d IH]; simpl.
  - case_decide; [congruence | done].
  - destruct (decide (k0 = k)) as [->|Hne0]; simpl.
    + case_decide; [congruence | done].
    + by rewrite IH.
Qed.

(** What a returning [load_skill] leaves behind: the discovered index is the
    one it found, and the loaded index holds the returned data under the
    name. *)
Lemma load_skill_returns (w : World) (skill_name : string)
      (self self' : SkillManager) (data : SkillData) :
  load_skill w skill_name self = (Return data, self') ->
  discovered_skills self' = discovered_skills self
  /\ is_Some (PyDict.get (KStr skill_name) (discovered_skills self))
  /\ PyDict.get skill_name (loaded_skills self') = Some data.
Proof.
  unfold load_skill, bind, get_state, lift, on_toolkit, modify, ret, raise.
  destruct (PyDict.get (KStr skill_name) (discovered_skills self)) as [metadata|] eqn:Hd;
    [|discriminate].
  destruct (PyDict.get skill_name (loaded_skills self)) as [cached|] eqn:Hl.
  - intros [= <- <-]. eauto.
  - destruct (read_text w _) as [content|e]; [|discriminate].
    destruct (_load_additional_resources w _ _) as [resources|e]; [|discriminate].
    destruct (create_tool_group _ _ _ _ (toolkit self)) as [[[]|e] tk1]; [|discriminate].
    cbn [toolkit].
    destruct (_register_skill_tools w _ _ tk1) as [[[]|e] tk2]; [|discriminate].
    cbn [toolkit skill_directory discovered_skills loaded_skills].
    intros [= <- <-]. cbn [discovered_skills loaded_skills].
    split; [done|]. split; [eauto|]. apply dict_get_set_eq.
Qed.

(** C5.  If [load_skill] returns for a skill, a second call for the same
    skill returns the same data and leaves the manager, its toolkit included,
    exactly as the first call left it: nothing is read, no group is created
    and no tool is registered a second time.  This holds whatever the files
    and modules have become in the meantime. *)
Theorem load_skill_idempotent (w w' : World) (skill_name : string)
        (self self' : SkillManager) (data : SkillData) :
  load_skill w skill_name self = (Return data, self') ->
  load_skill w' skill_name self' = (Return data, self').
Proof.
  intros Hfirst. apply load_skill_returns in Hfirst as (Hdisc & [metadata Hd] & Hloaded).
  unfold load_skill, bind, get_state, ret. rewrite Hdisc, Hd. by rewrite Hloaded.
Qed.

(** ** C9 and C10: deactivation and discovery *)

Example discover_sample_world :
  fst (discover_skills sample_world sample_manager)
  = Return [(KStr "pdf-tools",
             SkillMetadata.mk (YStr "pdf-tools") (YStr "read pdf files")
               "skills/pdf-tools" "skills/pdf-tools/SKILL.md"
               (YSeq []) (YStr "1.0.0") (YStr ""))]
  /\ discovered_manager = snd (discover_skills sample_world sample_manager).
Proof. split; vm_compute; reflexivity. Qed.

Lemma load_skill_idempotent_witness :
  exists data self',
    load_skill sample_world "pdf-tools" discovered_manager = (Return data, self')
    /\ sd_tools data = ["extract_invoice_total"]
    /\ PyDict.keys (tools (toolkit self')) = ["extract_invoice_total"]
    /\ load_skill world_without_skills "pdf-tools" self' = (Return data, self').
Proof.
  destruct (load_skill sample_world "pdf-tools" discovered_manager)
    as [[data|e] self'] eqn:Hfirst; [|vm_compute in Hfirst; discriminate].
  exists data, self'. split; [reflexivity|].
  pose proof (load_skill_idempotent sample_world world_without_skills
                "pdf-tools" discovered_manager self' data Hfirst) as Hsecond.
  vm_compute in Hfirst. injection Hfirst as <- <-.
  split; [reflexivity|]. split; [reflexivity|]. exact Hsecond.
Defined.

(** C9.  [deactivate_skill] returns [True] for every name of the discovered
    index, whether or not the skill has been loaded or its tool group exists;
    the two indices of the manager are left as they were. *)
Theorem deactivate_skill_discovered (skill_name : string) (self : SkillManager) :
  PyDict.mem (KStr skill_name) (discovered_skills self) = true ->
  exists self',
    deactivate_skill skill_name self = (Return true, self')
    /\ discovered_skills self' = discovered_skills self
    /\ loaded_skills self' = loaded_skills self.
Proof.
  intros Hin. unfold deactivate_skill, bind, get_state. rewrite Hin. cbn.
  eexists. split; [reflexivity|]. done.
Qed.

Lemma deactivate_skill_discovered_witness :
  PyDict.mem (KStr "pdf-tools") (discovered_skills discovered_manager) = true
  /\ loaded_skills discovered_manager = []
  /\ groups (toolkit discovered_manager) = []
  /\ exists self',
       deactivate_skill "pdf-tools" discovered_manager = (Return true, self')
       /\ discovered_skills self' = discovered_skills discovered_manager
       /\ loaded_skills self' = loaded_skills discovered_manager.
Proof.
  split; [reflexivity|]. split; [reflexivity|]. split; [reflexivity|].
  apply deactivate_skill_discovered. reflexivity.
Defined.

Example deactivate_unknown :
  deactivate_skill "unknown" discovered_manager = (Return false, discovered_manager).
Proof. reflexivity. Qed.

(** C10.  When the skill directory does not exist, [discover_skills] returns
    an empty dictionary without raising and the manager, its discovered index
    included, is unchanged. *)
Theorem discover_skills_missing_directory (w : World) (self : SkillManager) :
  path_exists w (skill_directory self) = Return false ->
  discover_skills w self = (Return [], self).
Proof.
  intros Hmissing. unfold discover_skills, bind, get_state, lift. by rewrite Hmissing.
Qed.

Lemma discover_skills_missing_directory_witness :
  path_exists world_without_skills (skill_directory discovered_manager) = Return false
  /\ discovered_skills discovered_manager <> []
  /\ discover_skills world_without_skills discovered_manager
     = (Return [], discovered_manager).
Proof.
  split; [reflexivity|]. split; [discriminate|].
  apply discover_skills_missing_directory. reflexivity.
Defined.

(** When the directory exists the index is replaced as a whole. *)
Example discover_replaces_index :
  discovered_skills
    (snd (discover_skills sample_world
            (mkSkillManager "skills" [descriptor "old" "an old skill"] [] Toolkit_init)))
  = discovered_skills discovered_manager.
Proof. vm_compute. reflexivity. Qed.

(** The failing input of C1: [summarize] is public, callable, untagged, not
    named after the convention, and its docstring holds the indicator
    ["tool:"]; no strategy registers it. *)
Example summarize_is_not_registered :
  _is_tool_docstring (doc summarize) = true
  /\ any_in tool_patterns (PyStr.lower "summarize") = false
  /\ _register_by_docstring_analysis sample_module "pdf-tools" sample_toolkit
     = (Return 0, sample_toolkit)
  /\ PyDict.keys
       (tools (snd (_register_skill_tools sample_world "pdf-tools" "skills/pdf-tools"
                      sample_toolkit)))
     = ["extract_invoice_total"].
Proof. repeat split; vm_compute; reflexivity. Qed.

(** ** C2: strategy 2, the naming convention *)

(** The group of the skill exists in the toolkit. *)
Lemma register_wrapped_known_group
      attr_name attr wrapped_doc marker skill_name count (tk : Toolkit) :
  group_known skill_name tk = true ->
  register_wrapped attr_name attr wrapped_doc marker skill_name count tk
  = if PyDict.mem attr_name (tools tk) then (Return count, tk)
    else (Return (count + 1),
          mkToolkit
            (PyDict.set attr_name
               (mkRegistered
                  (mkToolFunc attr_name wrapped_doc marker
                              (wrapped_tool attr_name (call attr)))
                  skill_name)
               (tools tk))
            (groups tk)).
Proof.
  unfold group_known. intros Hknown.
  unfold register_wrapped, bind, get_state, ret, register_tool_function.
  destruct (PyDict.mem attr_name (tools tk)) eqn:Hmem; [done|].
  cbn [func_name]. rewrite Hmem.
  destruct (PyDict.mem skill_name (groups tk)), (String.eqb skill_name "basic");
    cbn in *; done.
Qed.

Lemma dict_mem_get_None {K V} `{EqDecision K} (d : list (K * V)) k :
  PyDict.get k d = None -> PyDict.mem k d = false.
Proof. unfold PyDict.mem. by intros ->. Qed.

Lemma naming_convention_loop (skill_name : string) (module : PyModule) :
  NoDup (map fst module) ->
  forall count tk,
    group_known skill_name tk = true ->
    exists count' tk',
      for_fold
        (fun '(attr_name, attr) count =>
           if callable attr && negb (has_skill_tool attr) then
             if any_in tool_patterns (PyStr.lower attr_name) then
               register_wrapped attr_name attr (doc attr) None skill_name count
             else ret count
           else ret count)
        module count tk
      = (Return count', tk')
      /\ groups tk' = groups tk
      /\ (forall n t, PyDict.get n (tools tk) = Some t -> PyDict.get n (tools tk') = Some t)
      /\ (forall n attr,
            (n, attr) ∈ module -> named_like_a_tool n attr = true ->
            PyDict.get n (tools tk) = None ->
            PyDict.get n (tools tk') = Some (registered_by_name n attr skill_name)).
Proof.
  induction module as [|[n0 a0] module IH]; intros Hnd count tk Hknown.
  - exists count, tk. repeat split; [done|]. intros n attr Hin. by apply elem_of_nil in Hin.
  - cbn [map fst] in Hnd. apply NoDup_cons in Hnd as [Hfresh Hnd].
    cbn [for_fold]. unfold bind at 1.
    (* one iteration *)
    assert (Hstep : exists count1 tk1,
               (if callable a0 && negb (has_skill_tool a0) then
                  if any_in tool_patterns (PyStr.lower n0) then
                    register_wrapped n0 a0 (doc a0) None skill_name count
                  else ret count
                else ret count) tk = (Return count1, tk1)
               /\ groups tk1 = groups tk
               /\ (forall n t, PyDict.get n (tools tk) = Some t ->
                               PyDict.get n (tools tk1) = Some t)
               /\ (forall n, n ≠ n0 -> PyDict.get n (tools tk1) = PyDict.get n (tools tk))
               /\ (named_like_a_tool n0 a0 = true -> PyDict.get n0 (tools tk) = None ->
                   PyDict.get n0 (tools tk1) = Some (registered_by_name n0 a0 skill_name))).
    { unfold named_like_a_tool.
      destruct (callable a0 && negb (has_skill_tool a0)) eqn:Hc;
        [destruct (any_in tool_patterns (PyStr.lower n0)) eqn:Hp|].
      - rewrite register_wrapped_known_group by done.
        destruct (PyDict.mem n0 (tools tk)) eqn:Hmem.
        + exists count, tk. repeat split; try done.
          intros _ Hnone. apply dict_mem_get_None in Hnone. congruence.
        + eexists _, _. split; [reflexivity|]. cbn [tools groups].
          split; [done|]. split; [|split].
          * intros n t Hget. rewrite dict_get_set_ne; [done|].
            intros ->. unfold PyDict.mem in Hmem. by rewrite Hget in Hmem.
          * intros n Hne. by apply dict_get_set_ne.
          * intros _ _. apply dict_get_set_eq.
      - exists count, tk. repeat split; try done.
      - exists count, tk. repeat split; try done. }
    destruct Hstep as (count1 & tk1 & -> & Hg1 & Hkeep1 & Hother1 & Hreg1).
    destruct (IH Hnd count1 tk1) as (count' & tk' & Hrun & Hg & Hkeep & Hreg).
    { unfold group_known in *. by rewrite Hg1. }
    exists count', tk'. split; [exact Hrun|]. split; [congruence|]. split.
    + intros n t Hget. eauto.
    + intros n attr Hin Hnamed Hnone.
      apply elem_of_cons in Hin as [[= -> ->]|Hin].
      * apply Hkeep. by apply Hreg1.
      * apply (Hreg n attr Hin Hnamed). rewrite Hother1; [done|].
        intros ->. apply Hfresh. apply list_elem_of_fmap. by exists (n0, attr).
Qed.

(** C2 (as amended).  In a module whose attribute names are pairwise
    different, every callable without a [__skill_tool__] attribute whose
    lower-cased name contains one of the verbs followed by an underscore is,
    unless a tool of that name is registered already, registered by
    [_register_by_naming_convention] in the group of the skill, under its own
    name, wrapped, with the docstring of the callable as its description. *)
Theorem naming_convention_registers
        (module : PyModule) (skill_name : string) (tk : Toolkit)
        (attr_name : string) (attr : PyAttr) :
  NoDup (map fst module) ->
  (attr_name, attr) ∈ module ->
  named_like_a_tool attr_name attr = true ->
  group_known skill_name tk = true ->
  PyDict.get attr_name (tools tk) = None ->
  exists count tk',
    _register_by_naming_convention module skill_name tk = (Return count, tk')
    /\ PyDict.get attr_name (tools tk')
       = Some (mkRegistered
                 (mkToolFunc attr_name (doc attr) None
                             (wrapped_tool attr_name (call attr)))
                 skill_name).
Proof.
  intros Hnd Hin Hnamed Hknown Hnone.
  destruct (naming_convention_loop skill_name module Hnd 0 tk Hknown)
    as (count & tk' & Hrun & _ & _ & Hreg).
  exists count, tk'. split; [exact Hrun|]. by apply (Hreg attr_name attr).
Qed.

Lemma naming_convention_registers_witness :
  NoDup (map fst sample_module)
  /\ ("extract_invoice_total", extract_invoice_total) ∈ sample_module
  /\ named_like_a_tool "extract_invoice_total" extract_invoice_total = true
  /\ group_known "pdf-tools" sample_toolkit = true
  /\ PyDict.get "extract_invoice_total" (tools sample_toolkit) = None
  /\ exists count tk',
       _register_by_naming_convention sample_module "pdf-tools" sample_toolkit
       = (Return count, tk')
       /\ PyDict.get "extract_invoice_total" (tools tk')
          = Some (mkRegistered
                    (mkToolFunc "extract_invoice_total" (Some "Sum the invoice lines.")
                       None
                       (wrapped_tool "extract_invoice_total" (call extract_invoice_total)))
                    "pdf-tools").
Proof.
  assert (Hnd : NoDup (map fst sample_module))
    by (apply (bool_decide_unpack _); vm_compute; exact I).
  assert (Hin : ("extract_invoice_total", extract_invoice_total) ∈ sample_module)
    by left.
  split; [exact Hnd|]. split; [exact Hin|].
  split; [reflexivity|]. split; [reflexivity|]. split; [reflexivity|].
  exact (naming_convention_registers sample_module "pdf-tools" sample_toolkit
           "extract_invoice_total" extract_invoice_total
           Hnd Hin eq_refl eq_refl eq_refl).
Defined.

(** Strategy 2 as the specification words it fails on the sample module:
    [extractor] contains the verb [extract] and is not registered;
    [extract_invoice_total] is registered with its own docstring, not with
    the text [Extract invoice total]; and the description generator, which
    registration does not call, keeps the underscores of the object phrase. *)
Lemma naming_convention_as_specified_fails :
  let tk' := snd (_register_by_naming_convention sample_module "pdf-tools" sample_toolkit) in
  (PyStr.contains "extract" "extractor" = true
   /\ callable extractor = true /\ skill_tool extractor = None
   /\ PyDict.get "extractor" (tools tk') = None)
  /\ (func_doc <$> (rt_func <$> PyDict.get "extract_invoice_total" (tools tk'))
      = Some (Some "Sum the invoice lines."))
  /\ _generate_tool_description "extract_invoice_total" = "Extract invoice_total".
Proof. vm_compute. repeat split; reflexivity. Qed.

(** ** C7: the invocation wrapper *)

Section keeps_wrapped.
Context {A : Type}.





End keeps_wrapped.







Example wrapped_tool_catches_ValueError :
  wrapped_tool "parse_date" (fun _ => Raises (Exn ValueError "bad date"))
               (plain_call ([], []))
  = Returns (text_response "Error executing parse_date: bad date").
Proof. reflexivity. Qed.

(** An exception of a class whose [__str__] raises [RuntimeError] is caught,
    and the [RuntimeError] leaves the handler. *)
Example wrapped_tool_propagates_error_of_str :
  wrapped_tool "parse_date"
               (fun _ => Raises (ExnBadStr ValueError (Exn OtherException "no text")))
               (plain_call ([], []))
  = Raises (Exn OtherException "no text").
Proof. reflexivity. Qed.

(** The call [wrapped_tool(attr_name='zzz')] names [zzz] in the error text,
    and the call [wrapped_tool(attr=other)] runs [other]. *)
Example wrapped_tool_keywords_rebind :
  wrapped_tool "parse_date" (fun _ => Raises (Exn ValueError "bad date"))
               (mkWrapperCall ([], []) (Some (Returns "zzz")) None)
  = Returns (text_response "Error executing zzz: bad date")
  /\ wrapped_tool "parse_date" (fun _ => Raises (Exn ValueError "bad date"))
                  (mkWrapperCall ([], []) None (Some (fun _ => Returns (PyStr "ok"))))
     = Returns (text_response "ok").
Proof. split; reflexivity. Qed.

(* ================================================================ *)
(** * Further properties of the manifest parser *)

Lemma find_from_absent (sub s : string) (k : nat) :
  String.prefix sub "" = false ->
  absent_before sub s (String.length s) ->
  PyStr.find_from sub s k = None.
Proof.
  intros Hsub. revert k. induction s as [|c s IH]; intros k Habs.
  - cbn [PyStr.find_from]. by rewrite Hsub.
  - cbn [PyStr.find_from].
    assert (H0 : String.prefix sub (String c s) = false).
    { apply (Habs 0). simpl. lia. }
    rewrite H0. apply IH. intros i Hi. apply (Habs (S i)). simpl. lia.
Qed.

(** X1.  A manifest that does not begin with the marker is refused with
    [ValueError("SKILL.md must start with YAML frontmatter")]; one that begins
    with the marker and holds no second marker is refused with
    [ValueError("Invalid YAML frontmatter format")].  In both cases the
    result does not depend on the YAML loader. *)
Theorem parse_manifest_format_errors
        (w : World) (skill_dir skill_file content body : string) :
  (PyStr.startswith "---" content = false ->
   parse_manifest w skill_dir skill_file content
   = Raise (mkExn ValueError "SKILL.md must start with YAML frontmatter"))
  /\ (absent_before "---" body (String.length body) ->
      parse_manifest w skill_dir skill_file ("---" ++ body)
      = Raise (mkExn ValueError "Invalid YAML frontmatter format")).
Proof.
  split.
  - intros Hstart. unfold parse_manifest. by rewrite Hstart.
  - intros Habs. unfold parse_manifest, PyStr.startswith.
    rewrite prefix_append. unfold PyStr.find.
    assert (Hlen : (String.length ("---" ++ body) <? 3)%nat = false).
    { apply Nat.ltb_ge. rewrite length_append. simpl. lia. }
    rewrite Hlen.
    change (PyStr.skip 3 ("---" ++ body)) with body.
    by rewrite find_from_absent.
Qed.

Lemma parse_manifest_format_errors_witness :
  PyStr.startswith "---" "# Notes" = false
  /\ absent_before "---" "
name: pdf
" 11
  /\ _parse_skill_metadata
       (mkWorld (path_exists sample_world) (path_is_dir sample_world)
                (path_iterdir sample_world) (path_join sample_world)
                (path_glob sample_world) (path_name sample_world)
                (path_stem sample_world) (fun _ => Return "# Notes")
                (yaml_safe_load sample_world) (re_findall_links sample_world)
                (re_findall_includes sample_world) (exec_module sample_world))
       "skills/notes" "skills/notes/SKILL.md"
     = Raise (mkExn ValueError "SKILL.md must start with YAML frontmatter")
  /\ parse_manifest sample_world "skills/pdf" "skills/pdf/SKILL.md" "---
name: pdf
" = Raise (mkExn ValueError "Invalid YAML frontmatter format").
Proof.
  assert (Habs : absent_before "---" "
name: pdf
" 11).
  { intros i Hi. do 11 (destruct i as [|i]; [reflexivity|]). lia. }
  destruct (parse_manifest_format_errors sample_world "skills/pdf"
              "skills/pdf/SKILL.md" "# Notes" "
name: pdf
") as [_ Hend].
  split; [reflexivity|]. split; [exact Habs|]. split.
  - unfold _parse_skill_metadata. cbn [read_text rbind].
    apply parse_manifest_format_errors; [exact ""|reflexivity].
  - exact (Hend Habs).
Defined.

(** X2.  When the loader raises on the block between the markers, a
    [yaml.YAMLError] comes out of [_parse_skill_metadata] as
    [ValueError("Invalid YAML in frontmatter: ...")] carrying the loader's
    message; an error of any other class comes out as it is. *)
Theorem parse_skill_metadata_loader_error
        (w : World) (skill_dir skill_file fm rest : string) (e : PyExn) :
  read_text w skill_file = Return ("---" ++ fm ++ "---" ++ rest) ->
  absent_before "---" (fm ++ "---" ++ rest) (String.length fm) ->
  yaml_safe_load w (PyStr.strip fm) = Raise e ->
  _parse_skill_metadata w skill_dir skill_file
  = Raise (if is_YAMLError e
           then mkExn ValueError ("Invalid YAML in frontmatter: " ++ exn_str e)
           else e).
Proof.
  intros Hread Habs Hload. unfold _parse_skill_metadata. rewrite Hread. cbn [rbind].
  rewrite parse_manifest_loads_block by done. rewrite Hload. cbn [rbind].
  by destruct (is_YAMLError e).
Qed.

Lemma parse_skill_metadata_loader_error_witness :
  read_text broken_yaml_world "skills/pdf-tools/SKILL.md"
  = Return ("---" ++ "
name: [pdf
" ++ "---" ++ "
body")
  /\ absent_before "---" ("
name: [pdf
" ++ "---" ++ "
body") 12
  /\ yaml_safe_load broken_yaml_world (PyStr.strip "
name: [pdf
") = Raise (mkExn YAMLError "could not parse")
  /\ _parse_skill_metadata broken_yaml_world "skills/pdf-tools" "skills/pdf-tools/SKILL.md"
     = Raise (mkExn ValueError "Invalid YAML in frontmatter: could not parse").
Proof.
  assert (Habs : absent_before "---" ("
name: [pdf
" ++ "---" ++ "
body") 12).
  { intros i Hi. do 12 (destruct i as [|i]; [reflexivity|]). lia. }
  split; [reflexivity|]. split; [exact Habs|]. split; [reflexivity|].
  exact (parse_skill_metadata_loader_error broken_yaml_world "skills/pdf-tools"
           "skills/pdf-tools/SKILL.md" _ _ _ eq_refl Habs eq_refl).
Defined.

(** X3.  When the block between the markers loads as a mapping in which
    [name] or [description] is absent or empty (null, empty string, empty
    list or empty mapping), [_parse_skill_metadata] raises
    [ValueError("Missing required fields 'name' or 'description'")]. *)
Theorem parse_skill_metadata_missing_field
        (w : World) (skill_dir skill_file fm rest : string)
        (entries : list (string * YValue)) :
  read_text w skill_file = Return ("---" ++ fm ++ "---" ++ rest) ->
  absent_before "---" (fm ++ "---" ++ rest) (String.length fm) ->
  yaml_safe_load w (PyStr.strip fm) = Return (YMap entries) ->
  match PyDict.get "name" entries with Some v => truthy v | None => false end
  && match PyDict.get "description" entries with Some v => truthy v | None => false end
  = false ->
  _parse_skill_metadata w skill_dir skill_file
  = Raise (mkExn ValueError "Missing required fields 'name' or 'description'").
Proof.
  intros Hread Habs Hload Hmissing. unfold _parse_skill_metadata.
  rewrite Hread. cbn [rbind]. by eapply parse_manifest_missing_field.
Qed.

Lemma parse_skill_metadata_missing_field_witness :
  read_text nameless_world "skills/pdf-tools/SKILL.md" = Return sample_manifest
  /\ absent_before "---" (sample_front_matter ++ "---" ++ sample_rest)
                   (String.length sample_front_matter)
  /\ yaml_safe_load nameless_world (PyStr.strip sample_front_matter)
     = Return (YMap [("name", YStr ""); ("description", YStr "read pdf files")])
  /\ _parse_skill_metadata nameless_world "skills/pdf-tools" "skills/pdf-tools/SKILL.md"
     = Raise (mkExn ValueError "Missing required fields 'name' or 'description'").
Proof.
  assert (Habs : absent_before "---" (sample_front_matter ++ "---" ++ sample_rest)
                               (String.length sample_front_matter)).
  { intros i Hi. do 39 (destruct i as [|i]; [reflexivity|]).
    exfalso. vm_compute in Hi. lia. }
  split; [reflexivity|]. split; [exact Habs|]. split; [reflexivity|].
  exact (parse_skill_metadata_missing_field nameless_world "skills/pdf-tools"
           "skills/pdf-tools/SKILL.md" sample_front_matter sample_rest _
           eq_refl Habs eq_refl eq_refl).
Defined.

(** X4.  When the block loads as a mapping with non-empty [name] and
    [description], [_parse_skill_metadata] returns a descriptor holding these
    two values, the directory and the file path it was given, and for each of
    [dependencies], [version] and [author] the value of the mapping or, when
    the key is absent, [[]], ["1.0.0"] and [""]; a [dependencies] that is
    null becomes [[]]. *)
Theorem parse_skill_metadata_valid
        (w : World) (skill_dir skill_file fm rest : string)
        (entries : list (string * YValue)) (name description : YValue) :
  read_text w skill_file = Return ("---" ++ fm ++ "---" ++ rest) ->
  absent_before "---" (fm ++ "---" ++ rest) (String.length fm) ->
  yaml_safe_load w (PyStr.strip fm) = Return (YMap entries) ->
  PyDict.get "name" entries = Some name -> truthy name = true ->
  PyDict.get "description" entries = Some description -> truthy description = true ->
  _parse_skill_metadata w skill_dir skill_file
  = Return
      (SkillMetadata.mk name description skill_dir skill_file
         (match PyDict.get "dependencies" entries with
          | None | Some YNull => YSeq []
          | Some d => d
          end)
         (default (YStr "1.0.0") (PyDict.get "version" entries))
         (default (YStr "") (PyDict.get "author" entries))).
Proof.
  intros Hread Habs Hload Hn Htn Hd Htd. unfold _parse_skill_metadata.
  rewrite Hread. cbn [rbind].
  rewrite (parse_manifest_valid w skill_dir skill_file fm rest entries name description)
    by done.
  unfold SkillMetadata.init.
  by destruct (PyDict.get "dependencies" entries) as [[]|].
Qed.

Lemma parse_skill_metadata_valid_witness :
  read_text sample_world "skills/pdf-tools/SKILL.md"
  = Return ("---" ++ sample_front_matter ++ "---" ++ sample_rest)
  /\ absent_before "---" (sample_front_matter ++ "---" ++ sample_rest)
                   (String.length sample_front_matter)
  /\ _parse_skill_metadata sample_world "skills/pdf-tools" "skills/pdf-tools/SKILL.md"
     = Return (SkillMetadata.mk (YStr "pdf-tools") (YStr "read pdf files")
                 "skills/pdf-tools" "skills/pdf-tools/SKILL.md"
                 (YSeq []) (YStr "1.0.0") (YStr "")).
Proof.
  assert (Habs : absent_before "---" (sample_front_matter ++ "---" ++ sample_rest)
                               (String.length sample_front_matter)).
  { intros i Hi. do 39 (destruct i as [|i]; [reflexivity|]).
    exfalso. vm_compute in Hi. lia. }
  split; [reflexivity|]. split; [exact Habs|].
  exact (parse_skill_metadata_valid sample_world "skills/pdf-tools"
           "skills/pdf-tools/SKILL.md" sample_front_matter sample_rest
           [("name", YStr "pdf-tools"); ("description", YStr "read pdf files")]
           (YStr "pdf-tools") (YStr "read pdf files")
           eq_refl Habs eq_refl eq_refl eq_refl eq_refl eq_refl).
Defined.

(** Whatever the text, a descriptor that [parse_manifest] returns is
    complete. *)
Lemma parse_manifest_Return_inv
      (w : World) (skill_dir skill_file content : string) (metadata : SkillMetadata.t) :
  parse_manifest w skill_dir skill_file content = Return metadata ->
  truthy (SkillMetadata.name metadata) = true
  /\ truthy (SkillMetadata.description metadata) = true
  /\ SkillMetadata.directory metadata = skill_dir
  /\ SkillMetadata.skill_file_path metadata = skill_file
  /\ SkillMetadata.dependencies metadata <> YNull.
Proof.
  unfold parse_manifest.
  destruct (PyStr.startswith "---" content); [|discriminate].
  destruct (PyStr.find "---" content 3 =? -1)%Z; [discriminate|].
  destruct (yaml_safe_load w _) as [frontmatter|e]; cbn [rbind];
    [|destruct (is_YAMLError e); discriminate].
  destruct frontmatter as [|s|items|entries]; cbn [yget rbind];
    try (cbn; discriminate).
  set (name := match PyDict.get "name" entries with Some x => x | None => YNull end).
  set (description :=
         match PyDict.get "description" entries with Some x => x | None => YNull end).
  destruct (truthy name) eqn:Hn; destruct (truthy description) eqn:Hd;
    cbn [negb orb is_YAMLError exn_class]; try discriminate.
  intros [= <-]. unfold SkillMetadata.init. cbn.
  repeat split; try done.
  by destruct (match PyDict.get "dependencies" entries with
               | Some x => x | None => YSeq [] end).
Qed.

(** X5.  Whatever the file holds, a descriptor that [_parse_skill_metadata]
    returns has a non-empty [name] and a non-empty [description], carries the
    directory and the file path of the call, and its [dependencies] are not
    null: no partially filled descriptor is ever returned. *)
Theorem parse_skill_metadata_returns_complete
        (w : World) (skill_dir skill_file : string) (metadata : SkillMetadata.t) :
  _parse_skill_metadata w skill_dir skill_file = Return metadata ->
  truthy (SkillMetadata.name metadata) = true
  /\ truthy (SkillMetadata.description metadata) = true
  /\ SkillMetadata.directory metadata = skill_dir
  /\ SkillMetadata.skill_file_path metadata = skill_file
  /\ SkillMetadata.dependencies metadata <> YNull.
Proof.
  unfold _parse_skill_metadata.
  destruct (read_text w skill_file) as [content|e]; [|discriminate].
  cbn [rbind]. apply parse_manifest_Return_inv.
Qed.

Lemma parse_skill_metadata_returns_complete_witness :
  exists metadata,
    _parse_skill_metadata sample_world "skills/pdf-tools" "skills/pdf-tools/SKILL.md"
    = Return metadata
    /\ truthy (SkillMetadata.name metadata) = true
    /\ truthy (SkillMetadata.description metadata) = true
    /\ SkillMetadata.directory metadata = "skills/pdf-tools"
    /\ SkillMetadata.skill_file_path metadata = "skills/pdf-tools/SKILL.md"
    /\ SkillMetadata.dependencies metadata <> YNull.
Proof.
  eexists. split; [vm_compute; reflexivity|].
  apply (parse_skill_metadata_returns_complete sample_world).
  vm_compute. reflexivity.
Defined.

(* ================================================================ *)
(** * Further properties of discovery *)

(** The loop of [discover_skills] does not touch the manager and computes
    [discover_steps]. *)
Lemma discover_loop_steps (w : World) (entries : list string)
      (skills : list (Key * SkillMetadata.t)) (self : SkillManager) :
  for_fold
    (fun skill_dir (skills : list (Key * SkillMetadata.t)) =>
       (is_dir <- lift (path_is_dir w skill_dir) ;;
        if negb is_dir then ret skills
        else
          let skill_file := path_join w skill_dir "SKILL.md" in
          file_exists <- lift (path_exists w skill_file) ;;
          if negb file_exists then ret skills
          else
            try_except_Exception
              (metadata <- lift (_parse_skill_metadata w skill_dir skill_file) ;;
               key <- lift (key_of (SkillMetadata.name metadata)) ;;
               ret (PyDict.set key metadata skills))
              (fun _ => ret skills))%py)
    entries skills self
  = (discover_steps w entries skills, self).
Proof.
  revert skills. induction entries as [|skill_dir entries IH]; intros skills; [done|].
  cbn [for_fold discover_steps]. unfold bind at 1. unfold discover_step.
  unfold bind at 1, lift at 1.
  destruct (path_is_dir w skill_dir) as [is_dir|e]; cbn [rbind]; [|done].
  destruct (negb is_dir); [by rewrite <- IH|].
  cbv zeta. unfold bind at 1, lift at 1.
  destruct (path_exists w (path_join w skill_dir "SKILL.md")) as [file_exists|e];
    cbn [rbind]; [|done].
  destruct (negb file_exists); [by rewrite <- IH|].
  unfold try_except_Exception, bind, lift, ret.
  destruct (_parse_skill_metadata w skill_dir _) as [metadata|e]; cbn [rbind].
  - destruct (key_of (SkillMetadata.name metadata)) as [key|e]; cbn [rbind].
    + by rewrite <- IH.
    + destruct (is_Exception e); [by rewrite <- IH | done].
  - destruct (is_Exception e); [by rewrite <- IH | done].
Qed.

Lemma discover_skills_steps (w : World) (self : SkillManager) :
  discover_skills w self
  = match path_exists w (skill_directory self) with
    | Raise e => (Raise e, self)
    | Return directory_exists =>
        if negb directory_exists then (Return [], self)
        else match path_iterdir w (skill_directory self) with
             | Raise e => (Raise e, self)
             | Return entries =>
                 match discover_steps w entries [] with
                 | Raise e => (Raise e, self)
                 | Return skills =>
                     (Return skills,
                      mkSkillManager (skill_directory self) skills
                                     (loaded_skills self) (toolkit self))
                 end
             end
    end.
Proof.
  unfold discover_skills, bind at 1, get_state. unfold bind at 1, lift at 1.
  destruct (path_exists w (skill_directory self)) as [directory_exists|e]; [|done].
  destruct (negb directory_exists); [done|].
  unfold bind at 1, lift at 1.
  destruct (path_iterdir w (skill_directory self)) as [entries|e]; [|done].
  unfold bind at 1. rewrite discover_loop_steps.
  by destruct (discover_steps w entries []).
Qed.

(** X6.  [discover_skills] never touches the skill directory setting, the
    loaded skills or the toolkit.  When it raises, the manager is left
    entirely as it was; when it returns after finding the directory, the
    dictionary it returns is the new discovered index. *)
Theorem discover_skills_frame (w : World) (self : SkillManager) :
  skill_directory (snd (discover_skills w self)) = skill_directory self
  /\ loaded_skills (snd (discover_skills w self)) = loaded_skills self
  /\ toolkit (snd (discover_skills w self)) = toolkit self
  /\ match fst (discover_skills w self) with
     | Raise _ => snd (discover_skills w self) = self
     | Return skills =>
         path_exists w (skill_directory self) = Return true ->
         discovered_skills (snd (discover_skills w self)) = skills
     end.
Proof.
  rewrite discover_skills_steps.
  destruct (path_exists w (skill_directory self)) as [[|]|e]; cbn [negb]; [| |done].
  - destruct (path_iterdir w (skill_directory self)) as [entries|e]; [|done].
    destruct (discover_steps w entries []); done.
  - repeat split. discriminate.
Qed.

Lemma dict_set_keys_NoDup {K V} `{EqDecision K} (d : list (K * V)) k v :
  NoDup (PyDict.keys d) -> NoDup (PyDict.keys (PyDict.set k v d)).
Proof.
  intros Hnd. destruct (decide (k ∈ PyDict.keys d)) as [Hin|Hout].
  - replace (PyDict.keys (PyDict.set k v d)) with (PyDict.keys d); [done|].
    clear Hnd. induction d as [|[k' v'] d IH]; simpl in *.
    + by apply elem_of_nil in Hin.
    + case_decide as Hk; simpl; [done|]. f_equal. apply IH.
      apply elem_of_cons in Hin as [->|Hin]; [done | exact Hin].
  - rewrite dict_set_fresh by done. unfold PyDict.keys. rewrite map_app. simpl.
    apply NoDup_app. split; [done|]. split; [|apply NoDup_singleton].
    intros x Hx Hx'. apply list_elem_of_singleton in Hx'. by subst.
Qed.

Lemma dict_set_elem_of {K V} `{EqDecision K} (d : list (K * V)) k v k' v' :
  (k', v') ∈ PyDict.set k v d -> (k', v') = (k, v) \/ (k', v') ∈ d.
Proof.
  induction d as [|[k0 v0] d IH]; simpl.
  - intros Hin. apply list_elem_of_singleton in Hin. by left.
  - case_decide as Hk.
    + subst k0. intros Hin. apply elem_of_cons in Hin as [Heq|Hin]; [by left|].
      right. by right.
    + intros Hin. apply elem_of_cons in Hin as [Heq|Hin].
      * right. rewrite Heq. left.
      * destruct (IH Hin) as [?|?]; [by left | right; by right].
Qed.

Lemma discover_steps_index (w : World) (all entries : list string)
      (skills skills' : list (Key * SkillMetadata.t)) :
  (forall skill_dir, skill_dir ∈ entries -> skill_dir ∈ all) ->
  discover_steps w entries skills = Return skills' ->
  NoDup (PyDict.keys skills)
  /\ (forall key metadata, (key, metadata) ∈ skills -> indexed_from w all key metadata) ->
  NoDup (PyDict.keys skills')
  /\ (forall key metadata, (key, metadata) ∈ skills' -> indexed_from w all key metadata).
Proof.
  revert skills. induction entries as [|skill_dir entries IH]; intros skills Hall.
  - intros [= <-]. done.
  - cbn [discover_steps]. unfold discover_step.
    assert (Hrest : forall d, d ∈ entries -> d ∈ all) by (intros d Hd; apply Hall; by right).
    destruct (path_is_dir w skill_dir) as [[|]|e] eqn:Hdir; cbn [negb rbind];
      [|by apply IH|discriminate].
    destruct (path_exists w (path_join w skill_dir "SKILL.md")) as [[|]|e] eqn:Hfile;
      cbn [negb rbind]; [|by apply IH|discriminate].
    destruct (_parse_skill_metadata w skill_dir _) as [metadata|e] eqn:Hparse; cbn [rbind].
    + destruct (key_of (SkillMetadata.name metadata)) as [key|e] eqn:Hkey; cbn [rbind].
      * intros Hsteps [Hnd Hidx]. apply (IH _ Hrest Hsteps). split.
        -- by apply dict_set_keys_NoDup.
        -- intros k md Hin. apply dict_set_elem_of in Hin as [[= -> ->]|Hin]; [|by apply Hidx].
           unfold _parse_skill_metadata in Hparse.
           destruct (read_text w _) as [content|e]; [|discriminate].
           cbn [rbind] in Hparse.
           apply parse_manifest_Return_inv in Hparse as (Hn & Hd & Hdirectory & Hpath & _).
           unfold indexed_from. rewrite Hdirectory, Hpath.
           repeat split; try done. apply Hall. left.
      * destruct (is_Exception e); [by apply IH | discriminate].
    + destruct (is_Exception e); [by apply IH | discriminate].
Qed.

(** X7.  In the dictionary that [discover_skills] returns the keys are
    pairwise different, and every entry is keyed by the [name] of its
    descriptor, has a non-empty [name] and [description], and records as
    its directory an entry of the skill directory that is a directory holding
    a [SKILL.md], whose path it records as well. *)
Theorem discover_skills_index (w : World) (self self' : SkillManager)
        (skills : list (Key * SkillMetadata.t)) :
  discover_skills w self = (Return skills, self') ->
  NoDup (PyDict.keys skills)
  /\ forall key metadata,
       (key, metadata) ∈ skills ->
       exists entries,
         path_iterdir w (skill_directory self) = Return entries
         /\ indexed_from w entries key metadata.
Proof.
  rewrite discover_skills_steps.
  destruct (path_exists w (skill_directory self)) as [[|]|e]; cbn [negb];
    [| |discriminate].
  - destruct (path_iterdir w (skill_directory self)) as [entries|e]; [|discriminate].
    destruct (discover_steps w entries []) as [skills0|e] eqn:Hsteps; [|discriminate].
    intros [= <- <-].
    destruct (discover_steps_index w entries entries [] skills0) as [Hnd Hidx]; try done.
    { split; [constructor|]. intros k md Hin. by apply elem_of_nil in Hin. }
    split; [done|]. intros key metadata Hin. exists entries. split; [done|]. by apply Hidx.
  - intros [= <- <-]. split; [constructor|]. intros k md Hin. by apply elem_of_nil in Hin.
Qed.

Lemma discover_skills_index_witness :
  exists skills self',
    discover_skills three_folder_world sample_manager = (Return skills, self')
    /\ PyDict.keys skills = [KStr "pdf-tools"]
    /\ (SkillMetadata.directory <$> PyDict.get (KStr "pdf-tools") skills)
       = Some "skills/notes"
    /\ NoDup (PyDict.keys skills)
    /\ forall key metadata,
         (key, metadata) ∈ skills ->
         exists entries,
           path_iterdir three_folder_world (skill_directory sample_manager)
           = Return entries
           /\ indexed_from three_folder_world entries key metadata.
Proof.
  destruct (discover_skills three_folder_world sample_manager)
    as [[skills|e] self'] eqn:Hrun; [|vm_compute in Hrun; discriminate].
  exists skills, self'. split; [reflexivity|].
  pose proof (discover_skills_index three_folder_world sample_manager self' skills Hrun)
    as Hindex.
  vm_compute in Hrun. injection Hrun as <- <-.
  split; [reflexivity|]. split; [reflexivity|]. exact Hindex.
Defined.

Lemma parse_skill_metadata_raises_Exception (w : World) (skill_dir skill_file : string) e :
  raises_only_Exceptions w ->
  _parse_skill_metadata w skill_dir skill_file = Raise e -> is_Exception e = true.
Proof.
  intros [Hread Hyaml]. unfold _parse_skill_metadata.
  destruct (read_text w skill_file) as [content|e0] eqn:Hr; cbn [rbind].
  2: { intros [= <-]. by eapply Hread. }
  unfold parse_manifest.
  destruct (PyStr.startswith "---" content); [|by intros [= <-]].
  destruct (PyStr.find "---" content 3 =? -1)%Z; [by intros [= <-]|].
  destruct (yaml_safe_load w _) as [frontmatter|e1] eqn:Hy; cbn [rbind].
  2: { destruct (is_YAMLError e1) eqn:Hc; intros [= <-]; [done | by eapply Hyaml]. }
  destruct frontmatter as [|s|items|entries]; cbn [yget rbind];
    try (cbn; by intros [= <-]).
  destruct (negb _ || negb _); cbn; [by intros [= <-] | discriminate].
Qed.

Lemma key_of_raises_Exception (v : YValue) e :
  key_of v = Raise e -> is_Exception e = true.
Proof. destruct v; cbn; try discriminate; by intros [= <-]. Qed.

Lemma discover_step_return (w : World) (skill_dir : string)
      (skills : list (Key * SkillMetadata.t)) :
  raises_only_Exceptions w ->
  can_be_examined w [skill_dir] ->
  exists skills', discover_step w skill_dir skills = Return skills'.
Proof.
  intros Hw Hexamined. unfold discover_step.
  destruct (Hexamined skill_dir) as (is_dir & -> & Hfile); [by left|]. cbn [rbind].
  destruct is_dir; cbn [negb]; [|by eexists].
  destruct (Hfile eq_refl) as [file_exists ->]. cbn [rbind].
  destruct file_exists; cbn [negb]; [|by eexists].
  destruct (_parse_skill_metadata w skill_dir _) as [metadata|e] eqn:Hparse; cbn [rbind].
  - destruct (key_of (SkillMetadata.name metadata)) as [key|e] eqn:Hkey; cbn [rbind];
      [by eexists|].
    rewrite (key_of_raises_Exception _ _ Hkey). by eexists.
  - rewrite (parse_skill_metadata_raises_Exception _ _ _ _ Hw Hparse). by eexists.
Qed.

Lemma discover_steps_return (w : World) (entries : list string)
      (skills : list (Key * SkillMetadata.t)) :
  raises_only_Exceptions w ->
  can_be_examined w entries ->
  exists skills', discover_steps w entries skills = Return skills'.
Proof.
  intros Hw. revert skills. induction entries as [|skill_dir entries IH];
    intros skills Hexamined.
  - by exists skills.
  - cbn [discover_steps].
    destruct (discover_step_return w skill_dir skills Hw) as [skills' ->].
    { intros d Hd. apply list_elem_of_singleton in Hd as ->. apply Hexamined. by left. }
    apply IH. intros d Hd. apply Hexamined. by right.
Qed.

Lemma discover_steps_app (w : World) (entries1 entries2 : list string)
      (skills : list (Key * SkillMetadata.t)) :
  discover_steps w (entries1 ++ entries2)%list skills
  = rbind (discover_steps w entries1 skills) (discover_steps w entries2).
Proof.
  revert skills. induction entries1 as [|d entries1 IH]; intros skills; [done|].
  cbn [app discover_steps]. destruct (discover_step w d skills); [apply IH | done].
Qed.

(** X8.  What makes [discover_skills] fail, and what does not.  Neither
    reading a file nor loading YAML raising anything but an [Exception]:
    when [exists()] returns for the skill directory, the directory can be
    listed, [is_dir()] returns for every entry and [exists()] for the
    [SKILL.md] of every entry that is a directory, [discover_skills]
    returns, however broken a manifest is.  But the calls of [is_dir()] and
    [exists()] stand outside the [try]: when one of them raises for an
    entry, the entries before it having been examined, [discover_skills]
    raises that error and the manager is as it was; and so it does when
    [exists()] raises for the skill directory itself. *)
Theorem discover_skills_returns (w : World) (self : SkillManager) :
  raises_only_Exceptions w ->
  (forall directory_exists entries,
     path_exists w (skill_directory self) = Return directory_exists ->
     path_iterdir w (skill_directory self) = Return entries ->
     can_be_examined w entries ->
     exists skills self', discover_skills w self = (Return skills, self'))
  /\ (forall before skill_dir after e,
        path_exists w (skill_directory self) = Return true ->
        path_iterdir w (skill_directory self)
        = Return (before ++ skill_dir :: after)%list ->
        can_be_examined w before ->
        path_is_dir w skill_dir = Raise e
        \/ (path_is_dir w skill_dir = Return true
            /\ path_exists w (path_join w skill_dir "SKILL.md") = Raise e) ->
        discover_skills w self = (Raise e, self))
  /\ (forall e,
        path_exists w (skill_directory self) = Raise e ->
        discover_skills w self = (Raise e, self)).
Proof.
  intros Hw. split; [|split].
  - intros directory_exists entries Hexists Hlist Hexamined.
    rewrite discover_skills_steps, Hexists.
    destruct (negb directory_exists); [by eexists _, _|].
    rewrite Hlist.
    destruct (discover_steps_return w entries [] Hw Hexamined) as [skills ->].
    by eexists _, _.
  - intros before skill_dir after e Hexists Hlist Hexamined Hraise.
    rewrite discover_skills_steps, Hexists. cbn [negb]. rewrite Hlist.
    rewrite discover_steps_app.
    destruct (discover_steps_return w before [] Hw Hexamined) as [skills ->].
    cbn [rbind discover_steps]. unfold discover_step.
    destruct Hraise as [->|[-> ->]]; done.
  - intros e Hexists. by rewrite discover_skills_steps, Hexists.
Qed.

Lemma sample_world_can_be_examined (entries : list string) :
  can_be_examined sample_world entries.
Proof. intros skill_dir _. eexists. split; [reflexivity|]. intros _. by eexists. Qed.

Lemma sample_world_raises_only_Exceptions : raises_only_Exceptions sample_world.
Proof.
  split.
  - intros p e. cbn [read_text sample_world].
    repeat (destruct (String.eqb _ _); [discriminate|]). by intros [= <-].
  - intros text e. cbn [yaml_safe_load sample_world].
    destruct (String.eqb _ _); [discriminate|].
    destruct (PyStr.is_empty text); [discriminate|]. by intros [= <-].
Qed.

Lemma discover_skills_returns_witness :
  raises_only_Exceptions sample_world
  /\ raises_only_Exceptions locked_folder_world
  /\ path_iterdir sample_world (skill_directory sample_manager)
     = Return ["skills/pdf-tools"; "skills/empty"]
  /\ (exists skills self',
        discover_skills sample_world sample_manager = (Return skills, self'))
  /\ discover_skills locked_folder_world discovered_manager
     = (Raise (mkExn OSError "Permission denied"), discovered_manager).
Proof.
  split; [exact sample_world_raises_only_Exceptions|].
  split; [exact sample_world_raises_only_Exceptions|].
  split; [reflexivity|]. split.
  - exact (proj1 (discover_skills_returns sample_world sample_manager
                    sample_world_raises_only_Exceptions)
                 true _ eq_refl eq_refl (sample_world_can_be_examined _)).
  - apply (proj1 (proj2 (discover_skills_returns locked_folder_world discovered_manager
                           sample_world_raises_only_Exceptions))
                 ["skills/pdf-tools"] "skills/locked" [] _ eq_refl eq_refl).
    + intros skill_dir Hin. apply list_elem_of_singleton in Hin as ->.
      exists true. split; [reflexivity|]. intros _. by exists true.
    + right. split; reflexivity.
Defined.

Lemma discover_steps_skip (w : World) (before after : list string) (skill_dir : string)
      (skills : list (Key * SkillMetadata.t)) :
  (forall skills, discover_step w skill_dir skills = Return skills) ->
  discover_steps w (before ++ skill_dir :: after)%list skills
  = discover_steps w (before ++ after)%list skills.
Proof.
  intros Hskip. revert skills. induction before as [|d before IH]; intros skills.
  - cbn [app discover_steps]. by rewrite Hskip.
  - cbn [app discover_steps]. destruct (discover_step w d skills); [apply IH | done].
Qed.

Lemma discover_steps_with_iterdir (w : World) iterdir entries skills :
  discover_steps (with_iterdir w iterdir) entries skills = discover_steps w entries skills.
Proof. revert skills. induction entries as [|d entries IH]; intros skills; [done|].
  cbn [discover_steps]. change (discover_step (with_iterdir w iterdir) d skills)
    with (discover_step w d skills).
  destruct (discover_step w d skills); [apply IH | done].
Qed.

(** X9.  A folder that can be examined ([is_dir()] returns for it, and
    [exists()] returns for its [SKILL.md] if it is a directory) and whose
    manifest cannot be parsed, the parser raising an [Exception], is passed
    over: [discover_skills] returns, or raises, what it does when the folder
    is not listed at all. *)
Theorem discover_skills_skips_broken
        (w : World) (self : SkillManager) (before after : list string)
        (skill_dir : string) (e : PyExn) :
  path_iterdir w (skill_directory self) = Return (before ++ skill_dir :: after)%list ->
  can_be_examined w [skill_dir] ->
  _parse_skill_metadata w skill_dir (path_join w skill_dir "SKILL.md") = Raise e ->
  is_Exception e = true ->
  discover_skills w self
  = discover_skills (with_iterdir w (fun _ => Return (before ++ after)%list)) self.
Proof.
  intros Hlist Hexamined Hparse He. rewrite !discover_skills_steps.
  cbn [path_exists path_iterdir with_iterdir].
  destruct (path_exists w (skill_directory self)) as [directory_exists|e0]; [|done].
  destruct (negb directory_exists); [done|].
  rewrite Hlist, discover_steps_with_iterdir.
  rewrite discover_steps_skip; [done|].
  intros skills. unfold discover_step. rewrite Hparse. cbn [rbind]. rewrite He.
  destruct (Hexamined skill_dir) as (is_dir & -> & Hfile); [by left|]. cbn [rbind].
  destruct is_dir; cbn [negb]; [|done].
  destruct (Hfile eq_refl) as [file_exists ->]. cbn [rbind].
  by destruct file_exists.
Qed.

Lemma discover_skills_skips_broken_witness :
  path_iterdir sample_world (skill_directory sample_manager)
  = Return (["skills/pdf-tools"] ++ "skills/empty" :: [])%list
  /\ can_be_examined sample_world ["skills/empty"]
  /\ _parse_skill_metadata sample_world "skills/empty"
       (path_join sample_world "skills/empty" "SKILL.md")
     = Raise (mkExn AttributeError "'NoneType' object has no attribute 'get'")
  /\ discover_skills sample_world sample_manager
     = discover_skills
         (with_iterdir sample_world (fun _ => Return (["skills/pdf-tools"] ++ [])%list))
         sample_manager.
Proof.
  split; [reflexivity|].
  assert (Hparse : _parse_skill_metadata sample_world "skills/empty"
                     (path_join sample_world "skills/empty" "SKILL.md")
                   = Raise (mkExn AttributeError "'NoneType' object has no attribute 'get'"))
    by (vm_compute; reflexivity).
  split; [exact (sample_world_can_be_examined _)|].
  split; [exact Hparse|].
  exact (discover_skills_skips_broken sample_world sample_manager
           ["skills/pdf-tools"] [] "skills/empty" _ eq_refl
           (sample_world_can_be_examined _) Hparse eq_refl).
Defined.

(* ================================================================ *)
(** * Further properties of tool registration *)

Lemma extends_refl (tk : Toolkit) : extends tk tk.
Proof. by repeat split. Qed.

Lemma extends_trans (tk1 tk2 tk3 : Toolkit) :
  extends tk1 tk2 -> extends tk2 tk3 -> extends tk1 tk3.
Proof.
  intros (Hg1 & Ht1 & Hn1) (Hg2 & Ht2 & Hn2). repeat split.
  - congruence.
  - eauto.
  - eauto.
Qed.

(** Properties of computations on the toolkit that the loops of the
    strategies inherit from the registration tail. *)
Section strategies.
Variable Q : forall A, M Toolkit A -> Prop.
Hypothesis Q_ret : forall A (a : A), Q A (ret a).
Hypothesis Q_bind :
  forall A B (c : M Toolkit A) (k : A -> M Toolkit B),
    Q A c -> (forall a, Q B (k a)) -> Q B (bind c k).
Hypothesis Q_register :
  forall attr_name attr wrapped_doc marker skill_name count,
    Q nat (register_wrapped attr_name attr wrapped_doc marker skill_name count).

Lemma Q_for_fold {X A} (body : X -> A -> M Toolkit A) (xs : list X) (acc : A) :
  (forall x acc, Q A (body x acc)) -> Q A (for_fold body xs acc).
Proof.
  intros Hbody. revert acc. induction xs as [|x xs IH]; intros acc.
  - apply Q_ret.
  - cbn [for_fold]. apply Q_bind; [apply Hbody | apply IH].
Qed.

Lemma Q_explicit_tools module skill_name :
  Q nat (_register_explicit_tools module skill_name).
Proof.
  apply Q_for_fold. intros [attr_name attr] count.
  destruct (_ && _); [apply Q_register | apply Q_ret].
Qed.

Lemma Q_naming_convention module skill_name :
  Q nat (_register_by_naming_convention module skill_name).
Proof.
  apply Q_for_fold. intros [attr_name attr] count.
  destruct (_ && _); [|apply Q_ret].
  destruct (any_in _ _); [apply Q_register | apply Q_ret].
Qed.

Lemma Q_docstring_analysis module skill_name :
  Q nat (_register_by_docstring_analysis module skill_name).
Proof.
  apply Q_for_fold. intros [attr_name attr] count.
  destruct (_ || _); apply Q_ret.
Qed.

Lemma Q_type_hints module skill_name :
  Q nat (_register_by_type_hints module skill_name).
Proof.
  apply Q_for_fold. intros [attr_name attr] count.
  destruct (_ && _); [|apply Q_ret].
  destruct (annotations attr) as [[|ann anns]|]; try apply Q_ret.
  destruct (PyDict.get "return" _) as [return_type|]; [|apply Q_ret].
  destruct (is_tool_return_type return_type); [apply Q_register | apply Q_ret].
Qed.

(** The block that [_register_skill_tools] runs for a module. *)
Lemma Q_four_strategies module skill_name :
  Q unit
    (c1 <- _register_explicit_tools module skill_name ;;
     c2 <- _register_by_naming_convention module skill_name ;;
     c3 <- _register_by_docstring_analysis module skill_name ;;
     c4 <- _register_by_type_hints module skill_name ;;
     let tool_count := 0 + c1 + c2 + c3 + c4 in
     ret tt)%py.
Proof.
  apply Q_bind; [apply Q_explicit_tools|]. intros c1.
  apply Q_bind; [apply Q_naming_convention|]. intros c2.
  apply Q_bind; [apply Q_docstring_analysis|]. intros c3.
  apply Q_bind; [apply Q_type_hints|]. intros c4. apply Q_ret.
Qed.
End strategies.

Lemma register_wrapped_cases attr_name attr wrapped_doc marker skill_name count tk :
  register_wrapped attr_name attr wrapped_doc marker skill_name count tk
  = if PyDict.mem attr_name (tools tk) then (Return count, tk)
    else if group_known skill_name tk then
      (Return (count + 1),
       mkToolkit
         (PyDict.set attr_name
            (mkRegistered
               (mkToolFunc attr_name wrapped_doc marker
                           (wrapped_tool attr_name (call attr)))
               skill_name)
            (tools tk))
         (groups tk))
    else (Raise (mkExn ValueError ("Tool group '" ++ skill_name ++ "' not found.")), tk).
Proof.
  destruct (group_known skill_name tk) eqn:Hknown.
  - by rewrite register_wrapped_known_group.
  - unfold register_wrapped, bind, get_state, ret, register_tool_function.
    destruct (PyDict.mem attr_name (tools tk)) eqn:Hmem; [done|].
    unfold group_known in Hknown. apply orb_false_iff in Hknown as [-> ->]. done.
Qed.

Lemma register_wrapped_extends attr_name attr wrapped_doc marker skill_name count tk :
  extends tk (snd (register_wrapped attr_name attr wrapped_doc marker skill_name count tk)).
Proof.
  rewrite register_wrapped_cases.
  destruct (PyDict.mem attr_name (tools tk)) eqn:Hmem; [apply extends_refl|].
  destruct (group_known skill_name tk); [|apply extends_refl].
  cbn [snd]. split; [done|]. cbn [tools]. split.
  - intros n t Hget. rewrite dict_get_set_ne; [done|].
    intros ->. unfold PyDict.mem in Hmem. by rewrite Hget in Hmem.
  - apply dict_set_keys_NoDup.
Qed.

Lemma register_skill_tools_extends_all (w : World) (skill_name skill_dir : string) tk :
  extends tk (snd (_register_skill_tools w skill_name skill_dir tk)).
Proof.
  set (Q := fun A (c : M Toolkit A) => forall tk, extends tk (snd (c tk))).
  assert (Q_ret : forall A (a : A), Q A (ret a)) by (intros A a t; apply extends_refl).
  assert (Q_bind : forall A B (c : M Toolkit A) (k : A -> M Toolkit B),
             Q A c -> (forall a, Q B (k a)) -> Q B (bind c k)).
  { intros A B c k Hc Hk t. unfold bind. specialize (Hc t).
    destruct (c t) as [[a|e] t1]; [|done].
    eapply extends_trans; [exact Hc | apply Hk]. }
  assert (Q_reg : forall n a d m s count, Q nat (register_wrapped n a d m s count))
    by (intros n a d m s count t; apply register_wrapped_extends).
  revert tk. change (Q unit (_register_skill_tools w skill_name skill_dir)).
  unfold _register_skill_tools. apply (Q_for_fold Q Q_ret Q_bind). intros py_file [].
  destruct (String.eqb _ _); [apply Q_ret|].
  intros t. unfold try_except_Exception.
  assert (Hinner := Q_bind _ _ (lift (exec_module w ("skill_" ++ skill_name ++ "_"
                                                       ++ path_stem w py_file) py_file))
                      (fun module =>
                         (c1 <- _register_explicit_tools module skill_name ;;
                          c2 <- _register_by_naming_convention module skill_name ;;
                          c3 <- _register_by_docstring_analysis module skill_name ;;
                          c4 <- _register_by_type_hints module skill_name ;;
                          let tool_count := 0 + c1 + c2 + c3 + c4 in
                          ret tt)%py)
                      (fun t => extends_refl t)
                      (fun module => Q_four_strategies Q Q_ret Q_bind Q_reg module skill_name) t).
  cbv zeta in Hinner |- *.
  destruct (bind _ _ t) as [[[]|e] t1]; [done|].
  destruct (is_Exception e); done.
Qed.

(** X10.  However the files of a skill behave, [_register_skill_tools]
    leaves the tool groups as they are and never replaces or removes a tool
    that is registered already: under every name in use the toolkit holds
    the same function afterwards (the first registration wins), and the
    names stay pairwise different. *)
Theorem register_skill_tools_keeps_tools
        (w : World) (skill_name skill_dir : string) (tk : Toolkit) :
  groups (snd (_register_skill_tools w skill_name skill_dir tk)) = groups tk
  /\ (forall tool_name tool,
        PyDict.get tool_name (tools tk) = Some tool ->
        PyDict.get tool_name (tools (snd (_register_skill_tools w skill_name skill_dir tk)))
        = Some tool)
  /\ (NoDup (PyDict.keys (tools tk)) ->
      NoDup (PyDict.keys (tools (snd (_register_skill_tools w skill_name skill_dir tk))))).
Proof. apply register_skill_tools_extends_all. Qed.

Lemma register_skill_tools_keeps_tools_witness :
  let tk :=
    mkToolkit [("extract_invoice_total",
                mkRegistered (mkToolFunc "extract_invoice_total" (Some "An older tool.")
                                         None (fun _ => Returns (text_response "old")))
                             "basic")]
              (groups sample_toolkit) in
  NoDup (PyDict.keys (tools tk))
  /\ (func_doc <$> (rt_func <$>
        PyDict.get "extract_invoice_total"
          (tools (snd (_register_skill_tools sample_world "pdf-tools" "skills/pdf-tools" tk)))))
     = Some (Some "An older tool.")
  /\ NoDup (PyDict.keys
              (tools (snd (_register_skill_tools sample_world "pdf-tools"
                             "skills/pdf-tools" tk)))).
Proof.
  intros tk.
  assert (Hnd : NoDup (PyDict.keys (tools tk)))
    by (apply (bool_decide_unpack _); vm_compute; exact I).
  destruct (register_skill_tools_keeps_tools sample_world "pdf-tools" "skills/pdf-tools" tk)
    as (_ & Hkeep & Hnodup).
  split; [exact Hnd|]. split; [|exact (Hnodup Hnd)].
  by rewrite (Hkeep "extract_invoice_total" _ eq_refl).
Defined.





Lemma for_fold_cons {S X A} (body : X -> A -> M S A) x xs acc s :
  for_fold body (x :: xs) acc s
  = match body x acc s with
    | (Return acc', s') => for_fold body xs acc' s'
    | (Raise e, s') => (Raise e, s')
    end.
Proof. reflexivity. Qed.

(** A loop over a module that registers what a choice selects: with the
    group of the skill in place it returns, and every selected attribute
    whose name is free is registered. *)
Lemma register_loop (choice : string -> PyAttr -> option (option string * option string))
      (skill_name : string) (body : string * PyAttr -> nat -> M Toolkit nat)
      (module : PyModule) :
  registers_by choice skill_name body ->
  NoDup (map fst module) ->
  forall count tk,
    group_known skill_name tk = true ->
    exists count' tk',
      for_fold body module count tk = (Return count', tk')
      /\ extends tk tk'
      /\ (forall n attr wrapped_doc marker,
            (n, attr) ∈ module -> choice n attr = Some (wrapped_doc, marker) ->
            PyDict.get n (tools tk) = None ->
            PyDict.get n (tools tk')
            = Some (mkRegistered
                      (mkToolFunc n wrapped_doc marker (wrapped_tool n (call attr)))
                      skill_name)).
Proof.
  intros Hbody. induction module as [|[n0 a0] module IH]; intros Hnd count tk Hknown.
  - exists count, tk. split; [done|]. split; [apply extends_refl|].
    intros n attr d m Hin. by apply elem_of_nil in Hin.
  - cbn [map fst] in Hnd. apply NoDup_cons in Hnd as [Hfresh Hnd].
    rewrite for_fold_cons, Hbody.
    assert (Hstep : exists count1 tk1,
               match choice n0 a0 with
               | Some (d, m) => register_wrapped n0 a0 d m skill_name count
               | None => ret count
               end tk = (Return count1, tk1)
               /\ extends tk tk1
               /\ (forall n, n ≠ n0 -> PyDict.get n (tools tk1) = PyDict.get n (tools tk))
               /\ (forall d m, choice n0 a0 = Some (d, m) ->
                               PyDict.get n0 (tools tk) = None ->
                               PyDict.get n0 (tools tk1)
                               = Some (mkRegistered
                                         (mkToolFunc n0 d m (wrapped_tool n0 (call a0)))
                                         skill_name))).
    { destruct (choice n0 a0) as [[d m]|].
      - pose proof (register_wrapped_extends n0 a0 d m skill_name count tk) as Hext.
        rewrite register_wrapped_cases in Hext |- *. rewrite Hknown in Hext |- *.
        destruct (PyDict.mem n0 (tools tk)) eqn:Hmem.
        + exists count, tk. repeat split; try done.
          intros d' m' _ Hnone. apply dict_mem_get_None in Hnone. congruence.
        + eexists _, _. split; [reflexivity|]. split; [exact Hext|]. cbn [tools]. split.
          * intros n Hne. by apply dict_get_set_ne.
          * intros d' m' [= <- <-] _. apply dict_get_set_eq.
      - exists count, tk. split; [done|]. split; [apply extends_refl|]. split; [done|].
        discriminate. }
    destruct Hstep as (count1 & tk1 & -> & Hext1 & Hother1 & Hreg1).
    destruct (IH Hnd count1 tk1) as (count' & tk' & Hrun & Hext & Hreg).
    { unfold group_known in *. destruct Hext1 as (-> & _). done. }
    exists count', tk'. split; [exact Hrun|].
    split; [by eapply extends_trans|].
    intros n attr d m Hin Hchoice Hnone.
    apply elem_of_cons in Hin as [[= -> ->]|Hin].
    + destruct Hext as (_ & Hkeep & _). apply Hkeep. by apply Hreg1.
    + apply (Hreg n attr d m Hin Hchoice). rewrite Hother1; [done|].
      intros ->. apply Hfresh. apply list_elem_of_fmap. by exists (n0, attr).
Qed.

(** A name that the choice selects for no attribute of the module is left as
    it is, whether the loop returns or raises. *)
Lemma register_loop_untouched
      (choice : string -> PyAttr -> option (option string * option string))
      (skill_name : string) (body : string * PyAttr -> nat -> M Toolkit nat)
      (module : PyModule) (n : string) :
  registers_by choice skill_name body ->
  (forall attr, (n, attr) ∈ module -> choice n attr = None) ->
  forall count tk,
    PyDict.get n (tools (snd (for_fold body module count tk))) = PyDict.get n (tools tk).
Proof.
  intros Hbody. induction module as [|[n0 a0] module IH]; intros Hnone count tk; [done|].
  rewrite for_fold_cons, Hbody.
  assert (Hrest : forall attr, (n, attr) ∈ module -> choice n attr = None)
    by (intros attr Hin; apply Hnone; by right).
  destruct (choice n0 a0) as [[d m]|] eqn:Hchoice.
  - assert (Hne : n0 ≠ n).
    { intros ->. rewrite Hnone in Hchoice; [discriminate | left]. }
    rewrite register_wrapped_cases.
    destruct (PyDict.mem n0 (tools tk)); [by rewrite IH|].
    destruct (group_known skill_name tk); [|done].
    rewrite IH by done. cbn [tools]. by apply dict_get_set_ne.
  - unfold ret. by rewrite IH.
Qed.

Lemma explicit_tools_registers_by (skill_name : string) :
  registers_by explicit_choice skill_name
    (fun '(attr_name, attr) count =>
       if callable attr && has_skill_tool attr
          && match skill_tool attr with Some b => b | None => false end
       then
         let description :=
           match skill_tool_description attr with Some d => d | None => "" end in
         register_wrapped attr_name attr (doc attr) (Some description) skill_name count
       else ret count).
Proof. intros n a count. unfold explicit_choice. by destruct (_ && _). Qed.

Lemma naming_convention_registers_by (skill_name : string) :
  registers_by naming_choice skill_name
    (fun '(attr_name, attr) count =>
       if callable attr && negb (has_skill_tool attr) then
         if any_in tool_patterns (PyStr.lower attr_name) then
           register_wrapped attr_name attr (doc attr) None skill_name count
         else ret count
       else ret count).
Proof.
  intros n a count. unfold naming_choice.
  destruct (callable a && negb (has_skill_tool a)); [|done].
  by destruct (any_in _ _).
Qed.

Lemma type_hints_registers_by (skill_name : string) :
  registers_by type_hint_choice skill_name
    (fun '(attr_name, attr) count =>
       if callable attr && negb (has_skill_tool attr) && doc_is_empty attr then
         match annotations attr with
         | Some ((_ :: _) as anns) =>
             match PyDict.get "return" anns with
             | Some return_type =>
                 if is_tool_return_type return_type then
                   register_wrapped attr_name attr
                     (Some ("Tool function with return type: " ++ type_str return_type)%string)
                     None skill_name count
                 else ret count
             | None => ret count
             end
         | _ => ret count
         end
       else ret count).
Proof.
  intros n a count. unfold type_hint_choice.
  destruct (_ && _); [|done].
  destruct (annotations a) as [[|ann anns]|]; try done.
  destruct (PyDict.get "return" _) as [return_type|]; [|done].
  by destruct (is_tool_return_type return_type).
Qed.

(** X12.  Strategy 1 registers every callable whose [__skill_tool__] is set
    and true (as the decorator [skill_tool] sets it), unless a tool of that
    name is registered already: the tool is stored in the group of the skill
    under the name of the callable, wrapped, with the docstring of the
    callable and with the description given to the decorator (or the empty
    string when the attribute is absent). *)
Theorem explicit_tools_registers
        (module : PyModule) (skill_name : string) (tk : Toolkit)
        (attr_name : string) (attr : PyAttr) :
  NoDup (map fst module) ->
  (attr_name, attr) ∈ module ->
  callable attr = true ->
  skill_tool attr = Some true ->
  group_known skill_name tk = true ->
  PyDict.get attr_name (tools tk) = None ->
  exists count tk',
    _register_explicit_tools module skill_name tk = (Return count, tk')
    /\ PyDict.get attr_name (tools tk')
       = Some (mkRegistered
                 (mkToolFunc attr_name (doc attr)
                    (Some (match skill_tool_description attr with
                           | Some d => d | None => "" end))
                    (wrapped_tool attr_name (call attr)))
                 skill_name).
Proof.
  intros Hnd Hin Hcallable Hmarked Hknown Hnone.
  destruct (register_loop explicit_choice skill_name _ module
              (explicit_tools_registers_by skill_name) Hnd 0 tk Hknown)
    as (count & tk' & Hrun & _ & Hreg).
  exists count, tk'. split; [exact Hrun|].
  apply (Hreg attr_name attr); [done| |done].
  unfold explicit_choice, has_skill_tool. by rewrite Hcallable, Hmarked.
Qed.

Lemma explicit_tools_registers_witness :
  NoDup (map fst tools_module)
  /\ ("render_page", render_page) ∈ tools_module
  /\ callable render_page = true /\ skill_tool render_page = Some true
  /\ group_known "pdf-tools" sample_toolkit = true
  /\ PyDict.get "render_page" (tools sample_toolkit) = None
  /\ exists count tk',
       _register_explicit_tools tools_module "pdf-tools" sample_toolkit
       = (Return count, tk')
       /\ PyDict.get "render_page" (tools tk')
          = Some (mkRegistered
                    (mkToolFunc "render_page" (Some "Render a page to text.")
                       (Some "Render one page")
                       (wrapped_tool "render_page" (call render_page)))
                    "pdf-tools").
Proof.
  assert (Hnd : NoDup (map fst tools_module))
    by (apply (bool_decide_unpack _); vm_compute; exact I).
  assert (Hin : ("render_page", render_page) ∈ tools_module)
    by (do 3 right; left).
  split; [exact Hnd|]. split; [exact Hin|].
  do 4 (split; [reflexivity|]).
  exact (explicit_tools_registers tools_module "pdf-tools" sample_toolkit
           "render_page" render_page Hnd Hin eq_refl eq_refl eq_refl eq_refl).
Defined.

(** X13.  Strategy 4 registers every callable that has no [__skill_tool__]
    attribute and no docstring and whose annotations declare [str], [dict],
    [list], [bool], [int] or [float] as the return type, unless a tool of
    that name is registered already: the tool is stored in the group of the
    skill under the name of the callable, wrapped, with the docstring
    [Tool function with return type: <type>]. *)
Theorem type_hints_registers
        (module : PyModule) (skill_name : string) (tk : Toolkit)
        (attr_name : string) (attr : PyAttr)
        (anns : list (string * PyType)) (return_type : PyType) :
  NoDup (map fst module) ->
  (attr_name, attr) ∈ module ->
  callable attr = true ->
  skill_tool attr = None ->
  doc_is_empty attr = true ->
  annotations attr = Some anns ->
  PyDict.get "return" anns = Some return_type ->
  is_tool_return_type return_type = true ->
  group_known skill_name tk = true ->
  PyDict.get attr_name (tools tk) = None ->
  exists count tk',
    _register_by_type_hints module skill_name tk = (Return count, tk')
    /\ PyDict.get attr_name (tools tk')
       = Some (mkRegistered
                 (mkToolFunc attr_name
                    (Some ("Tool function with return type: " ++ type_str return_type))
                    None (wrapped_tool attr_name (call attr)))
                 skill_name).
Proof.
  intros Hnd Hin Hcallable Hmarked Hdoc Hanns Hret Htype Hknown Hnone.
  destruct (register_loop type_hint_choice skill_name _ module
              (type_hints_registers_by skill_name) Hnd 0 tk Hknown)
    as (count & tk' & Hrun & _ & Hreg).
  exists count, tk'. split; [exact Hrun|].
  apply (Hreg attr_name attr); [done| |done].
  unfold type_hint_choice, has_skill_tool.
  rewrite Hcallable, Hmarked, Hdoc, Hanns. cbn [andb negb].
  destruct anns as [|ann anns]; [discriminate|]. by rewrite Hret, Htype.
Qed.

Lemma type_hints_registers_witness :
  NoDup (map fst tools_module)
  /\ ("page_count", page_count) ∈ tools_module
  /\ doc_is_empty page_count = true
  /\ annotations page_count = Some [("path", Tstr); ("return", Tint)]
  /\ exists count tk',
       _register_by_type_hints tools_module "pdf-tools" sample_toolkit
       = (Return count, tk')
       /\ PyDict.get "page_count" (tools tk')
          = Some (mkRegistered
                    (mkToolFunc "page_count"
                       (Some "Tool function with return type: <class 'int'>")
                       None (wrapped_tool "page_count" (call page_count)))
                    "pdf-tools").
Proof.
  assert (Hnd : NoDup (map fst tools_module))
    by (apply (bool_decide_unpack _); vm_compute; exact I).
  assert (Hin : ("page_count", page_count) ∈ tools_module)
    by (do 2 right; left).
  split; [exact Hnd|]. split; [exact Hin|]. do 2 (split; [reflexivity|]).
  exact (type_hints_registers tools_module "pdf-tools" sample_toolkit
           "page_count" page_count _ Tint Hnd Hin eq_refl eq_refl eq_refl eq_refl
           eq_refl eq_refl eq_refl eq_refl).
Defined.

(** X14.  An attribute that is not callable, or whose [__skill_tool__] is
    set but false, is registered by none of the four strategies: whatever
    its name, docstring and annotations, each strategy leaves the toolkit
    entry of that name as it found it. *)
Theorem disabled_attribute_never_registered
        (module : PyModule) (skill_name : string) (tk : Toolkit) (attr_name : string) :
  (forall attr, (attr_name, attr) ∈ module ->
                callable attr = false \/ skill_tool attr = Some false) ->
  PyDict.get attr_name (tools (snd (_register_explicit_tools module skill_name tk)))
  = PyDict.get attr_name (tools tk)
  /\ PyDict.get attr_name (tools (snd (_register_by_naming_convention module skill_name tk)))
     = PyDict.get attr_name (tools tk)
  /\ PyDict.get attr_name (tools (snd (_register_by_docstring_analysis module skill_name tk)))
     = PyDict.get attr_name (tools tk)
  /\ PyDict.get attr_name (tools (snd (_register_by_type_hints module skill_name tk)))
     = PyDict.get attr_name (tools tk).
Proof.
  intros Hoff. repeat split.
  - apply (register_loop_untouched explicit_choice skill_name _ module attr_name
             (explicit_tools_registers_by skill_name)).
    intros attr Hin. unfold explicit_choice, has_skill_tool.
    destruct (Hoff attr Hin) as [-> | ->]; [done | by rewrite !andb_false_r].
  - apply (register_loop_untouched naming_choice skill_name _ module attr_name
             (naming_convention_registers_by skill_name)).
    intros attr Hin. unfold naming_choice, has_skill_tool.
    destruct (Hoff attr Hin) as [-> | ->]; [done | by rewrite andb_false_r].
  - unfold _register_by_docstring_analysis. rewrite for_fold_skip; [done|].
    intros [n a] count s. by destruct (_ || _).
  - apply (register_loop_untouched type_hint_choice skill_name _ module attr_name
             (type_hints_registers_by skill_name)).
    intros attr Hin. unfold type_hint_choice, has_skill_tool.
    destruct (Hoff attr Hin) as [-> | ->]; [done | by rewrite andb_false_r].
Qed.

Lemma disabled_attribute_never_registered_witness :
  (forall attr, ("disabled_tool", attr) ∈ tools_module ->
                callable attr = false \/ skill_tool attr = Some false)
  /\ _is_tool_docstring (doc disabled_tool) = true
  /\ PyDict.keys
       (tools (snd ((c1 <- _register_explicit_tools tools_module "pdf-tools" ;;
                     c2 <- _register_by_naming_convention tools_module "pdf-tools" ;;
                     c3 <- _register_by_docstring_analysis tools_module "pdf-tools" ;;
                     _register_by_type_hints tools_module "pdf-tools")%py sample_toolkit)))
     = ["render_page"; "extract_invoice_total"; "page_count"]
  /\ PyDict.get "disabled_tool"
       (tools (snd (_register_by_type_hints tools_module "pdf-tools" sample_toolkit)))
     = PyDict.get "disabled_tool" (tools sample_toolkit).
Proof.
  assert (Hoff : forall attr, ("disabled_tool", attr) ∈ tools_module ->
                              callable attr = false \/ skill_tool attr = Some false).
  { intros attr Hin. right.
    repeat (apply elem_of_cons in Hin as [Heq|Hin];
            [try discriminate; by injection Heq as -> |]).
    by apply elem_of_nil in Hin. }
  split; [exact Hoff|]. split; [reflexivity|]. split; [reflexivity|].
  exact (proj2 (proj2 (proj2 (disabled_attribute_never_registered tools_module "pdf-tools"
                                sample_toolkit "disabled_tool" Hoff)))).
Defined.

(* ================================================================ *)
(** * Further properties of loading and activation *)

Lemma append_empty_r (s : string) : s ++ "" = s.
Proof. induction s as [|c s IH]; simpl; [done | by rewrite IH]. Qed.

Lemma dict_elem_of_get {K V} `{EqDecision K} (d : list (K * V)) k v :
  NoDup (PyDict.keys d) -> (k, v) ∈ d -> PyDict.get k d = Some v.
Proof.
  induction d as [|[k0 v0] d IH]; intros Hnd Hin.
  - by apply elem_of_nil in Hin.
  - cbn [PyDict.keys map fst] in Hnd. apply NoDup_cons in Hnd as [Hfresh Hnd].
    apply elem_of_cons in Hin as [[= -> ->]|Hin]; simpl.
    + by rewrite decide_True.
    + case_decide as Hk.
      * subst k0. exfalso. apply Hfresh. apply list_elem_of_fmap. by exists (k, v).
      * by apply IH.
Qed.

Lemma dict_mem_set {K V} `{EqDecision K} (d : list (K * V)) k k' v :
  PyDict.mem k' d = true -> PyDict.mem k' (PyDict.set k v d) = true.
Proof.
  unfold PyDict.mem. intros Hmem. destruct (decide (k' = k)) as [->|Hne].
  - by rewrite dict_get_set_eq.
  - by rewrite dict_get_set_ne.
Qed.

(** ** Referenced files *)

Lemma load_resources_app (w : World) (files1 files2 : list (string * string)) resources :
  load_resources w (files1 ++ files2) resources
  = rbind (load_resources w files1 resources) (load_resources w files2).
Proof.
  revert resources. induction files1 as [|file files1 IH]; intros resources; [done|].
  cbn [app load_resources]. destruct (load_resource w file resources); [apply IH | done].
Qed.

Lemma fold_load_resources {X} (w : World) (f : X -> string * string)
      (step : result (list (string * string)) -> X -> result (list (string * string)))
      (items : list X) (acc : result (list (string * string))) :
  (forall acc x, step acc x = rbind acc (load_resource w (f x))) ->
  fold_left step items acc = rbind acc (load_resources w (map f items)).
Proof.
  intros Hstep. revert acc. induction items as [|x items IH]; intros acc.
  - by destruct acc.
  - cbn [fold_left map]. rewrite IH, Hstep. destruct acc as [resources|e]; [|done].
    cbn [rbind load_resources]. by destruct (load_resource w (f x) resources).
Qed.

(** [_load_additional_resources] loads the referenced files one after the
    other into an empty dictionary. *)
Lemma load_additional_resources_files (w : World) (content skill_dir : string) :
  _load_additional_resources w content skill_dir
  = load_resources w (referenced_files w content skill_dir) [].
Proof.
  unfold _load_additional_resources, referenced_files.
  rewrite load_resources_app.
  rewrite (fold_load_resources w
             (fun '(link_text, filename) =>
                (filename, path_join w skill_dir (filename ++ ".md")))).
  2: { intros [resources|e] [link_text filename]; reflexivity. }
  cbn [rbind].
  destruct (load_resources w _ []) as [resources|e]; [|done].
  cbn [rbind].
  rewrite (fold_load_resources w (fun filename => (filename, path_join w skill_dir filename))).
  - reflexivity.
  - intros [resources'|e] filename; reflexivity.
Qed.

Lemma load_resources_returns (w : World) (files : list (string * string)) resources :
  (forall file, file ∈ files -> can_be_loaded w (snd file)) ->
  exists resources', load_resources w files resources = Return resources'.
Proof.
  revert resources. induction files as [|file files IH]; intros resources Hread.
  - by exists resources.
  - cbn [load_resources]. unfold load_resource.
    destruct (Hread file) as (file_exists & -> & Htext); [by left|]. cbn [rbind].
    destruct file_exists.
    + destruct (Htext eq_refl) as [text ->]. cbn [rbind].
      apply IH. intros file' Hin. apply Hread. by right.
    + apply IH. intros file' Hin. apply Hread. by right.
Qed.

Lemma load_resources_sound (w : World) (files : list (string * string)) resources resources' :
  load_resources w files resources = Return resources' ->
  (NoDup (PyDict.keys resources) -> NoDup (PyDict.keys resources'))
  /\ (forall name text,
        PyDict.get name resources' = Some text ->
        PyDict.get name resources = Some text
        \/ exists file_path,
             (name, file_path) ∈ files /\ path_exists w file_path = Return true
             /\ read_text w file_path = Return text)
  /\ (forall name, is_Some (PyDict.get name resources) ->
                   is_Some (PyDict.get name resources'))
  /\ (forall name file_path,
        (name, file_path) ∈ files -> path_exists w file_path = Return true ->
        is_Some (PyDict.get name resources'))
  /\ (forall file, file ∈ files -> can_be_loaded w (snd file)).
Proof.
  revert resources. induction files as [|[name0 path0] files IH]; intros resources.
  - intros [= <-]. split; [done|]. split; [by left|]. split; [done|].
    split; [intros name file_path Hin | intros file Hin]; by apply elem_of_nil in Hin.
  - cbn [load_resources]. unfold load_resource. cbn [fst snd].
    destruct (path_exists w path0) as [[|]|e] eqn:Hexists; cbn [rbind]; [| |discriminate].
    + destruct (read_text w path0) as [text0|e] eqn:Hread; [|discriminate]. cbn [rbind].
      intros Hrun. apply IH in Hrun as (Hnd & Hsound & Hkeep & Hall & Hloaded).
      split; [|split; [|split; [|split]]].
      * intros Hnd0. by apply Hnd, dict_set_keys_NoDup.
      * intros name text Hget. destruct (Hsound name text Hget) as [Hold|Hnew].
        -- destruct (decide (name = name0)) as [->|Hne].
           ++ rewrite dict_get_set_eq in Hold. injection Hold as <-.
              right. exists path0. split; [left | done].
           ++ rewrite dict_get_set_ne in Hold by done. by left.
        -- destruct Hnew as (file_path & Hin & Hrest). right. exists file_path.
           split; [by right | done].
      * intros name Hsome. apply Hkeep. destruct (decide (name = name0)) as [->|Hne].
        -- by rewrite dict_get_set_eq.
        -- by rewrite dict_get_set_ne.
      * intros name file_path Hin Hex.
        apply elem_of_cons in Hin as [[= -> ->]|Hin]; [|by eapply Hall].
        apply Hkeep. by rewrite dict_get_set_eq.
      * intros file Hin. apply elem_of_cons in Hin as [->|Hin]; [|by apply Hloaded].
        exists true. split; [exact Hexists|]. intros _. by exists text0.
    + intros Hrun. apply IH in Hrun as (Hnd & Hsound & Hkeep & Hall & Hloaded).
      split; [done|]. split; [|split; [done|split]].
      * intros name text Hget. destruct (Hsound name text Hget) as [Hold|Hnew]; [by left|].
        destruct Hnew as (file_path & Hin & Hrest). right. exists file_path.
        split; [by right | done].
      * intros name file_path Hin Hex.
        apply elem_of_cons in Hin as [[= -> ->]|Hin]; [congruence | by eapply Hall].
      * intros file Hin. apply elem_of_cons in Hin as [->|Hin]; [|by apply Hloaded].
        exists false. split; [exact Hexists | discriminate].
Qed.

(** X15.  [_load_additional_resources] returns if and only if every
    referenced file can be loaded: [exists()] returns for its path, and the
    file, if it exists, can be read; an error of [exists()] or of reading is
    not caught.  The dictionary it returns has pairwise different keys; each
    of its entries holds, under the name of the reference, the text of a
    referenced file for which [exists()] is true; and every reference to
    such a file has an entry.  References for which [exists()] is false are
    passed over. *)
Theorem load_additional_resources_outcome (w : World) (content skill_dir : string) :
  ((exists resources, _load_additional_resources w content skill_dir = Return resources)
   <-> forall file, file ∈ referenced_files w content skill_dir ->
                    can_be_loaded w (snd file))
  /\ forall resources,
       _load_additional_resources w content skill_dir = Return resources ->
       NoDup (PyDict.keys resources)
       /\ (forall name text,
             PyDict.get name resources = Some text ->
             exists file_path,
               (name, file_path) ∈ referenced_files w content skill_dir
               /\ path_exists w file_path = Return true
               /\ read_text w file_path = Return text)
       /\ (forall name file_path,
             (name, file_path) ∈ referenced_files w content skill_dir ->
             path_exists w file_path = Return true ->
             is_Some (PyDict.get name resources)).
Proof.
  rewrite load_additional_resources_files. split; [split|].
  - intros [resources Hrun].
    by apply load_resources_sound in Hrun as (_ & _ & _ & _ & Hloaded).
  - apply load_resources_returns.
  - intros resources Hrun.
    apply load_resources_sound in Hrun as (Hnd & Hsound & _ & Hall & _).
    split; [apply Hnd, NoDup_nil_2|]. split; [|exact Hall].
    intros name text Hget. by destruct (Hsound name text Hget) as [Hold|Hnew].
Qed.

Lemma load_additional_resources_outcome_witness :
  referenced_files resource_world "See the reference." "skills/pdf-tools"
  = [("reference", "skills/pdf-tools/reference.md");
     ("guide", "skills/pdf-tools/guide.md");
     ("forms.txt", "skills/pdf-tools/forms.txt")]
  /\ _load_additional_resources resource_world "See the reference." "skills/pdf-tools"
     = Return [("reference", "All about PDF."); ("forms.txt", "Form fields.")]
  /\ NoDup (PyDict.keys [("reference", "All about PDF."); ("forms.txt", "Form fields.")])
  /\ (exists file_path,
        ("forms.txt", file_path)
          ∈ referenced_files resource_world "See the reference." "skills/pdf-tools"
        /\ path_exists resource_world file_path = Return true
        /\ read_text resource_world file_path = Return "Form fields.")
  /\ can_be_loaded resource_world "skills/pdf-tools/guide.md".
Proof.
  split; [reflexivity|].
  assert (Hrun : _load_additional_resources resource_world "See the reference."
                   "skills/pdf-tools"
                 = Return [("reference", "All about PDF."); ("forms.txt", "Form fields.")])
    by (vm_compute; reflexivity).
  split; [exact Hrun|].
  destruct (load_additional_resources_outcome resource_world "See the reference."
              "skills/pdf-tools") as [[Hloaded _] Hsound].
  destruct (Hsound _ Hrun) as (Hnd & Hentry & _).
  split; [exact Hnd|]. split; [exact (Hentry "forms.txt" "Form fields." eq_refl)|].
  apply (Hloaded (ex_intro _ _ Hrun) ("guide", "skills/pdf-tools/guide.md")).
  right. left.
Defined.
(** ** Loading *)

Lemma create_tool_group_cases group_name description active notes tk :
  create_tool_group group_name description active notes tk
  = if PyDict.mem group_name (groups tk) || String.eqb group_name "basic"
    then (Raise (mkExn ValueError
                   ("Tool group '" ++ group_name
                    ++ "' is already registered in the toolkit.")), tk)
    else (Return tt,
          mkToolkit (tools tk)
            (PyDict.set group_name (mkToolGroup description active notes) (groups tk))).
Proof. reflexivity. Qed.

(** The steps of [load_skill] for a skill that is discovered and not yet
    loaded. *)
Lemma load_skill_steps (w : World) (skill_name : string) (self : SkillManager)
      (metadata : SkillMetadata.t) :
  PyDict.get (KStr skill_name) (discovered_skills self) = Some metadata ->
  PyDict.get skill_name (loaded_skills self) = None ->
  load_skill w skill_name self
  = match read_text w (SkillMetadata.skill_file_path metadata) with
    | Raise e => (Raise e, self)
    | Return content =>
        match _load_additional_resources w (extract_body content)
                (SkillMetadata.directory metadata) with
        | Raise e => (Raise e, self)
        | Return resources =>
            if PyDict.mem skill_name (groups (toolkit self)) || String.eqb skill_name "basic"
            then (Raise (mkExn ValueError
                           ("Tool group '" ++ skill_name
                            ++ "' is already registered in the toolkit.")), self)
            else
              let tk1 := mkToolkit (tools (toolkit self))
                           (PyDict.set skill_name (skill_group metadata)
                                       (groups (toolkit self))) in
              match _register_skill_tools w skill_name
                      (SkillMetadata.directory metadata) tk1 with
              | (Raise e, tk2) =>
                  (Raise e, mkSkillManager (skill_directory self) (discovered_skills self)
                                           (loaded_skills self) tk2)
              | (Return _, tk2) =>
                  let skill_data :=
                    mkSkillData metadata (extract_body content) resources
                                (_get_skill_tools tk2 skill_name) in
                  (Return skill_data,
                   mkSkillManager (skill_directory self) (discovered_skills self)
                     (PyDict.set skill_name skill_data (loaded_skills self)) tk2)
              end
        end
    end.
Proof.
  intros Hd Hl. unfold load_skill, bind, get_state, lift, on_toolkit, modify, ret, raise.
  rewrite Hd, Hl. destruct self as [dir disc loaded tk]. cbn [toolkit skill_directory
    discovered_skills loaded_skills] in *.
  destruct (read_text w _) as [content|e]; [|done].
  destruct (_load_additional_resources w _ _) as [resources|e]; [|done].
  rewrite create_tool_group_cases. fold (skill_group metadata).
  destruct (_ || _); [done|]. cbv zeta.
  by destruct (_register_skill_tools w _ _ _) as [[[]|e] tk2].
Qed.

(** What [load_skill] may change, whatever its outcome. *)
Lemma load_skill_effect (w : World) (skill_name : string) (self : SkillManager) :
  skill_directory (snd (load_skill w skill_name self)) = skill_directory self
  /\ discovered_skills (snd (load_skill w skill_name self)) = discovered_skills self
  /\ (forall g grp,
        PyDict.get g (groups (toolkit self)) = Some grp ->
        PyDict.get g (groups (toolkit (snd (load_skill w skill_name self)))) = Some grp)
  /\ (forall g, g ≠ skill_name ->
        PyDict.get g (groups (toolkit (snd (load_skill w skill_name self))))
        = PyDict.get g (groups (toolkit self)))
  /\ (forall t f,
        PyDict.get t (tools (toolkit self)) = Some f ->
        PyDict.get t (tools (toolkit (snd (load_skill w skill_name self)))) = Some f)
  /\ (NoDup (PyDict.keys (tools (toolkit self))) ->
      NoDup (PyDict.keys (tools (toolkit (snd (load_skill w skill_name self))))))
  /\ match fst (load_skill w skill_name self) with
     | Raise _ => loaded_skills (snd (load_skill w skill_name self)) = loaded_skills self
     | Return data =>
         (snd (load_skill w skill_name self) = self
          /\ PyDict.get skill_name (loaded_skills self) = Some data)
         \/ (PyDict.get skill_name (loaded_skills self) = None
             /\ loaded_skills (snd (load_skill w skill_name self))
                = PyDict.set skill_name data (loaded_skills self)
             /\ PyDict.mem skill_name
                  (groups (toolkit (snd (load_skill w skill_name self)))) = true
             /\ sd_tools data
                = _get_skill_tools (toolkit (snd (load_skill w skill_name self))) skill_name)
     end.
Proof.
  destruct (PyDict.get (KStr skill_name) (discovered_skills self)) as [metadata|] eqn:Hd.
  2: { unfold load_skill, bind, get_state, raise. rewrite Hd. cbn [fst snd].
       repeat split; done. }
  destruct (PyDict.get skill_name (loaded_skills self)) as [cached|] eqn:Hl.
  { unfold load_skill, bind, get_state, ret. rewrite Hd, Hl. cbn [fst snd].
    repeat split; try done. by left. }
  rewrite (load_skill_steps w skill_name self metadata Hd Hl).
  destruct (read_text w _) as [content|e]; [|by repeat split].
  destruct (_load_additional_resources w _ _) as [resources|e]; [|by repeat split].
  destruct (PyDict.mem skill_name (groups (toolkit self)) || String.eqb skill_name "basic")
    eqn:Hgroup; [by repeat split|].
  apply orb_false_iff in Hgroup as [Hfree _]. cbv zeta.
  pose proof (register_skill_tools_extends_all w skill_name
                (SkillMetadata.directory metadata)
                (mkToolkit (tools (toolkit self))
                   (PyDict.set skill_name (skill_group metadata) (groups (toolkit self)))))
    as (Hgroups & Htools & Hnd).
  cbn [groups tools] in Hgroups, Htools, Hnd.
  assert (Hold : forall g, g ≠ skill_name ->
             PyDict.get g (PyDict.set skill_name (skill_group metadata)
                             (groups (toolkit self)))
             = PyDict.get g (groups (toolkit self)))
    by (intros g Hne; by apply dict_get_set_ne).
  assert (Hkeep : forall g grp,
             PyDict.get g (groups (toolkit self)) = Some grp ->
             PyDict.get g (PyDict.set skill_name (skill_group metadata)
                             (groups (toolkit self))) = Some grp).
  { intros g grp Hget. rewrite Hold; [done|]. intros ->.
    unfold PyDict.mem in Hfree. by rewrite Hget in Hfree. }
  destruct (_register_skill_tools w _ _ _) as [[[]|e] tk2]; cbn [fst snd] in *;
    cbn [skill_directory discovered_skills loaded_skills toolkit]; rewrite Hgroups.
  - do 6 (split; [done|]). right. split; [done|]. split; [done|]. split; [|done].
    unfold PyDict.mem. by rewrite dict_get_set_eq.
  - by repeat split.
Qed.

(** X16.  Whatever its outcome, [load_skill] leaves the skill directory
    setting and the discovered index as they are, changes no loaded entry of
    another skill, and neither removes nor alters a tool group or a tool
    that the toolkit holds.  When it raises, the loaded skills are exactly
    those of before; for a name that is not discovered it raises
    [ValueError("Skill '<name>' not found in discovered skills")] and leaves
    the manager as it was. *)
Theorem load_skill_frame (w : World) (skill_name : string) (self : SkillManager) :
  skill_directory (snd (load_skill w skill_name self)) = skill_directory self
  /\ discovered_skills (snd (load_skill w skill_name self)) = discovered_skills self
  /\ (forall other, other ≠ skill_name ->
        PyDict.get other (loaded_skills (snd (load_skill w skill_name self)))
        = PyDict.get other (loaded_skills self))
  /\ (forall g grp,
        PyDict.get g (groups (toolkit self)) = Some grp ->
        PyDict.get g (groups (toolkit (snd (load_skill w skill_name self)))) = Some grp)
  /\ (forall t f,
        PyDict.get t (tools (toolkit self)) = Some f ->
        PyDict.get t (tools (toolkit (snd (load_skill w skill_name self)))) = Some f)
  /\ (forall e, fst (load_skill w skill_name self) = Raise e ->
                loaded_skills (snd (load_skill w skill_name self)) = loaded_skills self)
  /\ (PyDict.get (KStr skill_name) (discovered_skills self) = None ->
      load_skill w skill_name self
      = (Raise (mkExn ValueError
                  ("Skill '" ++ skill_name ++ "' not found in discovered skills")),
         self)).
Proof.
  destruct (load_skill_effect w skill_name self)
    as (Hdir & Hdisc & Hgroups & _ & Htools & _ & Hloaded).
  split; [exact Hdir|]. split; [exact Hdisc|]. split; [|split; [exact Hgroups|]].
  - intros other Hne. destruct (fst (load_skill w skill_name self)) as [data|e].
    + destruct Hloaded as [[-> _]|(_ & -> & _)]; [done | by apply dict_get_set_ne].
    + by rewrite Hloaded.
  - split; [exact Htools|]. split.
    + intros e He. by rewrite He in Hloaded.
    + intros Hd. unfold load_skill, bind, get_state, raise. by rewrite Hd.
Qed.

Lemma load_skill_frame_witness :
  load_skill sample_world "notes" discovered_manager
  = (Raise (mkExn ValueError "Skill 'notes' not found in discovered skills"),
     discovered_manager)
  /\ PyDict.keys (groups (toolkit loaded_manager)) = ["pdf-tools"]
  /\ PyDict.get "pdf-tools"
       (groups (toolkit (snd (load_skill sample_world "pdf-tools" loaded_manager))))
     = Some (mkToolGroup (YStr "read pdf files") false
               [FLit "Skill: "; FVal (YStr "pdf-tools"); FLit nl;
                FVal (YStr "read pdf files")]).
Proof.
  destruct (load_skill_frame sample_world "notes" discovered_manager)
    as (_ & _ & _ & _ & _ & _ & Hmissing).
  split; [exact (Hmissing eq_refl)|]. split; [reflexivity|].
  destruct (load_skill_frame sample_world "pdf-tools" loaded_manager)
    as (_ & _ & _ & Hgroups & _).
  by apply Hgroups.
Defined.


(** ** Reading the content of a skill *)

Lemma fold_left_sections (resources : list (string * string)) (init : string) :
  fold_left
    (fun content '(name, resource_content) =>
       content ++ nl ++ "## " ++ name ++ nl ++ resource_content ++ nl)
    resources init
  = init ++ fold_right append "" (map resource_section resources).
Proof.
  revert init. induction resources as [|[name text] resources IH]; intros init.
  - cbn [fold_left map fold_right]. by rewrite append_empty_r.
  - cbn [fold_left map fold_right]. rewrite IH. unfold resource_section at 2.
    cbn [fst snd]. by rewrite !append_assoc.
Qed.

(** X18.  For a loaded skill [get_skill_content] returns the stored body;
    with [include_resources] it returns the body followed, when the skill has
    resources, by the header [Additional Resources:] and one section per
    resource in the order in which the resources were stored, each made of
    the line [## <name>] and the text of the resource.  For a name that is
    not loaded it raises [ValueError("Skill '<name>' not loaded")]. *)
Theorem get_skill_content_text
        (self : SkillManager) (skill_name : string) (include_resources : bool) :
  (PyDict.get skill_name (loaded_skills self) = None ->
   get_skill_content self skill_name include_resources
   = Raise (mkExn ValueError ("Skill '" ++ skill_name ++ "' not loaded")))
  /\ forall data,
       PyDict.get skill_name (loaded_skills self) = Some data ->
       get_skill_content self skill_name include_resources
       = Return (sd_content data
                 ++ if include_resources
                    then resources_text (sd_additional_resources data) else "").
Proof.
  unfold get_skill_content. split; [by intros ->|]. intros data ->.
  destruct include_resources; cbn [andb]; [|by rewrite append_empty_r].
  destruct (sd_additional_resources data) as [|resource resources] eqn:Hres;
    [by rewrite append_empty_r|].
  rewrite fold_left_sections. unfold resources_text. by rewrite !append_assoc.
Qed.

Lemma get_skill_content_text_witness :
  let self := snd (load_skill resource_world "pdf-tools" discovered_manager) in
  get_skill_content self "notes" true
  = Raise (mkExn ValueError "Skill 'notes' not loaded")
  /\ get_skill_content self "pdf-tools" false = Return "# PDF
Use the reader."
  /\ get_skill_content self "pdf-tools" true = Return "# PDF
Use the reader.

Additional Resources:

## reference
All about PDF.

## forms.txt
Form fields.
".
Proof.
  intros self.
  destruct (PyDict.get "pdf-tools" (loaded_skills self)) as [data|] eqn:Hdata;
    [|vm_compute in Hdata; discriminate].
  pose proof (proj2 (get_skill_content_text self "pdf-tools" false) data Hdata) as Hplain.
  pose proof (proj2 (get_skill_content_text self "pdf-tools" true) data Hdata) as Hfull.
  vm_compute in Hdata. injection Hdata as <-.
  split; [exact (proj1 (get_skill_content_text self "notes" true) eq_refl)|].
  split; [exact Hplain | exact Hfull].
Defined.

(** ** Consistency of the manager *)

Lemma update_tool_groups_effect (skill_name : string) (active : bool) (self : SkillManager) :
  on_toolkit (update_tool_groups [skill_name] active) self
  = (Return tt,
     mkSkillManager (skill_directory self) (discovered_skills self) (loaded_skills self)
       (mkToolkit (tools (toolkit self))
          match PyDict.get skill_name (groups (toolkit self)) with
          | Some g =>
              PyDict.set skill_name (mkToolGroup (tg_description g) active (tg_notes g))
                         (groups (toolkit self))
          | None => groups (toolkit self)
          end)).
Proof. reflexivity. Qed.

Lemma update_tool_groups_mem (skill_name : string) (active : bool) (self : SkillManager) g :
  PyDict.mem g (groups (toolkit self)) = true ->
  PyDict.mem g (groups (toolkit (snd (on_toolkit (update_tool_groups [skill_name] active)
                                        self)))) = true.
Proof.
  rewrite update_tool_groups_effect. cbn [snd toolkit groups]. intros Hmem.
  destruct (PyDict.get skill_name _); [by apply dict_mem_set | done].
Qed.

Lemma consistent_update (skill_name : string) (active : bool) (self : SkillManager) :
  consistent self ->
  consistent (snd (on_toolkit (update_tool_groups [skill_name] active) self)).
Proof.
  intros [Hnd Hloaded]. split; [by rewrite update_tool_groups_effect|].
  intros name data Hget. rewrite update_tool_groups_effect in Hget.
  cbn [snd loaded_skills] in Hget. destruct (Hloaded name data Hget) as [Hmem Htools].
  split; [by apply update_tool_groups_mem|]. by rewrite update_tool_groups_effect.
Qed.

Lemma get_skill_tools_registered (tk : Toolkit) (skill_name tool : string) :
  NoDup (PyDict.keys (tools tk)) ->
  tool ∈ _get_skill_tools tk skill_name ->
  exists f, PyDict.get tool (tools tk) = Some f /\ rt_group f = skill_name.
Proof.
  intros Hnd Hin. unfold _get_skill_tools in Hin.
  apply list_elem_of_fmap in Hin as ([tool' f] & -> & Hin).
  apply list_elem_of_In, filter_In in Hin as [Hin Hgroup].
  apply list_elem_of_In in Hin. exists f. split; [by apply dict_elem_of_get|].
  by apply String.eqb_eq.
Qed.

Lemma consistent_load_skill (w : World) (skill_name : string) (self : SkillManager) :
  consistent self -> consistent (snd (load_skill w skill_name self)).
Proof.
  intros [Hnd Hloaded].
  destruct (load_skill_effect w skill_name self)
    as (_ & _ & Hgroups & _ & Htools & Hnodup & Hout).
  assert (Hold : forall name data,
             PyDict.get name (loaded_skills self) = Some data ->
             PyDict.mem name (groups (toolkit (snd (load_skill w skill_name self)))) = true
             /\ forall tool, tool ∈ sd_tools data ->
                  exists f,
                    PyDict.get tool (tools (toolkit (snd (load_skill w skill_name self))))
                    = Some f /\ rt_group f = name).
  { intros name data Hget. destruct (Hloaded name data Hget) as [Hmem Hreg]. split.
    - unfold PyDict.mem in Hmem |- *.
      destruct (PyDict.get name (groups (toolkit self))) as [grp|] eqn:Hgrp; [|done].
      by rewrite (Hgroups name grp Hgrp).
    - intros tool Hin. destruct (Hreg tool Hin) as (f & Hf & Hgroup).
      exists f. split; [by apply Htools | done]. }
  split; [by apply Hnodup|]. intros name data' Hget.
  destruct (fst (load_skill w skill_name self)) as [data|e].
  - destruct Hout as [[Hsame _]|(_ & Hset & Hmem & Hlisted)].
    + rewrite Hsame in Hget. rewrite Hsame. by apply Hloaded.
    + rewrite Hset in Hget. destruct (decide (name = skill_name)) as [->|Hne].
      * rewrite dict_get_set_eq in Hget. injection Hget as <-. split; [done|].
        intros tool Hin. rewrite Hlisted in Hin.
        apply get_skill_tools_registered; [by apply Hnodup | done].
      * rewrite dict_get_set_ne in Hget by done. by apply Hold.
  - rewrite Hout in Hget. by apply Hold.
Qed.

Lemma activate_skill_steps (w : World) (skill_name : string) (self : SkillManager) :
  activate_skill w skill_name self
  = if negb (PyDict.mem (KStr skill_name) (discovered_skills self)) then (Return false, self)
    else if negb (PyDict.mem skill_name (loaded_skills self)) then
           match load_skill w skill_name self with
           | (Return _, self1) =>
               (Return true, snd (on_toolkit (update_tool_groups [skill_name] true) self1))
           | (Raise e, self1) => (Raise e, self1)
           end
         else (Return true, snd (on_toolkit (update_tool_groups [skill_name] true) self)).
Proof.
  unfold activate_skill, bind at 1, get_state.
  destruct (negb (PyDict.mem (KStr skill_name) _)); [done|].
  destruct (negb (PyDict.mem skill_name _)); [|done].
  unfold bind. by destruct (load_skill w skill_name self) as [[data|e] self1].
Qed.

Lemma deactivate_skill_steps (skill_name : string) (self : SkillManager) :
  deactivate_skill skill_name self
  = if negb (PyDict.mem (KStr skill_name) (discovered_skills self)) then (Return false, self)
    else (Return true, snd (on_toolkit (update_tool_groups [skill_name] false) self)).
Proof.
  unfold deactivate_skill, bind at 1, get_state.
  by destruct (negb (PyDict.mem (KStr skill_name) _)).
Qed.

Lemma consistent_activate_skill (w : World) (skill_name : string) (self : SkillManager) :
  consistent self -> consistent (snd (activate_skill w skill_name self)).
Proof.
  intros Hself. rewrite activate_skill_steps.
  destruct (negb (PyDict.mem (KStr skill_name) _)); [done|].
  destruct (negb (PyDict.mem skill_name _)); [|by apply consistent_update].
  pose proof (consistent_load_skill w skill_name self Hself) as Hload.
  destruct (load_skill w skill_name self) as [[data|e] self1]; [|done].
  by apply consistent_update.
Qed.

(** X19.  The toolkit of the manager stays in step with its loaded skills: a
    new manager has pairwise different tool names, a tool group for every
    loaded skill, and every tool recorded for a loaded skill registered in
    the group of that skill; and [discover_skills], [load_skill],
    [activate_skill] and [deactivate_skill] keep this so, whether they
    return or raise. *)
Theorem manager_stays_consistent (w : World) (skill_name : string) :
  (forall skill_directory, consistent (SkillManager_init skill_directory))
  /\ forall self,
       consistent self ->
       consistent (snd (discover_skills w self))
       /\ consistent (snd (load_skill w skill_name self))
       /\ consistent (snd (activate_skill w skill_name self))
       /\ consistent (snd (deactivate_skill skill_name self)).
Proof.
  split.
  - intros dir. split; [apply NoDup_nil_2 | discriminate].
  - intros self Hself. split; [|split; [|split]].
    + rewrite discover_skills_steps.
      destruct (path_exists w (skill_directory self)) as [directory_exists|e]; [|done].
      destruct (negb directory_exists); [done|].
      destruct (path_iterdir w (skill_directory self)) as [entries|e]; [|done].
      by destruct (discover_steps w entries []).
    + by apply consistent_load_skill.
    + by apply consistent_activate_skill.
    + rewrite deactivate_skill_steps.
      destruct (negb (PyDict.mem (KStr skill_name) _)); [done | by apply consistent_update].
Qed.

Lemma manager_stays_consistent_witness :
  consistent (snd (deactivate_skill "pdf-tools"
                     (snd (activate_skill sample_world "pdf-tools"
                             (snd (discover_skills sample_world
                                     (SkillManager_init "skills")))))))
  /\ sd_tools <$> PyDict.get "pdf-tools"
                    (loaded_skills
                       (snd (activate_skill sample_world "pdf-tools"
                               (snd (discover_skills sample_world
                                       (SkillManager_init "skills"))))))
     = Some ["extract_invoice_total"].
Proof.
  split; [|reflexivity].
  destruct (manager_stays_consistent sample_world "pdf-tools") as [Hinit Hstep].
  destruct (Hstep (SkillManager_init "skills") (Hinit "skills")) as (Hdiscovered & _).
  destruct (Hstep _ Hdiscovered) as (_ & _ & Hactivated & _).
  destruct (Hstep _ Hactivated) as (_ & _ & _ & Hdeactivated).
  exact Hdeactivated.
Defined.

(** What an [activate_skill] that returns [True] has done. *)
Lemma update_tool_groups_frame (skill_name : string) (active : bool) (self : SkillManager) :
  discovered_skills (snd (on_toolkit (update_tool_groups [skill_name] active) self))
  = discovered_skills self
  /\ loaded_skills (snd (on_toolkit (update_tool_groups [skill_name] active) self))
     = loaded_skills self
  /\ tools (toolkit (snd (on_toolkit (update_tool_groups [skill_name] active) self)))
     = tools (toolkit self)
  /\ (forall other, other ≠ skill_name ->
        PyDict.get other
          (groups (toolkit (snd (on_toolkit (update_tool_groups [skill_name] active) self))))
        = PyDict.get other (groups (toolkit self)))
  /\ PyDict.get skill_name
       (groups (toolkit (snd (on_toolkit (update_tool_groups [skill_name] active) self))))
     = (fun g => mkToolGroup (tg_description g) active (tg_notes g))
         <$> PyDict.get skill_name (groups (toolkit self)).
Proof.
  rewrite update_tool_groups_effect. cbn [snd discovered_skills loaded_skills toolkit
    tools groups].
  do 3 (split; [done|]). split.
  - intros other Hne. destruct (PyDict.get skill_name (groups (toolkit self))); [|done].
    by apply dict_get_set_ne.
  - destruct (PyDict.get skill_name (groups (toolkit self))) as [g|] eqn:Hg.
    + by rewrite dict_get_set_eq.
    + by rewrite Hg.
Qed.

(** What an [activate_skill] that returns [True] has done. *)
Lemma activate_skill_returns_True (w : World) (skill_name : string)
      (self self' : SkillManager) :
  consistent self ->
  activate_skill w skill_name self = (Return true, self') ->
  PyDict.mem (KStr skill_name) (discovered_skills self') = true
  /\ PyDict.mem skill_name (loaded_skills self') = true
  /\ (exists g, PyDict.get skill_name (groups (toolkit self')) = Some g
                /\ tg_active g = true)
  /\ (forall other, other ≠ skill_name ->
        PyDict.get other (groups (toolkit self'))
        = PyDict.get other (groups (toolkit self)))
  /\ (forall t f, PyDict.get t (tools (toolkit self)) = Some f ->
                  PyDict.get t (tools (toolkit self')) = Some f).
Proof.
  rewrite activate_skill_steps.
  intros [Hnd Hloaded].
  destruct (PyDict.mem (KStr skill_name) (discovered_skills self)) eqn:Hdisc;
    cbn [negb]; [|discriminate].
  assert (Hupdate : forall self1,
             discovered_skills self1 = discovered_skills self ->
             PyDict.mem skill_name (loaded_skills self1) = true ->
             PyDict.mem skill_name (groups (toolkit self1)) = true ->
             (forall other, other ≠ skill_name ->
                PyDict.get other (groups (toolkit self1))
                = PyDict.get other (groups (toolkit self))) ->
             (forall t f, PyDict.get t (tools (toolkit self)) = Some f ->
                          PyDict.get t (tools (toolkit self1)) = Some f) ->
             self' = snd (on_toolkit (update_tool_groups [skill_name] true) self1) ->
             PyDict.mem (KStr skill_name) (discovered_skills self') = true
             /\ PyDict.mem skill_name (loaded_skills self') = true
             /\ (exists g, PyDict.get skill_name (groups (toolkit self')) = Some g
                           /\ tg_active g = true)
             /\ (forall other, other ≠ skill_name ->
                   PyDict.get other (groups (toolkit self'))
                   = PyDict.get other (groups (toolkit self)))
             /\ (forall t f, PyDict.get t (tools (toolkit self)) = Some f ->
                             PyDict.get t (tools (toolkit self')) = Some f)).
  { intros self1 Hsame Hl Hmem Hothers Htools ->.
    destruct (update_tool_groups_frame skill_name true self1)
      as (-> & -> & -> & Hrest & ->).
    rewrite Hsame. split; [done|]. split; [done|]. split; [|split].
    - unfold PyDict.mem in Hmem.
      destruct (PyDict.get skill_name (groups (toolkit self1))) as [g|]; [|done].
      by eexists.
    - intros other Hne. rewrite Hrest by done. by apply Hothers.
    - done. }
  destruct (PyDict.mem skill_name (loaded_skills self)) eqn:Hl; cbn [negb].
  - intros Hrun. apply (Hupdate self); try done.
    + unfold PyDict.mem in Hl.
      destruct (PyDict.get skill_name (loaded_skills self)) as [data|] eqn:Hdata; [|done].
      by destruct (Hloaded skill_name data Hdata).
    + by injection Hrun.
  - destruct (load_skill_effect w skill_name self)
      as (_ & Hsame & _ & Hgroups & Htools & _ & Hout).
    destruct (load_skill w skill_name self) as [[data|e] self1]; [|discriminate].
    cbn [fst snd] in *. intros Hrun.
    assert (Hin : PyDict.get skill_name (loaded_skills self1) = Some data
                  /\ PyDict.mem skill_name (groups (toolkit self1)) = true).
    { unfold PyDict.mem in Hl. destruct Hout as [[-> Hget]|(_ & -> & Hmem & _)].
      - by rewrite Hget in Hl.
      - split; [apply dict_get_set_eq | done]. }
    destruct Hin as [Hget Hmem].
    apply (Hupdate self1); try done.
    + unfold PyDict.mem. by rewrite Hget.
    + by injection Hrun.
Qed.

(** X20.  [activate_skill] returns [False] and changes nothing for a name
    that is not discovered.  For a discovered skill that is loaded already
    it returns [True] without reading anything.  Whenever it returns [True]
    on a consistent manager, the skill is discovered and loaded, its tool
    group is active, and the other groups and the tools registered before
    are as they were. *)
Theorem activate_skill_outcome (w : World) (skill_name : string) (self : SkillManager) :
  (PyDict.mem (KStr skill_name) (discovered_skills self) = false ->
   activate_skill w skill_name self = (Return false, self))
  /\ (PyDict.mem (KStr skill_name) (discovered_skills self) = true ->
      PyDict.mem skill_name (loaded_skills self) = true ->
      exists self', activate_skill w skill_name self = (Return true, self'))
  /\ (consistent self ->
      forall self',
        activate_skill w skill_name self = (Return true, self') ->
        PyDict.mem (KStr skill_name) (discovered_skills self') = true
        /\ PyDict.mem skill_name (loaded_skills self') = true
        /\ (exists g, PyDict.get skill_name (groups (toolkit self')) = Some g
                      /\ tg_active g = true)
        /\ (forall other, other ≠ skill_name ->
              PyDict.get other (groups (toolkit self'))
              = PyDict.get other (groups (toolkit self)))
        /\ (forall t f, PyDict.get t (tools (toolkit self)) = Some f ->
                        PyDict.get t (tools (toolkit self')) = Some f)).
Proof.
  split; [|split].
  - rewrite activate_skill_steps. by intros ->.
  - rewrite activate_skill_steps. intros -> ->. cbn [negb]. eauto.
  - intros Hself self' Hrun. by apply (activate_skill_returns_True w skill_name self self').
Qed.

Lemma activate_skill_outcome_witness :
  consistent discovered_manager
  /\ activate_skill sample_world "notes" discovered_manager
     = (Return false, discovered_manager)
  /\ exists self',
       activate_skill sample_world "pdf-tools" discovered_manager = (Return true, self')
       /\ PyDict.mem "pdf-tools" (loaded_skills self') = true
       /\ exists g, PyDict.get "pdf-tools" (groups (toolkit self')) = Some g
                    /\ tg_active g = true.
Proof.
  assert (Hself : consistent discovered_manager)
    by (split; [apply NoDup_nil_2 | discriminate]).
  split; [exact Hself|].
  destruct (activate_skill_outcome sample_world "notes" discovered_manager)
    as (Hmissing & _).
  split; [exact (Hmissing eq_refl)|].
  destruct (activate_skill_outcome sample_world "pdf-tools" discovered_manager)
    as (_ & _ & Hactive).
  eexists. split; [vm_compute; reflexivity|].
  destruct (Hactive Hself _ ltac:(vm_compute; reflexivity)) as (_ & Hl & Hg & _).
  split; [exact Hl | exact Hg].
Defined.

(** X21.  [deactivate_skill] changes the toolkit in one place at most: the
    tools and all groups but the one named after the skill stay as they
    are.  For a name that is not discovered it returns [False] and changes
    nothing; for a discovered one the group of that name, if there is one,
    is made inactive and keeps its description and notes.  After an
    [activate_skill] that returned [True] on a consistent manager,
    [deactivate_skill] returns [True] and leaves the group inactive. *)
Theorem deactivate_skill_effect (w : World) (skill_name : string) (self : SkillManager) :
  tools (toolkit (snd (deactivate_skill skill_name self))) = tools (toolkit self)
  /\ (forall other, other ≠ skill_name ->
        PyDict.get other (groups (toolkit (snd (deactivate_skill skill_name self))))
        = PyDict.get other (groups (toolkit self)))
  /\ (PyDict.mem (KStr skill_name) (discovered_skills self) = false ->
      deactivate_skill skill_name self = (Return false, self))
  /\ (PyDict.mem (KStr skill_name) (discovered_skills self) = true ->
      PyDict.get skill_name (groups (toolkit (snd (deactivate_skill skill_name self))))
      = (fun g => mkToolGroup (tg_description g) false (tg_notes g))
          <$> PyDict.get skill_name (groups (toolkit self)))
  /\ (consistent self ->
      forall self1,
        activate_skill w skill_name self = (Return true, self1) ->
        exists self2 g,
          deactivate_skill skill_name self1 = (Return true, self2)
          /\ PyDict.get skill_name (groups (toolkit self2)) = Some g
          /\ tg_active g = false
          /\ loaded_skills self2 = loaded_skills self1
          /\ tools (toolkit self2) = tools (toolkit self1)).
Proof.
  rewrite deactivate_skill_steps.
  destruct (update_tool_groups_frame skill_name false self)
    as (_ & _ & Htools & Hothers & Hgroup).
  split; [|split; [|split; [|split]]].
  - by destruct (negb _).
  - intros other Hne. destruct (negb _); [done | by apply Hothers].
  - by intros ->.
  - by intros ->.
  - intros Hself self1 Hrun.
    destruct (activate_skill_returns_True w skill_name self self1 Hself Hrun)
      as (Hdisc & _ & (g & Hg & _) & _).
    rewrite deactivate_skill_steps, Hdisc. cbn [negb].
    destruct (update_tool_groups_frame skill_name false self1)
      as (_ & Hloaded1 & Htools1 & _ & Hgroup1).
    eexists _, _. split; [reflexivity|].
    split; [rewrite Hgroup1, Hg; reflexivity|]. done.
Qed.

Lemma deactivate_skill_effect_witness :
  consistent discovered_manager
  /\ deactivate_skill "notes" discovered_manager = (Return false, discovered_manager)
  /\ exists self1 self2 g,
       activate_skill sample_world "pdf-tools" discovered_manager = (Return true, self1)
       /\ deactivate_skill "pdf-tools" self1 = (Return true, self2)
       /\ PyDict.get "pdf-tools" (groups (toolkit self2)) = Some g
       /\ tg_active g = false
       /\ PyDict.keys (tools (toolkit self2)) = ["extract_invoice_total"].
Proof.
  assert (Hself : consistent discovered_manager)
    by (split; [apply NoDup_nil_2 | discriminate]).
  split; [exact Hself|].
  destruct (deactivate_skill_effect sample_world "notes" discovered_manager)
    as (_ & _ & Hmissing & _).
  split; [exact (Hmissing eq_refl)|].
  destruct (deactivate_skill_effect sample_world "pdf-tools" discovered_manager)
    as (_ & _ & _ & _ & Hround).
  destruct (activate_skill sample_world "pdf-tools" discovered_manager)
    as [[[]|e] self1] eqn:Hrun; try (vm_compute in Hrun; discriminate).
  destruct (Hround Hself self1 eq_refl) as (self2 & g & Hoff & Hg & Hinactive & _ & Htools).
  exists self1, self2, g. split; [reflexivity|]. split; [exact Hoff|].
  split; [exact Hg|]. split; [exact Hinactive|].
  rewrite Htools. vm_compute in Hrun. by injection Hrun as <-.
Defined.

(* ================================================================ *)
(** * Further properties of the context cache *)

Lemma dict_del_get_ne {K V} `{EqDecision K} (d : list (K * V)) k k' :
  k' ≠ k -> PyDict.get k' (PyDict.del k d) = PyDict.get k' d.
Proof.
  intros Hne. induction d as [|[k0 v0] d IH]; simpl; [done|].
  destruct (decide (k0 = k)) as [->|Hk]; simpl.
  - case_decide; [congruence | done].
  - by rewrite IH.
Qed.

Lemma dict_get_app_fresh {K V} `{EqDecision K} (a b : list (K * V)) k :
  k ∉ PyDict.keys a -> PyDict.get k (a ++ b)%list = PyDict.get k b.
Proof.
  induction a as [|[k0 v0] a IH]; simpl; [done|].
  rewrite not_elem_of_cons. intros [Hne Hout]. case_decide; [congruence | by apply IH].
Qed.

Lemma dict_del_app_fresh {K V} `{EqDecision K} (a : list (K * V)) k v :
  k ∉ PyDict.keys a -> PyDict.del k (a ++ [(k, v)])%list = a.
Proof.
  induction a as [|[k0 v0] a IH]; simpl.
  - intros _. by rewrite decide_True.
  - rewrite not_elem_of_cons. intros [Hne Hout].
    case_decide; [congruence | by rewrite IH].
Qed.

Lemma dict_del_keys_NoDup {K V} `{EqDecision K} (d : list (K * V)) k :
  NoDup (PyDict.keys d) -> NoDup (PyDict.keys (PyDict.del k d)).
Proof. intros Hnd. rewrite dict_del_keys by done. by apply NoDup_filter. Qed.

Lemma remove_from_cache_fresh (skill_name : string) (cache : Cache) :
  NoDup (PyDict.keys cache) ->
  NoDup (PyDict.keys (_remove_from_cache skill_name cache))
  /\ (skill_name ∉ PyDict.keys (_remove_from_cache skill_name cache)).
Proof.
  intros Hnd. unfold _remove_from_cache.
  destruct (PyDict.mem skill_name cache) eqn:Hmem.
  - split; [by apply dict_del_keys_NoDup | by apply dict_del_not_in].
  - split; [done | by apply dict_mem_false].
Qed.

(** With room for one entry at least, the entry added goes last and stays. *)
Lemma add_to_cache_last (max_cache_size : nat) (now : Q) (skill_name content : string)
      (cache : Cache) :
  NoDup (PyDict.keys cache) -> 1 <= max_cache_size ->
  exists older,
    _add_to_cache max_cache_size now skill_name content cache
    = (older ++ [(skill_name, (content, now))])%list
    /\ (skill_name ∉ PyDict.keys older)
    /\ PyDict.keys older `sublist_of` PyDict.keys cache.
Proof.
  intros Hnd Hmax.
  destruct (remove_from_cache_fresh skill_name cache Hnd) as [_ Hout].
  unfold _add_to_cache. unfold _remove_from_cache in Hout.
  set (cache' := if PyDict.mem skill_name cache then PyDict.del skill_name cache
                 else cache) in *.
  assert (Hsub : PyDict.keys cache' `sublist_of` PyDict.keys cache).
  { subst cache'. destruct (PyDict.mem skill_name cache); [|done].
    rewrite dict_del_keys by done. apply sublist_filter. }
  rewrite dict_set_fresh by done. rewrite evict_oldest_drop, length_app.
  cbn [length]. rewrite drop_app_le by lia.
  exists (drop (length cache' + 1 - max_cache_size) cache').
  split; [done|].
  assert (Hdrop : PyDict.keys (drop (length cache' + 1 - max_cache_size) cache')
                  `sublist_of` PyDict.keys cache').
  { unfold PyDict.keys.
    change (map fst) with (fmap (M:=list) (@fst string (string * Q))).
    rewrite fmap_drop. apply sublist_drop. }
  split.
  - intros Hin. apply Hout. by eapply elem_of_sublist.
  - by etrans.
Qed.

(** X22.  The life of a cache entry.  With a bound of at least one,
    [_add_to_cache] makes the skill the most recent entry, a
    [_get_from_cache] that follows returns the content just stored and
    leaves the cache as it is, and the names exposed by
    [skill_context_cache] end with the skill.  With a bound of zero the
    cache is empty after every addition.  After [_remove_from_cache] a
    lookup of the skill misses, while every other entry is found as
    before. *)
Theorem cache_entry_life_cycle
        (max_cache_size : nat) (now : Q) (skill_name content : string) (cache : Cache) :
  NoDup (PyDict.keys cache) ->
  NoDup (PyDict.keys (_add_to_cache max_cache_size now skill_name content cache))
  /\ (1 <= max_cache_size ->
      _get_from_cache skill_name
        (_add_to_cache max_cache_size now skill_name content cache)
      = (Some content, _add_to_cache max_cache_size now skill_name content cache)
      /\ last (skill_context_cache
                 (_add_to_cache max_cache_size now skill_name content cache))
         = Some (skill_name, content))
  /\ (max_cache_size = 0 ->
      _add_to_cache max_cache_size now skill_name content cache = [])
  /\ _get_from_cache skill_name (_remove_from_cache skill_name cache)
     = (None, _remove_from_cache skill_name cache)
  /\ (forall other, other ≠ skill_name ->
        PyDict.get other (_remove_from_cache skill_name cache) = PyDict.get other cache).
Proof.
  intros Hnd. split; [|split; [|split; [|split]]].
  - unfold _add_to_cache.
    eapply sublist_NoDup; [|apply keys_evict_oldest_sublist].
    apply dict_set_keys_NoDup.
    destruct (PyDict.mem skill_name cache); [by apply dict_del_keys_NoDup | done].
  - intros Hmax.
    destruct (add_to_cache_last max_cache_size now skill_name content cache Hnd Hmax)
      as (older & -> & Hout & _).
    split.
    + unfold _get_from_cache. rewrite dict_get_app_fresh by done. cbn [PyDict.get].
      rewrite decide_True by done.
      by rewrite dict_del_app_fresh, dict_set_fresh.
    + unfold skill_context_cache. rewrite map_app. cbn [map fst]. apply last_snoc.
  - intros ->. unfold _add_to_cache. rewrite evict_oldest_drop, Nat.sub_0_r.
    apply drop_all.
  - destruct (remove_from_cache_fresh skill_name cache Hnd) as [_ Hout].
    unfold _get_from_cache. by rewrite (proj2 (dict_get_None _ _) Hout).
  - intros other Hne. unfold _remove_from_cache.
    destruct (PyDict.mem skill_name cache); [by apply dict_del_get_ne | done].
Qed.

Lemma cache_entry_life_cycle_witness :
  NoDup (PyDict.keys cache_abc)
  /\ _add_to_cache 3 (4 # 1) "a" "new text" cache_abc
     = [("b", ("text b", 2%Q)); ("c", ("text c", 3%Q)); ("a", ("new text", 4 # 1))]
  /\ fst (_get_from_cache "a" (_add_to_cache 3 (4 # 1) "a" "new text" cache_abc))
     = Some "new text"
  /\ _add_to_cache 0 (4 # 1) "d" "text d" cache_abc = []
  /\ fst (_get_from_cache "b" (_remove_from_cache "b" cache_abc)) = None.
Proof.
  assert (Hnd : NoDup (PyDict.keys cache_abc))
    by (apply (bool_decide_unpack _); vm_compute; exact I).
  split; [exact Hnd|]. split; [reflexivity|].
  destruct (cache_entry_life_cycle 3 (4 # 1) "a" "new text" cache_abc Hnd)
    as (_ & Hhit & _ & Hmiss & _).
  destruct (cache_entry_life_cycle 0 (4 # 1) "d" "text d" cache_abc Hnd)
    as (_ & _ & Hzero & _).
  destruct (cache_entry_life_cycle 3 (4 # 1) "b" "" cache_abc Hnd)
    as (_ & _ & _ & Hgone & _).
  split; [by rewrite (proj1 (Hhit ltac:(lia)))|].
  split; [exact (Hzero eq_refl)|]. by rewrite Hgone.
Defined.

Lemma fold_del_cons_fresh (names : list string) (skill_name : string) v (cache : Cache) :
  skill_name ∉ names ->
  fold_left (fun cache name => PyDict.del name cache) names ((skill_name, v) :: cache)
  = (skill_name, v)
      :: fold_left (fun cache name => PyDict.del name cache) names cache.
Proof.
  revert cache. induction names as [|name names IH]; intros cache; [done|].
  rewrite not_elem_of_cons. intros [Hne Hout]. cbn [fold_left PyDict.del].
  case_decide; [congruence | by apply IH].
Qed.

(** X23.  [_cleanup_old_cache] keeps exactly the entries whose age does not
    exceed [max_age_seconds], in their order: an entry is removed if and
    only if [current_time - timestamp > max_age_seconds]. *)
Theorem cleanup_old_cache_keeps_recent
        (current_time max_age_seconds : Q) (cache : Cache) :
  NoDup (PyDict.keys cache) ->
  _cleanup_old_cache current_time max_age_seconds cache
  = List.filter (recent current_time max_age_seconds) cache.
Proof.
  unfold _cleanup_old_cache.
  induction cache as [|[skill_name [content timestamp]] cache IH]; [done|].
  cbn [PyDict.keys map fst]. rewrite NoDup_cons. intros [Hfresh Hnd].
  cbn [List.filter]. unfold recent at 1. cbn [snd].
  destruct (Qle_bool (current_time - timestamp) max_age_seconds); cbn [negb].
  - rewrite fold_del_cons_fresh; [by rewrite IH|].
    intros Hin. apply Hfresh. apply list_elem_of_fmap in Hin as (entry & -> & Hin).
    apply list_elem_of_In, filter_In in Hin as [Hin _].
    apply list_elem_of_fmap. exists entry. split; [done | by apply list_elem_of_In].
  - cbn [map fst fold_left PyDict.del]. rewrite decide_True by done. by apply IH.
Qed.

Lemma cleanup_old_cache_keeps_recent_witness :
  NoDup (PyDict.keys cache_abc)
  /\ _cleanup_old_cache (3602 # 1) (3600 # 1) cache_abc
     = [("b", ("text b", 2%Q)); ("c", ("text c", 3%Q))].
Proof.
  assert (Hnd : NoDup (PyDict.keys cache_abc))
    by (apply (bool_decide_unpack _); vm_compute; exact I).
  split; [exact Hnd|].
  by rewrite (cleanup_old_cache_keeps_recent (3602 # 1) (3600 # 1) cache_abc Hnd).
Defined.

(* ================================================================ *)
(** * Further properties of the relevance matcher *)

Lemma match_loop_raise threshold user_message_lower (ds : list (Key * SkillMetadata.t)) e :
  fold_left
    (fun (acc : result (list Key)) '(skill_name, metadata) =>
       (let? relevant_skills := acc in
        let? hit := skill_is_relevant threshold user_message_lower skill_name metadata in
        Return (if hit then relevant_skills ++ [skill_name] else relevant_skills)%list)%py)
    ds (Raise e)
  = Raise e.
Proof. induction ds as [|[k md] ds IH]; [done | exact IH]. Qed.

Lemma match_loop_keys threshold user_message_lower (ds : list (Key * SkillMetadata.t))
      acc relevant_skills :
  fold_left
    (fun (acc : result (list Key)) '(skill_name, metadata) =>
       (let? relevant_skills := acc in
        let? hit := skill_is_relevant threshold user_message_lower skill_name metadata in
        Return (if hit then relevant_skills ++ [skill_name] else relevant_skills)%list)%py)
    ds (Return acc)
  = Return relevant_skills ->
  exists found, relevant_skills = (acc ++ found)%list
                /\ found `sublist_of` PyDict.keys ds.
Proof.
  revert acc. induction ds as [|[k md] ds IH]; intros acc.
  - intros [= <-]. exists []. by rewrite app_nil_r.
  - cbn [fold_left rbind].
    destruct (skill_is_relevant threshold user_message_lower k md) as [hit|e];
      cbn [rbind]; [|by rewrite match_loop_raise].
    intros Hrun. apply IH in Hrun as (found & -> & Hsub).
    destruct hit.
    + exists (k :: found). rewrite <- app_assoc. split; [done|]. by apply sublist_skip.
    + exists found. split; [done|]. by apply sublist_cons.
Qed.

Lemma skill_is_relevant_threshold (t1 t2 : Q) user_message_lower k md :
  (t1 <= t2)%Q ->
  match skill_is_relevant t2 user_message_lower k md with
  | Return hit2 =>
      exists hit1,
        skill_is_relevant t1 user_message_lower k md = Return hit1
        /\ (hit2 = true -> hit1 = true)
  | Raise e => skill_is_relevant t1 user_message_lower k md = Raise e
  end.
Proof.
  intros Hle. unfold skill_is_relevant.
  destruct (ylower (key_value k)) as [name|e]; cbn [rbind]; [|done].
  destruct (PyStr.contains name user_message_lower); [by exists true|].
  destruct (ylower (SkillMetadata.description md)) as [description|e]; cbn [rbind]; [|done].
  destruct (size _ =? 0)%nat; [by exists false|].
  destruct (0 <? _)%nat; [|by exists false].
  eexists. split; [done|]. unfold ratio_reaches. rewrite !Qle_bool_iff.
  intros H2. by eapply Qle_trans.
Qed.

Lemma match_loop_threshold (t1 t2 : Q) user_message_lower
      (ds : list (Key * SkillMetadata.t)) acc1 acc2 :
  (t1 <= t2)%Q -> acc2 `sublist_of` acc1 ->
  match
    fold_left
      (fun (acc : result (list Key)) '(skill_name, metadata) =>
         (let? relevant_skills := acc in
          let? hit := skill_is_relevant t2 user_message_lower skill_name metadata in
          Return (if hit then relevant_skills ++ [skill_name] else relevant_skills)%list)%py)
      ds (Return acc2)
  with
  | Return l2 =>
      exists l1,
        fold_left
          (fun (acc : result (list Key)) '(skill_name, metadata) =>
             (let? relevant_skills := acc in
              let? hit := skill_is_relevant t1 user_message_lower skill_name metadata in
              Return (if hit then relevant_skills ++ [skill_name]
                      else relevant_skills)%list)%py)
          ds (Return acc1)
        = Return l1
        /\ l2 `sublist_of` l1
  | Raise e =>
      fold_left
        (fun (acc : result (list Key)) '(skill_name, metadata) =>
           (let? relevant_skills := acc in
            let? hit := skill_is_relevant t1 user_message_lower skill_name metadata in
            Return (if hit then relevant_skills ++ [skill_name]
                    else relevant_skills)%list)%py)
        ds (Return acc1)
      = Raise e
  end.
Proof.
  intros Hle. revert acc1 acc2. induction ds as [|[k md] ds IH]; intros acc1 acc2 Hsub.
  - by exists acc1.
  - cbn [fold_left rbind].
    pose proof (skill_is_relevant_threshold t1 t2 user_message_lower k md Hle) as Hstep.
    destruct (skill_is_relevant t2 user_message_lower k md) as [hit2|e]; cbn [rbind].
    + destruct Hstep as (hit1 & -> & Himp). cbn [rbind]. apply IH.
      destruct hit2.
      * rewrite (Himp eq_refl). by apply sublist_app.
      * destruct hit1; [by apply sublist_inserts_r | done].
    + rewrite Hstep. cbn [rbind]. by rewrite !match_loop_raise.
Qed.

(** X24.  Lowering the threshold never loses a match.  If
    [_match_skills_to_task] returns a list under a threshold, it returns
    under every lower threshold a list which holds the first one as a
    sub-sequence; both list skills in the order of the discovered index.
    If it raises under one threshold, it raises the same error under every
    lower one. *)
Theorem match_skills_threshold_monotone
        (t1 t2 : Q) (discovered : list (Key * SkillMetadata.t)) (task : string) :
  (t1 <= t2)%Q ->
  match _match_skills_to_task t2 discovered task with
  | Return relevant2 =>
      exists relevant1,
        _match_skills_to_task t1 discovered task = Return relevant1
        /\ relevant2 `sublist_of` relevant1
        /\ relevant1 `sublist_of` PyDict.keys discovered
  | Raise e => _match_skills_to_task t1 discovered task = Raise e
  end.
Proof.
  intros Hle. unfold _match_skills_to_task.
  destruct discovered as [|d ds]; [by exists []|].
  pose proof (match_loop_threshold t1 t2 (PyStr.lower task) (d :: ds) [] []
                Hle (sublist_nil)) as Hloop.
  destruct (fold_left _ (d :: ds) (Return [])) as [relevant2|e]; [|exact Hloop].
  destruct Hloop as (relevant1 & Hrun & Hsub). exists relevant1.
  split; [exact Hrun|]. split; [exact Hsub|].
  apply match_loop_keys in Hrun as (found & -> & Hfound). exact Hfound.
Qed.

Lemma match_skills_threshold_monotone_witness :
  (1 # 2 <= 7 # 10)%Q
  /\ _match_skills_to_task (7 # 10)
       [descriptor "notes" "take meeting notes quickly";
        descriptor "pdf-tools" "extract text from pdf documents"]
       "extract text from scanned documents quickly"
     = Return [KStr "pdf-tools"]
  /\ exists relevant1,
       _match_skills_to_task (1 # 2)
         [descriptor "notes" "take meeting notes quickly";
          descriptor "pdf-tools" "extract text from pdf documents"]
         "extract text from scanned documents quickly"
       = Return relevant1
       /\ [KStr "pdf-tools"] `sublist_of` relevant1.
Proof.
  assert (Hle : (1 # 2 <= 7 # 10)%Q) by (vm_compute; discriminate).
  split; [exact Hle|].
  pose proof (match_skills_threshold_monotone (1 # 2) (7 # 10)
                [descriptor "notes" "take meeting notes quickly";
                 descriptor "pdf-tools" "extract text from pdf documents"]
                "extract text from scanned documents quickly" Hle) as Hmono.
  assert (Hrun : _match_skills_to_task (7 # 10)
                   [descriptor "notes" "take meeting notes quickly";
                    descriptor "pdf-tools" "extract text from pdf documents"]
                   "extract text from scanned documents quickly"
                 = Return [KStr "pdf-tools"]) by (vm_compute; reflexivity).
  split; [exact Hrun|]. rewrite Hrun in Hmono.
  destruct Hmono as (relevant1 & Hrun1 & Hsub & _).
  exists relevant1. split; [exact Hrun1 | exact Hsub].
Defined.

(** X25.  A descriptor whose name or description is not a string.  After
    descriptors with string fields, a descriptor with a name that is not a
    string, or with a name that does not occur in the task and a description
    that is not a string, makes [_match_skills_to_task] raise the
    [AttributeError] of the missing method [lower]; the descriptors after it
    are not looked at.  A skill whose name occurs in the task is matched
    without its description being read, whatever that is. *)
Theorem match_skills_non_string
        (threshold : Q) (before after : list (Key * SkillMetadata.t))
        (k : Key) (md : SkillMetadata.t) (task : string) :
  Forall typed_descriptor before ->
  (k = KNone ->
   _match_skills_to_task threshold (before ++ (k, md) :: after) task
   = Raise (no_attribute YNull "lower"))
  /\ (forall name,
        k = KStr name ->
        PyStr.contains (PyStr.lower name) (PyStr.lower task) = false ->
        (forall s, SkillMetadata.description md <> YStr s) ->
        _match_skills_to_task threshold (before ++ (k, md) :: after) task
        = Raise (no_attribute (SkillMetadata.description md) "lower"))
  /\ (forall name,
        k = KStr name ->
        PyStr.contains (PyStr.lower name) (PyStr.lower task) = true ->
        Forall typed_descriptor after ->
        _match_skills_to_task threshold (before ++ (k, md) :: after) task
        = Return
            (map fst
               (List.filter
                  (fun d => relevant threshold task (key_str (fst d))
                                     (description_str (snd d)))
                  before)
             ++ KStr name
             :: map fst
                  (List.filter
                     (fun d => relevant threshold task (key_str (fst d))
                                        (description_str (snd d)))
                     after))%list).
Proof.
  intros Hbefore.
  assert (Hloop :
            _match_skills_to_task threshold (before ++ (k, md) :: after) task
            = fold_left
                (fun (acc : result (list Key)) '(skill_name, metadata) =>
                   (let? relevant_skills := acc in
                    let? hit := skill_is_relevant threshold (PyStr.lower task)
                                                  skill_name metadata in
                    Return (if hit then relevant_skills ++ [skill_name]
                            else relevant_skills)%list)%py)
                after
                (let? hit := skill_is_relevant threshold (PyStr.lower task) k md in
                 Return (if hit
                         then map fst
                                (List.filter
                                   (fun d => relevant threshold task (key_str (fst d))
                                                      (description_str (snd d)))
                                   before) ++ [k]
                         else map fst
                                (List.filter
                                   (fun d => relevant threshold task (key_str (fst d))
                                                      (description_str (snd d)))
                                   before))%list)%py).
  { unfold _match_skills_to_task.
    destruct (before ++ (k, md) :: after)%list as [|d ds] eqn:Hlist.
    { by destruct before. }
    rewrite <- Hlist. rewrite fold_left_app.
    rewrite (match_loop_typed threshold task before [] Hbefore).
    cbn [fold_left rbind app]. done. }
  rewrite Hloop. split; [|split].
  - intros ->. cbn [skill_is_relevant key_value ylower rbind].
    apply match_loop_raise.
  - intros name -> Hname Hdesc. unfold skill_is_relevant.
    cbn [key_value ylower rbind]. rewrite Hname.
    destruct (SkillMetadata.description md) as [|s|items|entries] eqn:Hd;
      cbn [ylower rbind]; try apply match_loop_raise.
    by destruct (Hdesc s).
  - intros name -> Hname Hafter. unfold skill_is_relevant at 2.
    cbn [key_value ylower rbind]. rewrite Hname. cbn [rbind].
    rewrite (match_loop_typed threshold task after _ Hafter).
    by rewrite <- app_assoc.
Qed.

Lemma match_skills_non_string_witness :
  Forall typed_descriptor [descriptor "notes" "take meeting notes quickly"]
  /\ _match_skills_to_task (7 # 10)
       [descriptor "notes" "take meeting notes quickly"; undescribed "pdf-tools"]
       "read these files"
     = Raise (mkExn AttributeError "'list' object has no attribute 'lower'")
  /\ _match_skills_to_task (7 # 10)
       [descriptor "notes" "take meeting notes quickly"; undescribed "pdf-tools"]
       "use pdf-tools on these files"
     = Return [KStr "pdf-tools"].
Proof.
  assert (Hbefore : Forall typed_descriptor [descriptor "notes" "take meeting notes quickly"])
    by (repeat constructor).
  split; [exact Hbefore|].
  destruct (match_skills_non_string (7 # 10) [descriptor "notes" "take meeting notes quickly"]
              [] (KStr "pdf-tools") (snd (undescribed "pdf-tools")) "read these files"
              Hbefore) as (_ & Hraise & _).
  destruct (match_skills_non_string (7 # 10) [descriptor "notes" "take meeting notes quickly"]
              [] (KStr "pdf-tools") (snd (undescribed "pdf-tools"))
              "use pdf-tools on these files" Hbefore) as (_ & _ & Hhit).
  assert (Hdesc : forall s, SkillMetadata.description (snd (undescribed "pdf-tools"))
                            <> YStr s) by discriminate.
  split.
  - etransitivity; [exact (Hraise "pdf-tools" eq_refl eq_refl Hdesc) | reflexivity].
  - etransitivity; [exact (Hhit "pdf-tools" eq_refl eq_refl (Forall_nil_2 _))|].
    vm_compute. reflexivity.
Defined.

(* ================================================================ *)
(** * Generated descriptions *)

Lemma split_on_nonempty (sep : ascii) (s : string) : PyStr.split_on sep s <> [].
Proof.
  destruct s as [|c s]; [done|]. cbn [PyStr.split_on].
  destruct (Ascii.eqb c sep); [done|]. by destruct (PyStr.split_on sep s).
Qed.

Lemma split_on_prefix (sep : ascii) (p s : string) :
  has_char sep p = false ->
  PyStr.split_on sep (p ++ String sep s) = p :: PyStr.split_on sep s.
Proof.
  induction p as [|c p IH]; cbn [has_char append PyStr.split_on].
  - intros _. by rewrite Ascii.eqb_refl.
  - intros Hno. apply orb_false_iff in Hno as [-> Hno]. by rewrite (IH Hno).
Qed.

Lemma split_on_no_sep (sep : ascii) (s : string) :
  has_char sep s = false -> PyStr.split_on sep s = [s].
Proof.
  induction s as [|c s IH]; cbn [has_char PyStr.split_on]; [done|].
  intros Hno. apply orb_false_iff in Hno as [-> Hno]. by rewrite (IH Hno).
Qed.

Lemma join_split_on (sep : ascii) (s : string) :
  PyStr.join (String sep EmptyString) (PyStr.split_on sep s) = s.
Proof.
  unfold PyStr.join. induction s as [|c s IH]; [done|]. cbn [PyStr.split_on].
  pose proof (split_on_nonempty sep s) as Hne.
  destruct (PyStr.split_on sep s) as [|w ws]; [done|].
  destruct (Ascii.eqb_spec c sep) as [->|Hc].
  - change (String.concat (String sep "") ("" :: w :: ws))
      with ("" ++ String sep "" ++ String.concat (String sep "") (w :: ws)).
    by rewrite IH.
  - destruct ws as [|w' ws].
    + cbn [String.concat] in IH |- *. by rewrite IH.
    + change (String.concat (String sep "") (String c w :: w' :: ws))
        with (String c (w ++ String sep "" ++ String.concat (String sep "") (w' :: ws))).
      by rewrite <- IH.
Qed.

Lemma replace_no_char (a b : ascii) (s : string) :
  has_char a s = false -> PyStr.replace a b s = s.
Proof.
  unfold PyStr.replace. induction s as [|c s IH]; cbn [has_char PyStr.map_chars]; [done|].
  intros Hno. apply orb_false_iff in Hno as [-> Hno]. by rewrite (IH Hno).
Qed.

(** X26.  [_generate_tool_description] on an identifier made of one of the
    twelve verbs of its table, an underscore and a remainder gives the
    capitalised verb, a blank and the remainder as it is, underscores
    included; on an identifier without underscore it gives the identifier in
    title case. *)
Theorem generate_tool_description_cases (attr_name : string) :
  (forall verb label object_name,
     (verb, label) ∈ description_verbs ->
     attr_name = verb ++ "_" ++ object_name ->
     _generate_tool_description attr_name = label ++ " " ++ object_name)
  /\ (has_char "_" attr_name = false ->
      _generate_tool_description attr_name = PyStr.title attr_name).
Proof.
  split.
  - intros verb label object_name Hin ->.
    assert (Hverbs : Forall (fun p => has_char "_" (fst p) = false) description_verbs)
      by (repeat constructor).
    assert (Hnd : NoDup (PyDict.keys description_verbs))
      by (apply (bool_decide_unpack _); vm_compute; exact I).
    pose proof (proj1 (Forall_forall _ _) Hverbs _ Hin) as Hno. cbn [fst] in Hno.
    pose proof (dict_elem_of_get description_verbs verb label Hnd Hin) as Hget.
    unfold _generate_tool_description.
    change ("_" ++ object_name) with (String "_" object_name).
    rewrite (split_on_prefix "_" verb object_name Hno).
    pose proof (split_on_nonempty "_" object_name) as Hne.
    pose proof (join_split_on "_" object_name) as Hjoin.
    destruct (PyStr.split_on "_" object_name) as [|w ws]; [done|].
    cbn [length Nat.leb tail]. by rewrite Hget, Hjoin.
  - intros Hno. unfold _generate_tool_description.
    rewrite (split_on_no_sep "_" attr_name Hno). cbn [length Nat.leb].
    by rewrite (replace_no_char "_" " " attr_name Hno).
Qed.

Lemma generate_tool_description_cases_witness :
  ("extract", "Extract") ∈ description_verbs
  /\ has_char "_" "summarize" = false
  /\ _generate_tool_description "extract_invoice_total" = "Extract invoice_total"
  /\ _generate_tool_description "summarize" = "Summarize".
Proof.
  assert (Hin : ("extract", "Extract") ∈ description_verbs) by left.
  split; [exact Hin|]. split; [reflexivity|]. split.
  - exact (proj1 (generate_tool_description_cases "extract_invoice_total")
             "extract" "Extract" "invoice_total" Hin eq_refl).
  - exact (proj2 (generate_tool_description_cases "summarize") eq_refl).
Defined.

(* ================================================================ *)
(** * The skill management of the agent *)

Lemma with_manager_same (self : SkilledReActAgent) :
  with_manager self (skill_manager self) = self.
Proof. by destruct self. Qed.

Lemma get_skill_content_raises (self : SkillManager) (skill_name : string)
      (include_resources : bool) e :
  get_skill_content self skill_name include_resources = Raise e -> is_Exception e = true.
Proof.
  unfold get_skill_content. destruct (PyDict.get skill_name (loaded_skills self)).
  - by destruct (_ && _).
  - by intros [= <-].
Qed.

Lemma cache_skill_content_effect (now : Q) (skill_name : string)
      (self : SkilledReActAgent) :
  cache_skill_content now skill_name self
  = (Return tt,
     match get_skill_content (skill_manager self) skill_name false with
     | Return skill_content =>
         with_cache self
           (_add_to_cache (_max_cache_size self) now skill_name skill_content
                          (_skill_context_cache self))
     | Raise _ => self
     end).
Proof.
  unfold cache_skill_content, try_except_Exception, bind, get_state, lift, modify, ret.
  destruct (get_skill_content (skill_manager self) skill_name false) as [c|e] eqn:E;
    [done|].
  by rewrite (get_skill_content_raises _ _ _ _ E).
Qed.

Lemma dict_set_keys_elem_of {K V} `{EqDecision K} (d : list (K * V)) k v k' :
  k' ∈ PyDict.keys (PyDict.set k v d) -> k' = k \/ k' ∈ PyDict.keys d.
Proof.
  intros Hin. apply list_elem_of_fmap in Hin as ([k0 v0] & -> & Hin).
  apply dict_set_elem_of in Hin as [[= -> ->]|Hin]; [by left|].
  right. apply list_elem_of_fmap. by exists (k0, v0).
Qed.

Lemma remove_from_cache_keys (skill_name : string) (cache : Cache) name :
  NoDup (PyDict.keys cache) ->
  name ∈ PyDict.keys (_remove_from_cache skill_name cache) ->
  name ∈ PyDict.keys cache.
Proof.
  intros Hnd. unfold _remove_from_cache.
  destruct (PyDict.mem skill_name cache); [|done].
  rewrite dict_del_keys by done. intros Hin. by apply list_elem_of_filter in Hin as [_ ?].
Qed.

Lemma add_to_cache_keys (max_cache_size : nat) (now : Q) (skill_name content : string)
      (cache : Cache) :
  NoDup (PyDict.keys cache) ->
  NoDup (PyDict.keys (_add_to_cache max_cache_size now skill_name content cache))
  /\ forall name,
       name ∈ PyDict.keys (_add_to_cache max_cache_size now skill_name content cache) ->
       name = skill_name \/ name ∈ PyDict.keys cache.
Proof.
  intros Hnd.
  destruct (remove_from_cache_fresh skill_name cache Hnd) as [Hnd' _].
  pose proof (remove_from_cache_keys skill_name cache) as Hkeys.
  unfold _add_to_cache. unfold _remove_from_cache in Hnd', Hkeys.
  split.
  - eapply sublist_NoDup; [|apply keys_evict_oldest_sublist].
    by apply dict_set_keys_NoDup.
  - intros name Hin.
    eapply elem_of_sublist in Hin; [|apply keys_evict_oldest_sublist].
    apply dict_set_keys_elem_of in Hin as [->|Hin]; [by left|].
    right. by apply Hkeys.
Qed.

Lemma list_remove_spec (x : string) (l : list string) :
  NoDup l ->
  NoDup (list_remove x l) /\ forall y, y ∈ list_remove x l <-> y ∈ l /\ y ≠ x.
Proof.
  induction l as [|z l IH]; cbn [list_remove].
  - intros _. split; [constructor|]. intros y. split; [|by intros [? _]].
    intros Hin. by apply elem_of_nil in Hin.
  - rewrite NoDup_cons. intros [Hz Hnd]. destruct (IH Hnd) as [IH1 IH2].
    destruct (String.eqb_spec z x) as [->|Hne].
    + split; [done|]. intros y. rewrite elem_of_cons. split.
      * intros Hy. split; [by right|]. by intros ->.
      * by intros [[->|Hy] Hne].
    + split.
      * rewrite NoDup_cons. split; [|done]. rewrite IH2. by intros [? _].
      * intros y. rewrite !elem_of_cons, IH2. split.
        -- intros [->|[? ?]]; [by split; [left|] | by split; [right|]].
        -- intros [[->|?] ?]; [by left | by right].
Qed.

(** What [activate_skill] leaves in place, whatever its outcome. *)
Lemma activate_skill_keeps (w : World) (skill_name : string) (self : SkillManager) :
  discovered_skills (snd (activate_skill w skill_name self)) = discovered_skills self
  /\ (forall s, PyDict.mem s (loaded_skills self) = true ->
        PyDict.mem s (loaded_skills (snd (activate_skill w skill_name self))) = true)
  /\ (forall other, other ≠ skill_name ->
        PyDict.get other (groups (toolkit (snd (activate_skill w skill_name self))))
        = PyDict.get other (groups (toolkit self)))
  /\ (fst (activate_skill w skill_name self) ≠ Return true ->
      forall g grp, PyDict.get g (groups (toolkit self)) = Some grp ->
        PyDict.get g (groups (toolkit (snd (activate_skill w skill_name self))))
        = Some grp)
  /\ (PyDict.mem (KStr skill_name) (discovered_skills self) = true ->
      fst (activate_skill w skill_name self) ≠ Return false).
Proof.
  rewrite activate_skill_steps.
  destruct (PyDict.mem (KStr skill_name) (discovered_skills self)); cbn [negb];
    [|by repeat split].
  destruct (update_tool_groups_frame skill_name true self) as (Hd & Hl & _ & Hg & _).
  destruct (negb (PyDict.mem skill_name (loaded_skills self))).
  - destruct (load_skill_effect w skill_name self)
      as (_ & Hd1 & Hg1 & Hg2 & _ & _ & Hloaded).
    destruct (load_skill w skill_name self) as [[data|e] self1]; cbn [fst snd] in *.
    + destruct (update_tool_groups_frame skill_name true self1)
        as (Hd' & Hl' & _ & Hg' & _).
      rewrite Hd', Hl', Hd1. split; [done|]. split; [|split; [|split; [done|done]]].
      * intros s Hs. destruct Hloaded as [[-> _]|(_ & -> & _)]; [done|].
        by apply dict_mem_set.
      * intros other Hne. rewrite Hg' by done. by apply Hg2.
    + rewrite Hloaded. by repeat split.
  - cbn [fst snd]. rewrite Hd, Hl. by repeat split.
Qed.

Lemma activate_skill_tool_steps (w : World) (now : Q) (skill_name : string)
      (self : SkilledReActAgent) :
  activate_skill_tool w now skill_name self
  = match activate_skill w skill_name (skill_manager self) with
    | (Raise e, manager) => (Raise e, with_manager self manager)
    | (Return false, manager) =>
        (Return (text_response ("Failed to activate skill: " ++ skill_name)),
         with_manager self manager)
    | (Return true, manager) =>
        (Return (text_response ("Successfully activated skill: " ++ skill_name)),
         snd (cache_skill_content now skill_name
                (with_active_skills (with_manager self manager)
                   (if bool_decide (skill_name ∈ active_skills self)
                    then active_skills self
                    else (active_skills self ++ [skill_name])%list))))
    end.
Proof.
  unfold activate_skill_tool, bind at 1, on_manager.
  destruct (activate_skill w skill_name (skill_manager self)) as [[[|]|e] manager];
    [|done|done].
  unfold bind at 1, get_state. unfold bind at 1. cbn [active_skills with_manager].
  destruct (bool_decide (skill_name ∈ active_skills self)); cbn [negb];
    unfold modify, ret, bind; rewrite !cache_skill_content_effect; reflexivity.
Qed.

Lemma deactivate_skill_tool_steps (skill_name : string) (self : SkilledReActAgent) :
  deactivate_skill_tool skill_name self
  = if negb (PyDict.mem (KStr skill_name) (discovered_skills (skill_manager self)))
    then (Return (text_response ("Failed to deactivate skill: " ++ skill_name)), self)
    else
      (Return (text_response ("Successfully deactivated skill: " ++ skill_name)),
       mkAgent (snd (on_toolkit (update_tool_groups [skill_name] false)
                                (skill_manager self)))
               (skill_matching_threshold self)
               (if bool_decide (skill_name ∈ active_skills self)
                then list_remove skill_name (active_skills self)
                else active_skills self)
               (_max_cache_size self)
               (_remove_from_cache skill_name (_skill_context_cache self))).
Proof.
  unfold deactivate_skill_tool, bind at 1, on_manager.
  rewrite deactivate_skill_steps.
  destruct (negb (PyDict.mem (KStr skill_name) _)).
  - by rewrite with_manager_same.
  - unfold bind at 1, get_state. unfold bind at 1. cbn [active_skills with_manager].
    by destruct (bool_decide (skill_name ∈ active_skills self)).
Qed.

Lemma auto_activate_one_steps (w : World) (now : Q) (skill_name : string)
      (self : SkilledReActAgent) :
  auto_activate_one w now skill_name self
  = if bool_decide (skill_name ∈ active_skills self) then (Return tt, self)
    else match activate_skill w skill_name (skill_manager self) with
         | (Raise e, manager) => (Raise e, with_manager self manager)
         | (Return _, manager) =>
             (Return tt,
              snd (cache_skill_content now skill_name
                     (with_active_skills (with_manager self manager)
                        (active_skills self ++ [skill_name])%list)))
         end.
Proof.
  unfold auto_activate_one, bind at 1, get_state.
  destruct (bool_decide (skill_name ∈ active_skills self)); cbn [negb]; [done|].
  unfold bind at 1, on_manager.
  destruct (activate_skill w skill_name (skill_manager self)) as [[b|e] manager]; [|done].
  unfold bind, modify. rewrite !cache_skill_content_effect. reflexivity.
Qed.

Lemma initialize_skills_steps (w : World) (self : SkilledReActAgent) :
  snd (_initialize_skills w self)
  = with_manager self (snd (discover_skills w (skill_manager self))).
Proof.
  unfold _initialize_skills, try_except_Exception, bind, on_manager, ret.
  destruct (discover_skills w (skill_manager self)) as [[skills|e] manager]; [done|].
  by destruct (is_Exception e).
Qed.

(** The agent stays consistent when its manager is replaced by one that is
    consistent, has kept the loaded skills and has kept the groups. *)
Lemma with_manager_consistent (self : SkilledReActAgent) (manager : SkillManager) :
  agent_consistent self ->
  consistent manager ->
  (forall s, PyDict.mem s (loaded_skills (skill_manager self)) = true ->
             PyDict.mem s (loaded_skills manager) = true) ->
  (forall g grp, PyDict.get g (groups (toolkit (skill_manager self))) = Some grp ->
                 PyDict.get g (groups (toolkit manager)) = Some grp) ->
  agent_consistent (with_manager self manager).
Proof.
  intros (Hnd & Hcnd & Hcache & Hactive & _) Hmanager Hloaded Hgroups.
  split; [done|]. split; [done|]. split; [done|]. split; [|done].
  intros s Hs. destruct (Hactive s Hs) as [Hl (g & Hg & Ha)].
  split; [by apply Hloaded|]. exists g. split; [by apply Hgroups | done].
Qed.

(** The agent stays consistent when a skill that is loaded and whose group
    is active is appended to the active skills and its content is cached. *)
Lemma activated_agent_consistent (now : Q) (skill_name : string)
      (self : SkilledReActAgent) (manager : SkillManager) :
  agent_consistent self ->
  consistent manager ->
  (forall s, PyDict.mem s (loaded_skills (skill_manager self)) = true ->
             PyDict.mem s (loaded_skills manager) = true) ->
  (forall other, other ≠ skill_name ->
     PyDict.get other (groups (toolkit manager))
     = PyDict.get other (groups (toolkit (skill_manager self)))) ->
  PyDict.mem skill_name (loaded_skills manager) = true ->
  (exists g, PyDict.get skill_name (groups (toolkit manager)) = Some g
             /\ tg_active g = true) ->
  agent_consistent
    (snd (cache_skill_content now skill_name
            (with_active_skills (with_manager self manager)
               (if bool_decide (skill_name ∈ active_skills self) then active_skills self
                else (active_skills self ++ [skill_name])%list)))).
Proof.
  intros (Hnd & Hcnd & Hcache & Hactive & _) Hmanager Hloaded Hothers Hname Hgroup.
  set (active' := if bool_decide (skill_name ∈ active_skills self) then active_skills self
                  else (active_skills self ++ [skill_name])%list).
  assert (Hin : forall s, s ∈ active' <-> s ∈ active_skills self \/ s = skill_name).
  { intros s. subst active'. case_bool_decide as Hc.
    - split; [by left | by intros [?| ->]].
    - by rewrite elem_of_app, list_elem_of_singleton. }
  assert (Hnd' : NoDup active').
  { subst active'. case_bool_decide as Hc; [done|].
    apply NoDup_app. split; [done|]. split; [|apply NoDup_singleton].
    intros s Hs Hs'. apply list_elem_of_singleton in Hs'. by subst s. }
  assert (Hactive' : forall s, s ∈ active' ->
            PyDict.mem s (loaded_skills manager) = true
            /\ exists g, PyDict.get s (groups (toolkit manager)) = Some g
                         /\ tg_active g = true).
  { intros s Hs. destruct (decide (s = skill_name)) as [->|Hne]; [done|].
    apply Hin in Hs as [Hs|Hs]; [|done].
    destruct (Hactive s Hs) as [Hl (g & Hg & Ha)]. split; [by apply Hloaded|].
    exists g. by rewrite Hothers. }
  rewrite cache_skill_content_effect. cbn [snd].
  destruct (get_skill_content _ skill_name false) as [c|e].
  - destruct (add_to_cache_keys (_max_cache_size self) now skill_name c
                (_skill_context_cache self) Hcnd) as [Hk1 Hk2].
    split; [exact Hnd'|]. split; [exact Hk1|]. split; [|split; [exact Hactive' | done]].
    intros s Hs. apply Hk2 in Hs as [->|Hs]; apply Hin; [by right|].
    left. by apply Hcache.
  - split; [exact Hnd'|]. split; [exact Hcnd|]. split; [|split; [exact Hactive' | done]].
    intros s Hs. apply Hin. left. by apply Hcache.
Qed.

Lemma init_agent_consistent (skill_directory : string) (threshold : Q) :
  agent_consistent (SkilledReActAgent_init skill_directory threshold).
Proof.
  split; [apply NoDup_nil_2|]. split; [apply NoDup_nil_2|].
  split; [intros s Hs; by apply elem_of_nil in Hs|].
  split; [intros s Hs; by apply elem_of_nil in Hs|].
  split; [apply NoDup_nil_2 | discriminate].
Qed.

Lemma initialize_skills_consistent (w : World) (self : SkilledReActAgent) :
  agent_consistent self -> agent_consistent (snd (_initialize_skills w self)).
Proof.
  intros Hself. rewrite initialize_skills_steps, discover_skills_steps.
  destruct (path_exists w (skill_directory (skill_manager self)))
    as [directory_exists|e]; [|by rewrite with_manager_same].
  destruct (negb directory_exists); [by rewrite with_manager_same|].
  destruct (path_iterdir w (skill_directory (skill_manager self))) as [entries|e];
    [|by rewrite with_manager_same].
  destruct (discover_steps w entries []) as [skills|e]; [|by rewrite with_manager_same].
  exact Hself.
Qed.

Lemma activate_skill_tool_consistent (w : World) (now : Q) (skill_name : string)
      (self : SkilledReActAgent) :
  agent_consistent self ->
  agent_consistent (snd (activate_skill_tool w now skill_name self)).
Proof.
  intros Hself. pose proof Hself as (_ & _ & _ & _ & Hmanager).
  rewrite activate_skill_tool_steps.
  pose proof (consistent_activate_skill w skill_name _ Hmanager) as Hc.
  destruct (activate_skill_keeps w skill_name (skill_manager self))
    as (_ & Hl & Hg & Hkeep & _).
  destruct (activate_skill w skill_name (skill_manager self)) as [[[|]|e] manager] eqn:E;
    cbn [fst snd] in *.
  - destruct (activate_skill_returns_True w skill_name _ _ Hmanager E)
      as (_ & Hloaded & Hgroup & _).
    by apply activated_agent_consistent.
  - apply with_manager_consistent; [done..|]. by apply Hkeep.
  - apply with_manager_consistent; [done..|]. by apply Hkeep.
Qed.

Lemma deactivated_active_skills (skill_name : string) (active : list string) :
  NoDup active ->
  NoDup (if bool_decide (skill_name ∈ active) then list_remove skill_name active
         else active)
  /\ forall s, s ∈ (if bool_decide (skill_name ∈ active)
                    then list_remove skill_name active else active)
               <-> s ∈ active /\ s ≠ skill_name.
Proof.
  intros Hnd. case_bool_decide as Hc; [by apply list_remove_spec|].
  split; [done|]. intros s. split; [|by intros [? _]].
  intros Hs. split; [done | by intros ->].
Qed.

Lemma deactivate_skill_tool_consistent (skill_name : string) (self : SkilledReActAgent) :
  agent_consistent self ->
  agent_consistent (snd (deactivate_skill_tool skill_name self)).
Proof.
  intros Hself. rewrite deactivate_skill_tool_steps.
  destruct (negb (PyDict.mem (KStr skill_name) _)); [done|]. cbn [snd].
  destruct Hself as (Hnd & Hcnd & Hcache & Hactive & Hmanager).
  destruct (update_tool_groups_frame skill_name false (skill_manager self))
    as (_ & Hl & _ & Hg & _).
  destruct (remove_from_cache_fresh skill_name _ Hcnd) as [Hcnd' Hout].
  destruct (deactivated_active_skills skill_name _ Hnd) as [Hnd' Hin].
  split; [exact Hnd'|]. split; [exact Hcnd'|].
  split; [|split; [|by apply consistent_update]].
  - intros s Hs. apply Hin. split; [|by intros ->].
    apply Hcache. by eapply remove_from_cache_keys.
  - intros s Hs. apply Hin in Hs as [Hs Hne]. cbn [skill_manager].
    rewrite Hl, Hg by done. by apply Hactive.
Qed.

Lemma cache_skill_content_frame (now : Q) (skill_name : string)
      (self : SkilledReActAgent) :
  skill_manager (snd (cache_skill_content now skill_name self)) = skill_manager self
  /\ skill_matching_threshold (snd (cache_skill_content now skill_name self))
     = skill_matching_threshold self
  /\ active_skills (snd (cache_skill_content now skill_name self)) = active_skills self.
Proof.
  rewrite cache_skill_content_effect. cbn [snd].
  by destruct (get_skill_content (skill_manager self) skill_name false).
Qed.

(** One round of the loop of [_auto_activate_skills], for a discovered
    skill. *)
Lemma auto_activate_one_spec (w : World) (now : Q) (skill_name : string)
      (self : SkilledReActAgent) :
  agent_consistent self ->
  PyDict.mem (KStr skill_name) (discovered_skills (skill_manager self)) = true ->
  agent_consistent (snd (auto_activate_one w now skill_name self))
  /\ discovered_skills (skill_manager (snd (auto_activate_one w now skill_name self)))
     = discovered_skills (skill_manager self)
  /\ skill_matching_threshold (snd (auto_activate_one w now skill_name self))
     = skill_matching_threshold self
  /\ (exists more,
        active_skills (snd (auto_activate_one w now skill_name self))
        = (active_skills self ++ more)%list
        /\ forall s, s ∈ more -> s = skill_name)
  /\ (fst (auto_activate_one w now skill_name self) = Return tt ->
      skill_name ∈ active_skills (snd (auto_activate_one w now skill_name self))).
Proof.
  intros Hself Hdiscovered. pose proof Hself as (_ & _ & _ & _ & Hmanager).
  rewrite auto_activate_one_steps. case_bool_decide as Hc.
  { split; [done|]. split; [done|]. split; [done|]. split; [|done].
    exists []. rewrite app_nil_r. split; [done|]. intros s Hs. by apply elem_of_nil in Hs. }
  pose proof (consistent_activate_skill w skill_name _ Hmanager) as Hcons.
  destruct (activate_skill_keeps w skill_name (skill_manager self))
    as (Hd & Hl & Hg & Hkeep & Hfalse).
  specialize (Hfalse Hdiscovered).
  destruct (activate_skill w skill_name (skill_manager self)) as [[[|]|e] manager] eqn:E;
    cbn [fst snd] in *; [|done|].
  - destruct (activate_skill_returns_True w skill_name _ _ Hmanager E)
      as (_ & Hloaded & Hgroup & _).
    pose proof (activated_agent_consistent now skill_name self manager Hself Hcons Hl Hg
                  Hloaded Hgroup) as Hafter.
    rewrite bool_decide_eq_false_2 in Hafter by done.
    destruct (cache_skill_content_frame now skill_name
                (with_active_skills (with_manager self manager)
                   (active_skills self ++ [skill_name])%list)) as (-> & -> & ->).
    split; [exact Hafter|]. split; [exact Hd|]. split; [done|]. split.
    + exists [skill_name]. split; [done|]. intros s Hs.
      by apply list_elem_of_singleton in Hs.
    + intros _. apply elem_of_app. right. by apply list_elem_of_singleton.
  - split; [|split; [exact Hd|split; [done|split; [|done]]]].
    + apply with_manager_consistent; [done..|]. by apply Hkeep.
    + exists []. rewrite app_nil_r. split; [done|]. intros s Hs.
      by apply elem_of_nil in Hs.
Qed.

Lemma auto_activate_loop (w : World) (now : string -> Q) (names : list string)
      (self : SkilledReActAgent) :
  agent_consistent self ->
  (forall s, s ∈ names ->
     PyDict.mem (KStr s) (discovered_skills (skill_manager self)) = true) ->
  agent_consistent
    (snd (for_each (fun skill_name => auto_activate_one w (now skill_name) skill_name)
                   names self))
  /\ discovered_skills
       (skill_manager
          (snd (for_each (fun skill_name => auto_activate_one w (now skill_name) skill_name)
                         names self)))
     = discovered_skills (skill_manager self)
  /\ skill_matching_threshold
       (snd (for_each (fun skill_name => auto_activate_one w (now skill_name) skill_name)
                      names self))
     = skill_matching_threshold self
  /\ (exists more,
        active_skills
          (snd (for_each (fun skill_name => auto_activate_one w (now skill_name) skill_name)
                         names self))
        = (active_skills self ++ more)%list
        /\ forall s, s ∈ more -> s ∈ names)
  /\ (fst (for_each (fun skill_name => auto_activate_one w (now skill_name) skill_name)
                    names self) = Return tt ->
      forall s, s ∈ names ->
        s ∈ active_skills
              (snd (for_each
                      (fun skill_name => auto_activate_one w (now skill_name) skill_name)
                      names self))).
Proof.
  revert self. induction names as [|name names IH]; intros self Hself Hdiscovered.
  - cbn [for_each ret fst snd]. split; [done|]. split; [done|]. split; [done|]. split.
    + exists []. rewrite app_nil_r. split; [done|]. intros s Hs.
      by apply elem_of_nil in Hs.
    + intros _ s Hs. by apply elem_of_nil in Hs.
  - cbn [for_each]. unfold bind.
    destruct (auto_activate_one_spec w (now name) name self Hself)
      as (Hc & Hd & Ht & (more & Hmore & Hmore') & Hret).
    { apply Hdiscovered. by left. }
    destruct (auto_activate_one w (now name) name self) as [[[]|e] self1];
      cbn [fst snd] in *.
    + destruct (IH self1 Hc) as (Hc' & Hd' & Ht' & (more' & Hm & Hm') & Hret').
      { intros s Hs. rewrite Hd. apply Hdiscovered. by right. }
      split; [exact Hc'|]. split; [by rewrite Hd'|]. split; [by rewrite Ht'|]. split.
      * exists (more ++ more')%list. rewrite Hm, Hmore, app_assoc. split; [done|].
        intros s Hs. apply elem_of_app in Hs as [Hs|Hs].
        -- apply Hmore' in Hs as ->. by left.
        -- right. by apply Hm'.
      * intros Hr s Hs. apply elem_of_cons in Hs as [->|Hs].
        -- rewrite Hm. apply elem_of_app. left. by apply Hret.
        -- by apply Hret'.
    + split; [exact Hc|]. split; [exact Hd|]. split; [exact Ht|]. split; [|done].
      exists more. split; [done|]. intros s Hs. apply Hmore' in Hs as ->. by left.
Qed.

(** Skills that are active already are passed over by the loop. *)
Lemma auto_activate_loop_active (w : World) (now : string -> Q) (names : list string)
      (self : SkilledReActAgent) :
  (forall s, s ∈ names -> s ∈ active_skills self) ->
  for_each (fun skill_name => auto_activate_one w (now skill_name) skill_name) names self
  = (Return tt, self).
Proof.
  induction names as [|name names IH]; intros Hactive; [done|].
  cbn [for_each]. unfold bind. rewrite auto_activate_one_steps.
  rewrite bool_decide_eq_true_2 by (apply Hactive; by left).
  apply IH. intros s Hs. apply Hactive. by right.
Qed.

Lemma match_loop_names threshold user_message_lower (ds : list (Key * SkillMetadata.t))
      acc relevant_skills :
  fold_left
    (fun (acc : result (list Key)) '(skill_name, metadata) =>
       (let? relevant_skills := acc in
        let? hit := skill_is_relevant threshold user_message_lower skill_name metadata in
        Return (if hit then relevant_skills ++ [skill_name] else relevant_skills)%list)%py)
    ds (Return acc)
  = Return relevant_skills ->
  map KStr (key_names acc) = acc ->
  map KStr (key_names relevant_skills) = relevant_skills.
Proof.
  revert acc. induction ds as [|[k md] ds IH]; intros acc.
  - by intros [= <-].
  - cbn [fold_left rbind].
    destruct (skill_is_relevant threshold user_message_lower k md) as [hit|e] eqn:E;
      cbn [rbind]; [|by rewrite match_loop_raise].
    intros Hrun Hacc. apply (IH _ Hrun). destruct hit; [|done].
    destruct k as [|s]; [discriminate E|].
    unfold key_names. rewrite omap_app, map_app. cbn [omap list_omap map].
    by f_equal.
Qed.

Lemma match_skills_names (threshold : Q) (ds : list (Key * SkillMetadata.t))
      (user_message : string) (relevant_skills : list Key) :
  _match_skills_to_task threshold ds user_message = Return relevant_skills ->
  map KStr (key_names relevant_skills) = relevant_skills
  /\ forall s, s ∈ key_names relevant_skills -> PyDict.mem (KStr s) ds = true.
Proof.
  intros Hrun.
  assert (Hnames : map KStr (key_names relevant_skills) = relevant_skills
                   /\ forall k, k ∈ relevant_skills -> k ∈ PyDict.keys ds).
  { destruct ds as [|p ds]; [by injection Hrun as <-|].
    unfold _match_skills_to_task in Hrun. split.
    - by apply (match_loop_names _ _ _ _ _ Hrun).
    - apply match_loop_keys in Hrun as (found & -> & Hsub).
      intros k Hk. by eapply elem_of_sublist. }
  destruct Hnames as [Hmap Hkeys]. split; [exact Hmap|].
  intros s Hs. apply dict_mem_true, Hkeys. rewrite <- Hmap.
  apply list_elem_of_fmap. by exists s.
Qed.

Lemma auto_activate_skills_steps (w : World) (now : string -> Q) (user_message : string)
      (self : SkilledReActAgent) :
  _auto_activate_skills w now user_message self
  = match _match_skills_to_task (skill_matching_threshold self)
            (discovered_skills (skill_manager self)) user_message with
    | Raise e => (Raise e, self)
    | Return relevant_skills =>
        for_each (fun skill_name => auto_activate_one w (now skill_name) skill_name)
                 (key_names relevant_skills) self
    end.
Proof.
  unfold _auto_activate_skills, bind, get_state, lift.
  by destruct (_match_skills_to_task _ _ user_message).
Qed.

Lemma auto_activate_skills_consistent (w : World) (now : string -> Q)
      (user_message : string) (self : SkilledReActAgent) :
  agent_consistent self ->
  agent_consistent (snd (_auto_activate_skills w now user_message self)).
Proof.
  intros Hself. rewrite auto_activate_skills_steps.
  destruct (_match_skills_to_task _ _ user_message) as [relevant_skills|e] eqn:E;
    [|done].
  apply auto_activate_loop; [done|]. by apply (match_skills_names _ _ _ _ E).
Qed.

(** X27.  The agent stays in step with its manager.  A new agent has
    pairwise different active skills, each of them loaded and with an
    active tool group, cache entries for active skills only, and a
    consistent manager; and [_initialize_skills], the tools
    [activate_skill] and [deactivate_skill], and [_auto_activate_skills]
    keep this so, whether they return or raise. *)
Theorem agent_stays_consistent (w : World) :
  (forall skill_directory threshold,
     agent_consistent (SkilledReActAgent_init skill_directory threshold))
  /\ forall self,
       agent_consistent self ->
       agent_consistent (snd (_initialize_skills w self))
       /\ (forall now skill_name,
             agent_consistent (snd (activate_skill_tool w now skill_name self)))
       /\ (forall skill_name,
             agent_consistent (snd (deactivate_skill_tool skill_name self)))
       /\ (forall now user_message,
             agent_consistent (snd (_auto_activate_skills w now user_message self))).
Proof.
  split; [exact init_agent_consistent|].
  intros self Hself. split; [by apply initialize_skills_consistent|].
  split; [intros now skill_name; by apply activate_skill_tool_consistent|].
  split; [intros skill_name; by apply deactivate_skill_tool_consistent|].
  intros now user_message. by apply auto_activate_skills_consistent.
Qed.

Lemma sample_agent_consistent : agent_consistent sample_agent.
Proof.
  apply with_manager_consistent; [apply init_agent_consistent | | done | done].
  split; [apply NoDup_nil_2 | discriminate].
Qed.

Lemma agent_stays_consistent_witness :
  agent_consistent
    (snd (deactivate_skill_tool "pdf-tools"
            (snd (activate_skill_tool sample_world 1 "pdf-tools"
                    (snd (_initialize_skills sample_world
                            (SkilledReActAgent_init
                               "skills" default_skill_matching_threshold)))))))
  /\ active_skills
       (snd (activate_skill_tool sample_world 1 "pdf-tools"
               (snd (_initialize_skills sample_world
                       (SkilledReActAgent_init
                          "skills" default_skill_matching_threshold)))))
     = ["pdf-tools"].
Proof.
  split; [|vm_compute; reflexivity].
  destruct (agent_stays_consistent sample_world) as [Hinit Hstep].
  destruct (Hstep _ (Hinit "skills" default_skill_matching_threshold))
    as (Hdiscovered & _).
  destruct (Hstep _ Hdiscovered) as (_ & Hactivate & _).
  destruct (Hstep _ (Hactivate 1%Q "pdf-tools")) as (_ & _ & Hdeactivate & _).
  exact (Hdeactivate "pdf-tools").
Defined.

(** X28.  The tool [activate_skill] of the agent.  For a skill that is not
    discovered it answers "Failed to activate skill: <name>" and leaves
    the agent as it was.  An error of the manager's [activate_skill] is
    not caught: it comes out of the tool, and the agent keeps its active
    skills and its cache.  For a discovered skill on a consistent agent,
    every answer is "Successfully activated skill: <name>"; the skill is
    then appended to the active skills unless it was among them, its tool
    group is active, the content of the skill can be read from the
    manager, and that content is the most recent entry of the cache if
    the cache holds one entry at least, while a cache of size zero stays
    empty. *)
Theorem activate_skill_tool_outcome (w : World) (now : Q) (skill_name : string)
        (self : SkilledReActAgent) :
  (PyDict.mem (KStr skill_name) (discovered_skills (skill_manager self)) = false ->
   activate_skill_tool w now skill_name self
   = (Return (text_response ("Failed to activate skill: " ++ skill_name)), self))
  /\ (forall e manager,
        activate_skill w skill_name (skill_manager self) = (Raise e, manager) ->
        activate_skill_tool w now skill_name self = (Raise e, with_manager self manager))
  /\ (agent_consistent self ->
      PyDict.mem (KStr skill_name) (discovered_skills (skill_manager self)) = true ->
      forall response self',
        activate_skill_tool w now skill_name self = (Return response, self') ->
        response = text_response ("Successfully activated skill: " ++ skill_name)
        /\ active_skills self'
           = (if bool_decide (skill_name ∈ active_skills self) then active_skills self
              else (active_skills self ++ [skill_name])%list)
        /\ (exists g, PyDict.get skill_name (groups (toolkit (skill_manager self')))
                      = Some g
                      /\ tg_active g = true)
        /\ exists skill_content,
             get_skill_content (skill_manager self') skill_name false
             = Return skill_content
             /\ (1 <= _max_cache_size self ->
                 last (skill_context_cache (_skill_context_cache self'))
                 = Some (skill_name, skill_content))
             /\ (_max_cache_size self = 0 -> _skill_context_cache self' = [])).
Proof.
  split; [|split].
  - intros Hmissing. rewrite activate_skill_tool_steps, activate_skill_steps, Hmissing.
    cbn [negb]. by rewrite with_manager_same.
  - intros e manager E. by rewrite activate_skill_tool_steps, E.
  - intros (_ & Hcnd & _ & _ & Hmanager) Hdiscovered response self'.
    rewrite activate_skill_tool_steps.
    destruct (activate_skill_keeps w skill_name (skill_manager self))
      as (_ & _ & _ & _ & Hfalse).
    specialize (Hfalse Hdiscovered).
    destruct (activate_skill w skill_name (skill_manager self))
      as [[[|]|e] manager] eqn:E; cbn [fst] in Hfalse; [|done|done].
    destruct (activate_skill_returns_True w skill_name _ _ Hmanager E)
      as (_ & Hloaded & Hgroup & _).
    rewrite cache_skill_content_effect. cbn [snd]. intros Hrun.
    injection Hrun as <- <-. split; [done|].
    unfold PyDict.mem in Hloaded. unfold get_skill_content. cbn [skill_manager with_active_skills
      with_manager].
    destruct (PyDict.get skill_name (loaded_skills manager)) as [data|] eqn:Hget;
      [|done].
    cbn [andb with_cache with_active_skills with_manager active_skills skill_manager
         _skill_context_cache _max_cache_size]. rewrite Hget.
    split; [done|]. split; [exact Hgroup|].
    exists (sd_content data). split; [done|]. split.
    + intros Hmax.
      destruct (add_to_cache_last (_max_cache_size self) now skill_name (sd_content data)
                  (_skill_context_cache self) Hcnd Hmax) as (older & -> & _).
      unfold skill_context_cache. rewrite map_app. cbn [map fst]. apply last_snoc.
    + intros ->. unfold _add_to_cache. rewrite evict_oldest_drop, Nat.sub_0_r.
      apply drop_all.
Qed.

Lemma activate_skill_tool_outcome_witness :
  agent_consistent sample_agent
  /\ activate_skill_tool sample_world 1 "notes" sample_agent
     = (Return (text_response "Failed to activate skill: notes"), sample_agent)
  /\ active_skills (snd (activate_skill_tool sample_world 1 "pdf-tools" sample_agent))
     = ["pdf-tools"]
  /\ exists skill_content,
       last (skill_context_cache
               (_skill_context_cache
                  (snd (activate_skill_tool sample_world 1 "pdf-tools" sample_agent))))
       = Some ("pdf-tools", skill_content).
Proof.
  pose proof sample_agent_consistent as Hself.
  split; [exact Hself|].
  destruct (activate_skill_tool_outcome sample_world 1 "notes" sample_agent)
    as (Hmissing & _).
  split; [exact (Hmissing eq_refl)|].
  destruct (activate_skill_tool_outcome sample_world 1 "pdf-tools" sample_agent)
    as (_ & _ & Hactive).
  destruct (Hactive Hself eq_refl _ _ ltac:(vm_compute; reflexivity))
    as (_ & Hactive_skills & _ & skill_content & _ & Hcached & _).
  split; [exact Hactive_skills|].
  exists skill_content. apply Hcached. vm_compute. lia.
Defined.

(** X29.  The tool [deactivate_skill] of the agent never raises.  For a
    skill that is not discovered it answers "Failed to deactivate skill:
    <name>" and leaves the agent as it was.  For a discovered skill, when
    the active skills are pairwise different, it answers "Successfully
    deactivated skill: <name>"; afterwards the skill is not among the
    active skills while all others are, a lookup of the skill in the
    cache misses while every other entry is found as before, the tool
    group of the skill, if there is one, is inactive, and the skill is
    still loaded: deactivation unloads nothing. *)
Theorem deactivate_skill_tool_outcome (skill_name : string) (self : SkilledReActAgent) :
  (PyDict.mem (KStr skill_name) (discovered_skills (skill_manager self)) = false ->
   deactivate_skill_tool skill_name self
   = (Return (text_response ("Failed to deactivate skill: " ++ skill_name)), self))
  /\ (PyDict.mem (KStr skill_name) (discovered_skills (skill_manager self)) = true ->
      NoDup (active_skills self) ->
      NoDup (PyDict.keys (_skill_context_cache self)) ->
      exists self',
        deactivate_skill_tool skill_name self
        = (Return (text_response ("Successfully deactivated skill: " ++ skill_name)),
           self')
        /\ (forall s, s ∈ active_skills self' <-> s ∈ active_skills self /\ s ≠ skill_name)
        /\ fst (_get_from_cache skill_name (_skill_context_cache self')) = None
        /\ (forall other, other ≠ skill_name ->
              PyDict.get other (_skill_context_cache self')
              = PyDict.get other (_skill_context_cache self))
        /\ PyDict.get skill_name (groups (toolkit (skill_manager self')))
           = (fun g => mkToolGroup (tg_description g) false (tg_notes g))
               <$> PyDict.get skill_name (groups (toolkit (skill_manager self)))
        /\ loaded_skills (skill_manager self') = loaded_skills (skill_manager self)).
Proof.
  split.
  - intros Hmissing. by rewrite deactivate_skill_tool_steps, Hmissing.
  - intros Hdiscovered Hnd Hcnd. rewrite deactivate_skill_tool_steps, Hdiscovered.
    cbn [negb]. eexists. split; [reflexivity|].
    cbn [active_skills _skill_context_cache skill_manager].
    destruct (update_tool_groups_frame skill_name false (skill_manager self))
      as (_ & Hl & _ & _ & Hg).
    destruct (remove_from_cache_fresh skill_name _ Hcnd) as [_ Hout].
    destruct (deactivated_active_skills skill_name _ Hnd) as [_ Hin].
    split; [exact Hin|]. split; [|split; [|split; [exact Hg | exact Hl]]].
    + unfold _get_from_cache. by rewrite (proj2 (dict_get_None _ _) Hout).
    + intros other Hne. unfold _remove_from_cache.
      destruct (PyDict.mem skill_name _); [by apply dict_del_get_ne | done].
Qed.

Lemma deactivate_skill_tool_outcome_witness :
  NoDup (active_skills
           (snd (activate_skill_tool sample_world 1 "pdf-tools" sample_agent)))
  /\ deactivate_skill_tool "notes" sample_agent
     = (Return (text_response "Failed to deactivate skill: notes"), sample_agent)
  /\ exists self',
       deactivate_skill_tool "pdf-tools"
         (snd (activate_skill_tool sample_world 1 "pdf-tools" sample_agent))
       = (Return (text_response "Successfully deactivated skill: pdf-tools"), self')
       /\ ~ "pdf-tools" ∈ active_skills self'
       /\ fst (_get_from_cache "pdf-tools" (_skill_context_cache self')) = None
       /\ tg_active <$> PyDict.get "pdf-tools" (groups (toolkit (skill_manager self')))
          = Some false.
Proof.
  assert (Hnd : NoDup (active_skills
                         (snd (activate_skill_tool sample_world 1 "pdf-tools"
                                 sample_agent))))
    by (apply (bool_decide_unpack _); vm_compute; exact I).
  assert (Hcnd : NoDup (PyDict.keys
                          (_skill_context_cache
                             (snd (activate_skill_tool sample_world 1 "pdf-tools"
                                     sample_agent)))))
    by (apply (bool_decide_unpack _); vm_compute; exact I).
  split; [exact Hnd|].
  destruct (deactivate_skill_tool_outcome "notes" sample_agent) as (Hmissing & _).
  split; [exact (Hmissing eq_refl)|].
  destruct (deactivate_skill_tool_outcome "pdf-tools"
              (snd (activate_skill_tool sample_world 1 "pdf-tools" sample_agent)))
    as (_ & Hdone).
  destruct (Hdone ltac:(vm_compute; reflexivity) Hnd Hcnd)
    as (self' & Hrun & Hin & Hmiss & _ & Hg & _).
  exists self'. split; [exact Hrun|]. split; [|split; [exact Hmiss|]].
  - intros Hs. apply Hin in Hs as [_ Hne]. by apply Hne.
  - rewrite Hg. vm_compute. reflexivity.
Defined.

Lemma key_names_elem_of (keys : list Key) (s : string) :
  s ∈ key_names keys <-> KStr s ∈ keys.
Proof.
  unfold key_names. rewrite list_elem_of_omap. split.
  - intros ([|s'] & Hin & Hs); [done|]. by injection Hs as ->.
  - intros Hin. by exists (KStr s).
Qed.

(** X30.  [_auto_activate_skills].  An error of the matcher comes out
    unchanged, and the agent is as it was.  Every key the matcher returns
    is a string.  When every relevant skill is active already, nothing is
    done at all: no skill is activated again and the cache is left
    alone.  On a consistent agent, the active skills only grow, at their
    end and by relevant skills; and when the call returns, every relevant
    skill is active, loaded and has an active tool group, and a second
    call with the same message changes nothing. *)
Theorem auto_activate_skills_outcome (w : World) (now : string -> Q)
        (user_message : string) (self : SkilledReActAgent) :
  (forall e,
     _match_skills_to_task (skill_matching_threshold self)
       (discovered_skills (skill_manager self)) user_message = Raise e ->
     _auto_activate_skills w now user_message self = (Raise e, self))
  /\ forall relevant_skills,
       _match_skills_to_task (skill_matching_threshold self)
         (discovered_skills (skill_manager self)) user_message
       = Return relevant_skills ->
       (forall k, k ∈ relevant_skills -> exists s, k = KStr s)
       /\ ((forall s, KStr s ∈ relevant_skills -> s ∈ active_skills self) ->
           _auto_activate_skills w now user_message self = (Return tt, self))
       /\ (agent_consistent self ->
           (exists more,
              active_skills (snd (_auto_activate_skills w now user_message self))
              = (active_skills self ++ more)%list
              /\ forall s, s ∈ more -> KStr s ∈ relevant_skills)
           /\ (fst (_auto_activate_skills w now user_message self) = Return tt ->
               (forall s, KStr s ∈ relevant_skills ->
                  s ∈ active_skills (snd (_auto_activate_skills w now user_message self))
                  /\ PyDict.mem s
                       (loaded_skills
                          (skill_manager
                             (snd (_auto_activate_skills w now user_message self))))
                     = true
                  /\ exists g,
                       PyDict.get s
                         (groups
                            (toolkit
                               (skill_manager
                                  (snd (_auto_activate_skills w now user_message self)))))
                       = Some g
                       /\ tg_active g = true)
               /\ _auto_activate_skills w now user_message
                    (snd (_auto_activate_skills w now user_message self))
                  = (Return tt, snd (_auto_activate_skills w now user_message self)))).
Proof.
  split.
  - intros e E. by rewrite auto_activate_skills_steps, E.
  - intros relevant_skills E.
    destruct (match_skills_names _ _ _ _ E) as [Hmap Hdiscovered].
    split; [|split].
    + intros k Hk. rewrite <- Hmap in Hk.
      apply list_elem_of_fmap in Hk as (s & -> & _). by exists s.
    + intros Hactive. rewrite auto_activate_skills_steps, E.
      apply auto_activate_loop_active. intros s Hs. by apply Hactive, key_names_elem_of.
    + intros Hself.
      rewrite (auto_activate_skills_steps w now user_message self), E.
      destruct (auto_activate_loop w now (key_names relevant_skills) self Hself
                  Hdiscovered)
        as (Hafter & Hd & Ht & (more & Hmore & Hmore') & Hret).
      split.
      * exists more. split; [exact Hmore|]. intros s Hs.
        by apply key_names_elem_of, Hmore'.
      * intros Hr. specialize (Hret Hr). split.
        -- intros s Hs. apply key_names_elem_of, Hret in Hs.
           split; [exact Hs|]. destruct Hafter as (_ & _ & _ & Hactive & _).
           by apply Hactive.
        -- rewrite auto_activate_skills_steps, Hd, Ht, E.
           by apply auto_activate_loop_active.
Qed.

Lemma auto_activate_skills_outcome_witness :
  agent_consistent sample_agent
  /\ _match_skills_to_task (skill_matching_threshold sample_agent)
       (discovered_skills (skill_manager sample_agent)) "please read pdf files"
     = Return [KStr "pdf-tools"]
  /\ active_skills
       (snd (_auto_activate_skills sample_world (fun _ => 1%Q) "please read pdf files"
               sample_agent))
     = ["pdf-tools"]
  /\ _auto_activate_skills sample_world (fun _ => 1%Q) "please read pdf files"
       (snd (_auto_activate_skills sample_world (fun _ => 1%Q) "please read pdf files"
               sample_agent))
     = (Return tt,
        snd (_auto_activate_skills sample_world (fun _ => 1%Q) "please read pdf files"
               sample_agent)).
Proof.
  pose proof sample_agent_consistent as Hself.
  assert (Hmatch : _match_skills_to_task (skill_matching_threshold sample_agent)
                     (discovered_skills (skill_manager sample_agent))
                     "please read pdf files"
                   = Return [KStr "pdf-tools"]) by (vm_compute; reflexivity).
  split; [exact Hself|]. split; [exact Hmatch|].
  destruct (auto_activate_skills_outcome sample_world (fun _ => 1%Q)
              "please read pdf files" sample_agent) as (_ & Hrelevant).
  destruct (Hrelevant _ Hmatch) as (_ & _ & Hrun).
  destruct (Hrun Hself) as (_ & Hreturned).
  destruct (Hreturned ltac:(vm_compute; reflexivity)) as (_ & Hagain).
  split; [vm_compute; reflexivity | exact Hagain].
Defined.
